(** * Samsung mini-split coordinator: a shallow embedding of the
    coordination engine and its state store.

    Sources embedded:
    - [src/src/server.ts]: [StateManager] (system state, bounded logs,
      temperature range, unit merge).
    - [src/src/coordinator/heat-pump-coordinator.ts]: [HeatPumpCoordinator]
      (sync, mode determination, conflict detection, action generation and
      execution, emergency off).
    - [src/src/services/lighting-monitor.ts]: [WeatherService] (cache,
      mock data, configuration) and [LightingMonitor] (lighting checks,
      manual turn-off, start).
    - [src/src/smartthings/device-manager.ts]: the lighting commands
      ([hasLightingCapability], [getLightingStatus], [turnOffLighting]).
    - [src/src/server.ts], Matter bridge: the system mode and setpoint
      conversions between the coordinator and the Matter thermostat.

    Temperatures are JavaScript numbers; they are modelled as rationals [Q]
    (JSON input never carries NaN or infinities).  Timestamps
    ([Date.now()]) are integers [Z] passed in explicitly.  A JavaScript
    [Map] keyed by device id is a [gmap string _]. *)

From Stdlib Require Import QArith Qround Qabs ZArith String List Lia Lqa
  Sorting.Sorted Sorting.Permutation.
From stdpp Require Import base gmap strings list pretty.

Local Open Scope Q_scope.

(* ================================================================== *)
(** ** Data model (server.ts, interfaces) *)

Inductive Mode := Heat | Cool | Off.

#[global] Instance Mode_eq_dec : EqDecision Mode.
Proof. solve_decision. Defined.

Definition mode_eqb (a b : Mode) : bool := bool_decide (a = b).

Definition mode_to_string (m : Mode) : string :=
  match m with Heat => "heat" | Cool => "cool" | Off => "off" end.

Record MiniSplitState := mkMiniSplitState {
  deviceId : string;
  name : string;
  currentTemperature : Q;
  targetTemperature : Q;
  mode : Mode;
  isOnline : bool;
  lastUpdated : Z;
  room : string;
  priority : Q;
  (** written by [executeCoordinationActions] through the object spread;
      absent ([None]) unless the last update carried it *)
  manualTemperatureOverride : option bool
}.

(** [Partial<MiniSplitState>]: an absent key is [None]. *)
Record MiniSplitUpdate := mkMiniSplitUpdate {
  u_deviceId : option string;
  u_name : option string;
  u_currentTemperature : option Q;
  u_targetTemperature : option Q;
  u_mode : option Mode;
  u_isOnline : option bool;
  u_lastUpdated : option Z;
  u_room : option string;
  u_priority : option Q;
  u_manualTemperatureOverride : option bool
}.

Definition emptyUpdate : MiniSplitUpdate :=
  mkMiniSplitUpdate None None None None None None None None None None.

(** The declared reasons, plus any other string passed through [as any]
    (e.g. ['emergency_stop']). *)
Inductive ModeChangeReason :=
  | UserRequest | WeatherBased | CoordinatorLogic | ScheduleReason | OverrideReason
  | ReasonText (s : string).

Record ModeChangeEvent := mkModeChangeEvent {
  ev_timestamp : Z;
  ev_deviceId : option string;
  ev_previousMode : Mode;
  ev_newMode : Mode;
  ev_reason : ModeChangeReason;
  ev_outsideTemp : option Q
}.

Inductive ConflictType := ModeMismatch | TemperatureRange | RapidSwitching.

Record ConflictEvent := mkConflictEvent {
  cf_timestamp : Z;
  cf_conflictType : ConflictType;
  cf_description : string;
  cf_deviceIds : list string;
  cf_resolved : bool;
  cf_resolution : option string
}.

Record SystemState := mkSystemState {
  globalMode : Mode;
  globalMinTemp : Q;
  globalMaxTemp : Q;
  outsideTemperature : Q;
  lastOutsideWeatherUpdate : Z;
  miniSplits : gmap string MiniSplitState;
  modeChangeHistory : list ModeChangeEvent;
  conflicts : list ConflictEvent
}.

Record Schedule := mkSchedule {
  sc_id : string;
  sc_enabled : bool;
  sc_timeStart : string;
  sc_timeEnd : string;
  sc_daysOfWeek : list nat;
  targetMinTemp : Q;
  targetMaxTemp : Q
}.

(** The state store: the system state plus the coordinator-write record.

    Modelled from the spec: [recordCoordinatorTemperatureSet] and
    [shouldRespectManualOverride] are called by heat-pump-coordinator.ts but
    their [StateManager] is not in the sources.  Following spec 4.1, the
    store remembers, per unit, the last temperature the coordinator wrote. *)
Record StateManager := mkStateManager {
  state : SystemState;
  coordinatorSets : gmap string Q
}.

(* ------------------------------------------------------------------ *)
(** Record setters *)

Definition set_miniSplits (s : SystemState) (m : gmap string MiniSplitState) :=
  mkSystemState (globalMode s) (globalMinTemp s) (globalMaxTemp s)
    (outsideTemperature s) (lastOutsideWeatherUpdate s) m
    (modeChangeHistory s) (conflicts s).

Definition set_history (s : SystemState) (h : list ModeChangeEvent) :=
  mkSystemState (globalMode s) (globalMinTemp s) (globalMaxTemp s)
    (outsideTemperature s) (lastOutsideWeatherUpdate s) (miniSplits s)
    h (conflicts s).

Definition set_conflicts (s : SystemState) (c : list ConflictEvent) :=
  mkSystemState (globalMode s) (globalMinTemp s) (globalMaxTemp s)
    (outsideTemperature s) (lastOutsideWeatherUpdate s) (miniSplits s)
    (modeChangeHistory s) c.

Definition set_globalMode (s : SystemState) (m : Mode) :=
  mkSystemState m (globalMinTemp s) (globalMaxTemp s)
    (outsideTemperature s) (lastOutsideWeatherUpdate s) (miniSplits s)
    (modeChangeHistory s) (conflicts s).

Definition set_range (s : SystemState) (lo hi : Q) :=
  mkSystemState (globalMode s) lo hi
    (outsideTemperature s) (lastOutsideWeatherUpdate s) (miniSplits s)
    (modeChangeHistory s) (conflicts s).

Definition set_outside (s : SystemState) (t : Q) (at_ : Z) :=
  mkSystemState (globalMode s) (globalMinTemp s) (globalMaxTemp s)
    t at_ (miniSplits s) (modeChangeHistory s) (conflicts s).

Definition with_state (sm : StateManager) (s : SystemState) :=
  mkStateManager s (coordinatorSets sm).

(* ------------------------------------------------------------------ *)
(** JavaScript helpers *)

Definition Qltb (x y : Q) : bool := negb (Qle_bool y x).

(** [Math.round]: round half up. *)
Definition Math_round (x : Q) : Q := inject_Z (Qfloor (x + (1 # 2))).

(** [Math.abs] *)
Definition Math_abs (x : Q) : Q := Qabs x.

(** [x || d] for a number, a string and a boolean. *)
Definition num_or (x : option Q) (d : Q) : Q :=
  match x with Some v => if Qeq_bool v 0 then d else v | None => d end.
Definition str_or (x : option string) (d : string) : string :=
  match x with Some v => if String.eqb v "" then d else v | None => d end.
Definition bool_or (x : option bool) (d : bool) : bool :=
  match x with Some true => true | _ => d end.

(** [{...defaults, ...updates}] on one key. *)
Definition spread {A} (u : option A) (d : A) : A :=
  match u with Some v => v | None => d end.

(** [s.slice(-4)] *)
Definition slice_last4 (s : string) : string :=
  substring (String.length s - 4) 4 s.

(** [xs.slice(-n)] *)
Definition slice_last {A} (n : nat) (xs : list A) : list A :=
  skipn (length xs - n) xs.

(* ================================================================== *)
(** ** StateManager (server.ts) *)

Definition historyLimit : nat := 1000.
Definition conflictLimit : nat := 100.

Inductive RangeError := MinNotBelowMax | OutOfBounds.

(** [updateGlobalTemperatureRange]: a [throw] is [inl]; the state is
    returned unchanged with it. *)
Definition updateGlobalTemperatureRange (minTemp maxTemp : Q) (s : SystemState)
  : (RangeError + unit) * SystemState :=
  if Qle_bool maxTemp minTemp then (inl MinNotBelowMax, s)
  else if Qltb minTemp 50 || Qltb 90 maxTemp then (inl OutOfBounds, s)
  else (inr tt, set_range s minTemp maxTemp).

(** [addModeChangeEvent] *)
Definition addModeChangeEvent (now : Z) (dev : option string)
  (previousMode newMode : Mode) (reason : ModeChangeReason)
  (outsideTemp : option Q) (s : SystemState) : SystemState :=
  let event := mkModeChangeEvent now dev previousMode newMode reason outsideTemp in
  let h := modeChangeHistory s ++ [event] in
  if Nat.ltb historyLimit (length h)
  then set_history s (slice_last historyLimit h)
  else set_history s h.

(** [addConflictEvent] *)
Definition addConflictEvent (now : Z) (conflictType : ConflictType)
  (description : string) (ids : list string) (s : SystemState) : SystemState :=
  let conflict := mkConflictEvent now conflictType description ids false None in
  let c := conflicts s ++ [conflict] in
  if Nat.ltb conflictLimit (length c)
  then set_conflicts s (slice_last conflictLimit c)
  else set_conflicts s c.

(** [updateGlobalMode] *)
Definition updateGlobalMode (now : Z) (newMode : Mode) (reason : ModeChangeReason)
  (outsideTemp : option Q) (s : SystemState) : SystemState :=
  let previousMode := globalMode s in
  if mode_eqb previousMode newMode then s
  else addModeChangeEvent now None previousMode newMode reason outsideTemp
         (set_globalMode s newMode).

(** [updateOutsideTemperature] *)
Definition updateOutsideTemperature (now : Z) (t : Q) (s : SystemState) :=
  set_outside s t now.

(** The object built by [updateMiniSplitState]. *)
Definition mergeMiniSplit (now : Z) (id : string)
  (existing : option MiniSplitState) (u : MiniSplitUpdate) : MiniSplitState :=
  {| deviceId := spread (u_deviceId u) id;
     name := spread (u_name u)
       (str_or (option_map name existing)
          (String.append "Mini-Split " (slice_last4 id)));
     currentTemperature := spread (u_currentTemperature u)
       (num_or (option_map currentTemperature existing) 70);
     targetTemperature := spread (u_targetTemperature u)
       (num_or (option_map targetTemperature existing) 70);
     mode := spread (u_mode u) (spread (option_map mode existing) Off);
     isOnline := spread (u_isOnline u)
       (bool_or (option_map isOnline existing) false);
     lastUpdated := spread (u_lastUpdated u) now;
     room := spread (u_room u) (str_or (option_map room existing) "Unknown");
     priority := spread (u_priority u) (num_or (option_map priority existing) 5);
     manualTemperatureOverride := u_manualTemperatureOverride u |}.

(** [updateMiniSplitState] *)
Definition updateMiniSplitState (now : Z) (id : string) (u : MiniSplitUpdate)
  (s : SystemState) : SystemState :=
  let existing := miniSplits s !! id in
  let updated := mergeMiniSplit now id existing u in
  let s' := match existing with
            | Some e => if mode_eqb (mode e) (mode updated) then s
                        else addModeChangeEvent now (Some id) (mode e)
                               (mode updated) UserRequest None s
            | None => s
            end in
  set_miniSplits s' (<[id := updated]> (miniSplits s')).

Definition getAllMiniSplitStates (s : SystemState) : list MiniSplitState :=
  (map_to_list (miniSplits s)).*2.

Definition getOnlineMiniSplits (s : SystemState) : list MiniSplitState :=
  filter (fun u => isOnline u = true) (getAllMiniSplitStates s).

(** [getRecentModeChanges(hours)] *)
Definition getRecentModeChanges (now : Z) (hours : Z) (s : SystemState)
  : list ModeChangeEvent :=
  let cutoff := (now - hours * 60 * 60 * 1000)%Z in
  filter (fun e => (cutoff < ev_timestamp e)%Z) (modeChangeHistory s).

(** Modelled from the spec (4.1): [recordCoordinatorTemperatureSet]. *)
Definition recordCoordinatorTemperatureSet (id : string) (v : Q)
  (sm : StateManager) : StateManager :=
  mkStateManager (state sm) (<[id := v]> (coordinatorSets sm)).

(** Modelled from the spec (4.1): [shouldRespectManualOverride] is true iff
    the unit's target was not last written by the coordinator (no recorded
    coordinator write of that same value) and lies in the global range. *)
Definition shouldRespectManualOverride (sm : StateManager) (u : MiniSplitState)
  : bool :=
  let byCoordinator :=
    match coordinatorSets sm !! deviceId u with
    | Some v => Qeq_bool v (targetTemperature u)
    | None => false
    end in
  negb byCoordinator
  && Qle_bool (globalMinTemp (state sm)) (targetTemperature u)
  && Qle_bool (targetTemperature u) (globalMaxTemp (state sm)).

(* ================================================================== *)
(** ** Device collaborator (smartthings/device-manager.ts), abstract *)

(** One capability attribute: [{ value, unit? }]. *)
Record Reading := mkReading { rd_value : Q; rd_unit : option string }.

(** The fields of [status.components.main] the coordinator reads. *)
Record MainComponent := mkMainComponent {
  temperatureMeasurement : option Reading;
  thermostatHeatingSetpoint : option Reading;
  thermostatCoolingSetpoint : option Reading;
  thermostatMode : option Mode
}.

(** Outcome of [getDeviceStatus]: it throws, returns no [main]
    component, or returns one. *)
Inductive DeviceStatus :=
  | StatusError
  | StatusNoMain
  | StatusMain (c : MainComponent).

(** The device manager over a world [W] of devices.  A command returns
    the new world and whether it completed without throwing. *)
Record DeviceManager (W : Type) := mkDeviceManager {
  isAuthenticated : W -> bool;
  getDeviceStatus : W -> string -> DeviceStatus;
  setThermostatMode : W -> string -> Mode -> W * bool;
  setThermostatTemperature : W -> string -> Q -> W * bool
}.
Arguments mkDeviceManager {W}.
Arguments isAuthenticated {W}.
Arguments getDeviceStatus {W}.
Arguments setThermostatMode {W}.
Arguments setThermostatTemperature {W}.

(* ================================================================== *)
(** ** HeatPumpCoordinator (heat-pump-coordinator.ts) *)

Inductive ActionKind :=
  | SetModeAction (m : Mode)
  | SetTemperatureAction (t : Q)
  | SetFanSpeedAction.

(** [CoordinationAction] (the [reason] text is a log message and omitted). *)
Record CoordinationAction := mkAction {
  act_deviceId : string;
  act : ActionKind
}.

(** The messages pushed on the [conflicts] array of a cycle result. *)
Inductive ConflictNote :=
  | ModeConflictNote (names : list string)
  | TemperatureVariationNote (lo hi : Q)
  | RapidSwitchingNote (n : nat).

Record CoordinationResult := mkResult {
  success : bool;
  actions : list CoordinationAction;
  resultConflicts : list ConflictNote;
  systemMode : Mode
}.

(** Unit conversion of the sync step: ['F'] is rounded, anything else
    (also a missing unit, defaulting to ['C']) is converted from Celsius. *)
Definition toFahrenheit (r : Reading) : Q :=
  if bool_decide (rd_unit r = Some "F"%string) then Math_round (rd_value r)
  else Math_round (rd_value r * 9 / 5 + 32).

(** The [updates] object built by [syncDeviceStates] for a [main] component. *)
Definition syncUpdate (now : Z) (c : MainComponent) : MiniSplitUpdate :=
  {| u_deviceId := None; u_name := None;
     u_currentTemperature := option_map toFahrenheit (temperatureMeasurement c);
     u_targetTemperature :=
       match thermostatHeatingSetpoint c with
       | Some r => Some (toFahrenheit r)
       | None => option_map toFahrenheit (thermostatCoolingSetpoint c)
       end;
     u_mode := thermostatMode c;
     u_isOnline := Some true;
     u_lastUpdated := Some now;
     u_room := None; u_priority := None;
     u_manualTemperatureOverride := None |}.

Definition offlineUpdate (now : Z) : MiniSplitUpdate :=
  {| u_deviceId := None; u_name := None; u_currentTemperature := None;
     u_targetTemperature := None; u_mode := None; u_isOnline := Some false;
     u_lastUpdated := Some now; u_room := None; u_priority := None;
     u_manualTemperatureOverride := None |}.

(** The update written after a successful [setTemperature] action. *)
Definition coordinatorTempUpdate (t : Q) : MiniSplitUpdate :=
  {| u_deviceId := None; u_name := None; u_currentTemperature := None;
     u_targetTemperature := Some t; u_mode := None; u_isOnline := None;
     u_lastUpdated := None; u_room := None; u_priority := None;
     u_manualTemperatureOverride := Some false |}.

(** [activeSchedule?.targetMinTemp || state.globalMinTemp] *)
Definition heatingSetpoint (sched : option Schedule) (s : SystemState) : Q :=
  num_or (option_map targetMinTemp sched) (globalMinTemp s).

(** [activeSchedule?.targetMaxTemp || state.globalMaxTemp] *)
Definition coolingSetpoint (sched : option Schedule) (s : SystemState) : Q :=
  num_or (option_map targetMaxTemp sched) (globalMaxTemp s).

(** [Math.min(...xs)] / [Math.max(...xs)] on a non-empty list. *)
Definition Qmin2 (x y : Q) : Q := if Qle_bool x y then x else y.
Definition Qmax2 (x y : Q) : Q := if Qle_bool x y then y else x.
Definition list_min (xs : list Q) : Q :=
  match xs with [] => 0 | x :: r => fold_left Qmin2 r x end.
Definition list_max (xs : list Q) : Q :=
  match xs with [] => 0 | x :: r => fold_left Qmax2 r x end.

(** [[...new Set(xs)]]: first occurrences, in order. *)
Definition uniqueModes (xs : list Mode) : list Mode :=
  fold_left (fun acc m => if bool_decide (m ∈ acc) then acc else acc ++ [m])
    xs [].

Section Coordinator.
Context {W : Type} (dm : DeviceManager W) (deviceIds : list string).

(** The body of the [for] loop of [syncDeviceStates] for one device. *)
Definition syncOne (now : Z) (w : W) (sm : StateManager) (id : string)
  : StateManager :=
  match getDeviceStatus dm w id with
  | StatusError => with_state sm (updateMiniSplitState now id (offlineUpdate now) (state sm))
  | StatusNoMain => sm
  | StatusMain c => with_state sm (updateMiniSplitState now id (syncUpdate now c) (state sm))
  end.

(** [syncDeviceStates] *)
Definition syncDeviceStates (now : Z) (w : W) (sm : StateManager) : StateManager :=
  if isAuthenticated dm w then fold_left (syncOne now w) deviceIds sm else sm.

(** [determineOptimalSystemMode]; [sched] is [getActiveSchedule()]. *)
Definition determineOptimalSystemMode (sched : option Schedule)
  (outsideTemp : Q) (sm : StateManager) : Mode :=
  let s := state sm in
  let heating := heatingSetpoint sched s in
  let cooling := coolingSetpoint sched s in
  match getOnlineMiniSplits s with
  | [] => Off
  | _ => if Qltb outsideTemp heating then Heat
         else if Qltb cooling outsideTemp then Cool
         else globalMode s
  end.

(** [detectConflicts] *)
Definition detectConflicts (now : Z) (sm : StateManager)
  : list ConflictNote * StateManager :=
  let online := getOnlineMiniSplits (state sm) in
  if Nat.ltb (length online) 2 then ([], sm) else
  let activeModes := filter (fun m => m <> Off) (map mode online) in
  let uniq := uniqueModes activeModes in
  let '(notes1, s1) :=
    if Nat.ltb 1 (length uniq) then
      let conflicting :=
        filter (fun u => mode u <> Off /\ mode u ∈ activeModes) online in
      ([ModeConflictNote (map name conflicting)],
       addConflictEvent now ModeMismatch
         (String.append "Multiple units have conflicting modes: "
            (String.concat ", " (map mode_to_string uniq)))
         (map deviceId conflicting) (state sm))
    else ([], state sm) in
  let temps := map currentTemperature online in
  let lo := list_min temps in
  let hi := list_max temps in
  let notes2 := if Qltb 10 (hi - lo) then [TemperatureVariationNote lo hi] else [] in
  let recent := getRecentModeChanges now 1 s1 in
  let notes3 := if Nat.ltb 3 (length recent)
                then [RapidSwitchingNote (length recent)] else [] in
  (notes1 ++ notes2 ++ notes3, with_state sm s1).

(** The desired temperature of [generateCoordinationActions]. *)
Definition desiredTemp (sched : option Schedule) (systemMode : Mode)
  (s : SystemState) (u : MiniSplitState) : Q :=
  match systemMode with
  | Heat => heatingSetpoint sched s
  | Cool => coolingSetpoint sched s
  | Off => targetTemperature u
  end.

(** The body of the [for] loop of [generateCoordinationActions]. *)
Definition unitActions (sched : option Schedule) (systemMode : Mode)
  (sm : StateManager) (u : MiniSplitState) : list CoordinationAction :=
  let modeActs :=
    if mode_eqb (mode u) systemMode then []
    else [mkAction (deviceId u) (SetModeAction systemMode)] in
  if shouldRespectManualOverride sm u then modeActs
  else
    let targetTemp := desiredTemp sched systemMode (state sm) u in
    modeActs ++
    (if Qle_bool 1 (Math_abs (targetTemp - targetTemperature u))
     then [mkAction (deviceId u) (SetTemperatureAction targetTemp)] else []).

(** [generateCoordinationActions] *)
Definition generateCoordinationActions (sched : option Schedule)
  (systemMode : Mode) (sm : StateManager) : list CoordinationAction :=
  flat_map (unitActions sched systemMode sm) (getOnlineMiniSplits (state sm)).

(** One iteration of [executeCoordinationActions]; a command that throws
    is caught and the loop goes on. *)
Definition executeOne (now : Z) (ws : W * StateManager) (a : CoordinationAction)
  : W * StateManager :=
  let '(w, sm) := ws in
  match act a with
  | SetModeAction m =>
      let '(w', _) := setThermostatMode dm w (act_deviceId a) m in (w', sm)
  | SetTemperatureAction t =>
      let '(w', ok) := setThermostatTemperature dm w (act_deviceId a) t in
      if ok then
        let sm' := recordCoordinatorTemperatureSet (act_deviceId a) t sm in
        (w', with_state sm'
               (updateMiniSplitState now (act_deviceId a)
                  (coordinatorTempUpdate t) (state sm')))
      else (w', sm)
  | SetFanSpeedAction => (w, sm)
  end.

(** [executeCoordinationActions] *)
Definition executeCoordinationActions (now : Z) (w : W) (sm : StateManager)
  (acts : list CoordinationAction) : W * StateManager :=
  if isAuthenticated dm w then fold_left (executeOne now) acts (w, sm)
  else (w, sm).

(** [runCoordinationCycle]; [outsideTemp] is the temperature of
    [weatherService.getWeatherData()], which never throws. *)
Definition runCoordinationCycle (now : Z) (sched : option Schedule)
  (outsideTemp : Q) (w : W) (sm : StateManager)
  : CoordinationResult * W * StateManager :=
  let sm1 := syncDeviceStates now w sm in
  let sm2 := with_state sm1 (updateOutsideTemperature now outsideTemp (state sm1)) in
  let sysMode := determineOptimalSystemMode sched outsideTemp sm2 in
  let '(notes, sm3) := detectConflicts now sm2 in
  let acts := generateCoordinationActions sched sysMode sm3 in
  let '(w', sm4) := executeCoordinationActions now w sm3 acts in
  let sm5 := with_state sm4
    (updateGlobalMode now sysMode CoordinatorLogic (Some outsideTemp) (state sm4)) in
  (mkResult true acts notes sysMode, w', sm5).

(** [emergencyOff(reason)] *)
Definition emergencyOffActions (sm : StateManager) : list CoordinationAction :=
  map (fun u => mkAction (deviceId u) (SetModeAction Off))
    (getAllMiniSplitStates (state sm)).

Definition emergencyOff (now : Z) (reason : ModeChangeReason) (w : W)
  (sm : StateManager) : W * StateManager :=
  let '(w', sm') := executeCoordinationActions now w sm (emergencyOffActions sm) in
  (w', with_state sm' (updateGlobalMode now Off reason None (state sm'))).

End Coordinator.

(** [initializeDeviceStates]: a default entry for every configured id
    without one; [roomNames[i] || `Room ${i + 1}`]. *)
Definition initUpdate (roomName : string) : MiniSplitUpdate :=
  {| u_deviceId := None;
     u_name := Some (String.append roomName " Mini-Split");
     u_currentTemperature := Some 70; u_targetTemperature := Some 70;
     u_mode := Some Off; u_isOnline := Some false; u_lastUpdated := None;
     u_room := Some roomName; u_priority := Some 5;
     u_manualTemperatureOverride := None |}.

Fixpoint initializeDeviceStatesFrom (now : Z) (i : nat) (ids : list string)
  (roomNames : list string) (s : SystemState) : SystemState :=
  match ids with
  | [] => s
  | id :: rest =>
      let roomName := str_or (roomNames !! i)
                        (String.append "Room " (pretty (S i))) in
      let s' := match miniSplits s !! id with
                | Some _ => s
                | None => updateMiniSplitState now id (initUpdate roomName) s
                end in
      initializeDeviceStatesFrom now (S i) rest roomNames s'
  end.

Definition initializeDeviceStates (now : Z) (ids roomNames : list string)
  (s : SystemState) : SystemState :=
  initializeDeviceStatesFrom now 0 ids roomNames s.

(* ================================================================== *)
(** ** WeatherService (services/lighting-monitor.ts) *)

Record WeatherData := mkWeatherData {
  temperature : Q;
  humidity : Q;
  wd_description : string;
  wd_timestamp : Z;
  loc_lat : Q;
  loc_lon : Q;
  loc_name : string
}.

(** The fields of a successful OpenWeatherMap response that are read. *)
Record ApiResponse := mkApiResponse {
  api_temp : Q; api_humidity : Q; api_description : string;
  api_lat : Q; api_lon : Q; api_name : string
}.

Record WeatherConfig := mkWeatherConfig {
  cfg_lat : option Q;
  cfg_lon : option Q;
  cfg_cacheDurationMs : option Z
}.

Record WeatherService := mkWeatherService {
  cacheDurationMs : Z;
  ws_lat : option Q;
  ws_lon : option Q;
  cachedData : option WeatherData;
  lastFetchTime : Z
}.

(** The constructor: [{ cacheDurationMs: 15 * 60 * 1000, ..., ...config }]. *)
Definition newWeatherService (c : WeatherConfig) : WeatherService :=
  mkWeatherService (spread (cfg_cacheDurationMs c) (15 * 60 * 1000)%Z)
    (cfg_lat c) (cfg_lon c) None 0.

(** [getWeatherData]; [fetch] is the outcome of [fetchWeatherFromAPI()]
    ([None]: it throws). *)
Definition getWeatherData (now : Z) (fetch : option ApiResponse)
  (ws : WeatherService) : WeatherData * WeatherService :=
  let fresh :=
    match cachedData ws with
    | Some d => if Z.ltb (now - lastFetchTime ws) (cacheDurationMs ws)
                then Some d else None
    | None => None
    end in
  match fresh with
  | Some d => (d, ws)
  | None =>
    match fetch with
    | Some r =>
        let d := mkWeatherData (api_temp r) (api_humidity r) (api_description r)
                   now (api_lat r) (api_lon r) (api_name r) in
        (d, mkWeatherService (cacheDurationMs ws) (ws_lat ws) (ws_lon ws)
              (Some d) now)
    | None =>
        match cachedData ws with
        | Some d => (d, ws)
        | None =>
            (mkWeatherData 70 50 "Unknown (API Error)" now
               (num_or (ws_lat ws) 0) (num_or (ws_lon ws) 0) "Unknown Location",
             ws)
        end
    end
  end.

(** [isCacheValid] *)
Definition isCacheValid (now : Z) (ws : WeatherService) : bool :=
  match cachedData ws with
  | Some _ => Z.ltb (now - lastFetchTime ws) (cacheDurationMs ws)
  | None => false
  end.

(* ================================================================== *)
(** ** A device world that reports back what it is commanded *)

(** Devices of the world: status per device id, and the authentication
    state of the SmartThings connection. *)
Record SimWorld := mkSimWorld {
  sw_auth : bool;
  sw_devices : string -> DeviceStatus
}.

Definition sw_update (w : SimWorld) (id : string) (st : DeviceStatus) : SimWorld :=
  mkSimWorld (sw_auth w)
    (fun id' => if String.eqb id' id then st else sw_devices w id').

(** A mode command is reported back as [thermostat.thermostatMode]. *)
Definition reflectMode (c : MainComponent) (m : Mode) : MainComponent :=
  mkMainComponent (temperatureMeasurement c) (thermostatHeatingSetpoint c)
    (thermostatCoolingSetpoint c) (Some m).

(** A temperature command (sent in F) is reported back on the setpoint
    attribute the sync step reads: the heating setpoint if the device has
    one, else the cooling setpoint if it has one, else a heating setpoint. *)
Definition reflectSetpoint (c : MainComponent) (t : Q) : MainComponent :=
  let r := Some (mkReading t (Some "F"%string)) in
  match thermostatHeatingSetpoint c, thermostatCoolingSetpoint c with
  | Some _, _ => mkMainComponent (temperatureMeasurement c) r
                   (thermostatCoolingSetpoint c) (thermostatMode c)
  | None, Some _ => mkMainComponent (temperatureMeasurement c) None r
                      (thermostatMode c)
  | None, None => mkMainComponent (temperatureMeasurement c) r None
                    (thermostatMode c)
  end.

(** Commands to a device that fails or reports no [main] component throw. *)
Definition simSetMode (w : SimWorld) (id : string) (m : Mode) : SimWorld * bool :=
  match sw_devices w id with
  | StatusMain c => (sw_update w id (StatusMain (reflectMode c m)), true)
  | _ => (w, false)
  end.

Definition simSetTemperature (w : SimWorld) (id : string) (t : Q) : SimWorld * bool :=
  match sw_devices w id with
  | StatusMain c => (sw_update w id (StatusMain (reflectSetpoint c t)), true)
  | _ => (w, false)
  end.

Definition simDeviceManager : DeviceManager SimWorld :=
  mkDeviceManager sw_auth sw_devices simSetMode simSetTemperature.

(* ================================================================== *)
(** ** Concrete runs *)

Definition unitA : MiniSplitState :=
  mkMiniSplitState "dev-A" "Left Mini-Split" 66 70 Off true 0 "Left" 5 None.

Definition state0 : SystemState :=
  mkSystemState Off 68 72 70 0 (<["dev-A" := unitA]> ∅) [] [].

(** A device reporting 66 F, setpoint 70 F, mode off. *)
Definition mainA : MainComponent :=
  mkMainComponent (Some (mkReading 66 (Some "F"%string)))
    (Some (mkReading 70 (Some "F"%string))) None (Some Off).

Definition worldUnauth : SimWorld := mkSimWorld false (fun _ => StatusMain mainA).

(** A unit manually set to 95 F, outside the 68..72 range, in off mode. *)
Definition unitHot : MiniSplitState :=
  mkMiniSplitState "dev-A" "Left Mini-Split" 80 95 Off true 0 "Left" 5 None.

Definition stateHot : SystemState :=
  mkSystemState Off 68 72 70 0 (<["dev-A" := unitHot]> ∅) [] [].

(** Four global mode changes at times 10..13 and a single online unit. *)
Definition switchEvents : list ModeChangeEvent :=
  [mkModeChangeEvent 10 None Off Heat CoordinatorLogic None;
   mkModeChangeEvent 11 None Heat Cool CoordinatorLogic None;
   mkModeChangeEvent 12 None Cool Heat CoordinatorLogic None;
   mkModeChangeEvent 13 None Heat Cool CoordinatorLogic None].

Definition stateSwitching : SystemState :=
  mkSystemState Cool 68 72 70 0 (<["dev-A" := unitA]> ∅) switchEvents [].

(** A unit whose stored current temperature reads 0 F. *)
Definition unitZero : MiniSplitState :=
  mkMiniSplitState "dev-A" "Left Mini-Split" 0 70 Heat true 0 "Left" 5 None.

Definition stateZero : SystemState :=
  mkSystemState Heat 68 72 70 0 (<["dev-A" := unitZero]> ∅) [] [].

Definition worldAuth : SimWorld := mkSimWorld true (fun _ => StatusMain mainA).

(* ================================================================== *)
(** ** Stored entries that [updateMiniSplitState] rebuilds unchanged *)

(** The fields [updateMiniSplitState] rebuilds from the stored entry with
    [existing?.f || default] keep their value when the entry is stored under
    its own id and its name, room, current temperature and priority are not
    falsy ([""] or [0]). *)
Definition fields_truthy (id : string) (u : MiniSplitState) : Prop :=
  deviceId u = id /\ name u <> ""%string /\ room u <> ""%string /\
  ~ (currentTemperature u == 0) /\ ~ (priority u == 0).

(** [u] with only [targetTemperature], [manualTemperatureOverride] and
    [lastUpdated] changed, as a coordinator [setTemperature] should leave it. *)
Definition setTargetOnly (now : Z) (u : MiniSplitState) (t : Q) : MiniSplitState :=
  {| deviceId := deviceId u; name := name u;
     currentTemperature := currentTemperature u; targetTemperature := t;
     mode := mode u; isOnline := isOnline u; lastUpdated := now;
     room := room u; priority := priority u;
     manualTemperatureOverride := Some false |}.

(* ================================================================== *)
(** ** One device seen through the sync step and the action loop *)

(** The stored entry for [k] after the body of the sync loop read status
    [st] for it. *)
Definition syncEntry (now : Z) (st : DeviceStatus) (k : string)
  (e : option MiniSplitState) : option MiniSplitState :=
  match st with
  | StatusError => Some (mergeMiniSplit now k e (offlineUpdate now))
  | StatusNoMain => e
  | StatusMain c => Some (mergeMiniSplit now k e (syncUpdate now c))
  end.

(** What one action on device [k] does, with [simDeviceManager], to the
    device, to the stored entry for [k] and to the coordinator record. *)
Definition keyStep (now : Z) (k : string)
  (p : DeviceStatus * option MiniSplitState * option Q) (a : ActionKind)
  : DeviceStatus * option MiniSplitState * option Q :=
  let '(d, e, c) := p in
  match a, d with
  | SetModeAction m, StatusMain c0 => (StatusMain (reflectMode c0 m), e, c)
  | SetTemperatureAction t, StatusMain c0 =>
      (StatusMain (reflectSetpoint c0 t),
       Some (mergeMiniSplit now k e (coordinatorTempUpdate t)), Some t)
  | _, _ => p
  end.

(** Device [k], its stored entry and its coordinator record. *)
Definition keyView (k : string) (ws : SimWorld * StateManager)
  : DeviceStatus * option MiniSplitState * option Q :=
  (sw_devices (fst ws) k, miniSplits (state (snd ws)) !! k,
   coordinatorSets (snd ws) !! k).

(** Every stored entry holds the id it is stored under. *)
Definition well_keyed (M : gmap string MiniSplitState) : Prop :=
  forall k u, M !! k = Some u -> deviceId u = k.

(* ================================================================== *)
(** ** StateManager queries and conflict resolution (server.ts) *)

Definition sumBy {A} (f : A -> Q) (xs : list A) : Q :=
  fold_left (fun sum x => sum + f x) xs 0.

Definition getAverageDesiredTemperature (s : SystemState) : Q :=
  let onlineUnits := getOnlineMiniSplits s in
  if Nat.eqb (length onlineUnits) 0
  then (globalMinTemp s + globalMaxTemp s) / 2
  else sumBy targetTemperature onlineUnits / inject_Z (Z.of_nat (length onlineUnits)).

Definition getAverageCurrentTemperature (s : SystemState) : Q :=
  let onlineUnits := getOnlineMiniSplits s in
  if Nat.eqb (length onlineUnits) 0 then 70
  else sumBy currentTemperature onlineUnits / inject_Z (Z.of_nat (length onlineUnits)).

Definition getMiniSplitState (id : string) (s : SystemState) : option MiniSplitState :=
  miniSplits s !! id.

Definition markResolved (resolution : string) (c : ConflictEvent) : ConflictEvent :=
  mkConflictEvent (cf_timestamp c) (cf_conflictType c) (cf_description c)
    (cf_deviceIds c) true (Some resolution).

Definition resolveConflict (conflictIndex : Z) (resolution : string) (s : SystemState)
  : option SystemState :=
  if Z.ltb conflictIndex (Z.of_nat (length (conflicts s))) then
    match conflictIndex with
    | Zneg _ => None
    | _ => Some (set_conflicts s
                   (alter (markResolved resolution) (Z.to_nat conflictIndex) (conflicts s)))
    end
  else Some s.

Definition getUnresolvedConflicts (s : SystemState) : list ConflictEvent :=
  filter (fun c => cf_resolved c = false) (conflicts s).

(* ================================================================== *)
(** ** StateManager schedules (server.ts) *)

(** [UserPreferences]; [savePreferences()] writes them to disk and is not
    modelled. *)

Record UserPreferences := mkUserPreferences {
  defaultMinTemp : Q;
  defaultMaxTemp : Q;
  schedules : list Schedule;
  roomPriorities : gmap string Q;
  weatherBasedModeEnabled : bool;
  modeHysteresis : Q
}.

Definition set_schedules (p : UserPreferences) (l : list Schedule) :=
  mkUserPreferences (defaultMinTemp p) (defaultMaxTemp p) l (roomPriorities p)
    (weatherBasedModeEnabled p) (modeHysteresis p).

Record ScheduleUpdate := mkScheduleUpdate {
  su_id : option string;
  su_enabled : option bool;
  su_timeStart : option string;
  su_timeEnd : option string;
  su_daysOfWeek : option (list nat);
  su_targetMinTemp : option Q;
  su_targetMaxTemp : option Q
}.

Definition applyScheduleUpdate (sc : Schedule) (u : ScheduleUpdate) : Schedule :=
  mkSchedule (spread (su_id u) (sc_id sc)) (spread (su_enabled u) (sc_enabled sc))
    (spread (su_timeStart u) (sc_timeStart sc)) (spread (su_timeEnd u) (sc_timeEnd sc))
    (spread (su_daysOfWeek u) (sc_daysOfWeek sc))
    (spread (su_targetMinTemp u) (targetMinTemp sc))
    (spread (su_targetMaxTemp u) (targetMaxTemp sc)).

Definition with_id (sc : Schedule) (id : string) : Schedule :=
  mkSchedule id (sc_enabled sc) (sc_timeStart sc) (sc_timeEnd sc) (sc_daysOfWeek sc)
    (targetMinTemp sc) (targetMaxTemp sc).

Definition addSchedule (id : string) (schedule : Schedule) (p : UserPreferences)
  : string * UserPreferences :=
  (id, set_schedules p (schedules p ++ [with_id schedule id])).

Definition updateSchedule (scheduleId : string) (updates : ScheduleUpdate)
  (p : UserPreferences) : bool * UserPreferences :=
  match list_find (fun s => sc_id s = scheduleId) (schedules p) with
  | Some (index, s) =>
      (true, set_schedules p (<[index := applyScheduleUpdate s updates]> (schedules p)))
  | None => (false, p)
  end.

Definition deleteSchedule (scheduleId : string) (p : UserPreferences)
  : bool * UserPreferences :=
  let initialLength := length (schedules p) in
  let p' := set_schedules p (filter (fun s => sc_id s <> scheduleId) (schedules p)) in
  (Nat.ltb (length (schedules p')) initialLength, p').

Definition padStart2 (s : string) : string :=
  match String.length s with
  | O => "00"
  | S O => String.append "0" s
  | _ => s
  end.

Definition currentTimeString (hours minutes : nat) : string :=
  String.append (padStart2 (pretty hours)) (String.append ":" (padStart2 (pretty minutes))).

Definition scheduleActive (currentDay : nat) (currentTime : string) (sc : Schedule) : bool :=
  sc_enabled sc && bool_decide (currentDay ∈ sc_daysOfWeek sc)
  && String.leb (sc_timeStart sc) currentTime && String.leb currentTime (sc_timeEnd sc).

Fixpoint findActiveSchedule (currentDay : nat) (currentTime : string) (l : list Schedule)
  : option Schedule :=
  match l with
  | [] => None
  | schedule :: rest =>
      if negb (sc_enabled schedule) then findActiveSchedule currentDay currentTime rest
      else if negb (bool_decide (currentDay ∈ sc_daysOfWeek schedule))
      then findActiveSchedule currentDay currentTime rest
      else if String.leb (sc_timeStart schedule) currentTime
              && String.leb currentTime (sc_timeEnd schedule)
      then Some schedule
      else findActiveSchedule currentDay currentTime rest
  end.

Definition getActiveSchedule (currentDay hours minutes : nat) (p : UserPreferences)
  : option Schedule :=
  findActiveSchedule currentDay (currentTimeString hours minutes) (schedules p).

(** Concrete preferences: a weekday daytime schedule, and an overnight one. *)
Definition workdaySchedule : Schedule :=
  mkSchedule "workday" true "08:00" "17:00" [1%nat; 2%nat; 3%nat; 4%nat; 5%nat] 68 72.

Definition nightSchedule : Schedule :=
  mkSchedule "night" true "22:00" "06:00"
    [0%nat; 1%nat; 2%nat; 3%nat; 4%nat; 5%nat; 6%nat] 66 70.

Definition prefs0 : UserPreferences :=
  mkUserPreferences 68 72 [workdaySchedule] ∅ true 1.

(* ================================================================== *)
(** ** HeatPumpCoordinator commands (heat-pump-coordinator.ts) *)

Section CoordinatorCommands.
Context {W : Type} (dm : DeviceManager W).

Definition setGlobalModeActions (m : Mode) (sm : StateManager) : list CoordinationAction :=
  flat_map (fun unit => if mode_eqb (mode unit) m then []
                        else [mkAction (deviceId unit) (SetModeAction m)])
    (getOnlineMiniSplits (state sm)).

Definition setGlobalMode (now : Z) (m : Mode) (reason : ModeChangeReason) (w : W)
  (sm : StateManager) : W * StateManager :=
  let sm1 := with_state sm (updateGlobalMode now m reason None (state sm)) in
  executeCoordinationActions dm now w sm1 (setGlobalModeActions m sm1).

Definition immediateUnitActions (minTemp maxTemp : Q) (sm : StateManager)
  (unit : MiniSplitState) : list CoordinationAction :=
  if shouldRespectManualOverride sm unit then [] else
  let targetTemp := match globalMode (state sm) with
                    | Heat => minTemp
                    | Cool => maxTemp
                    | Off => targetTemperature unit
                    end in
  if Qle_bool 1 (Math_abs (targetTemp - targetTemperature unit))
  then [mkAction (deviceId unit) (SetTemperatureAction targetTemp)] else [].

Definition immediateActions (minTemp maxTemp : Q) (sm : StateManager)
  : list CoordinationAction :=
  flat_map (immediateUnitActions minTemp maxTemp sm) (getOnlineMiniSplits (state sm)).

Definition setGlobalTemperatureRangeImmediate (now : Z) (minTemp maxTemp : Q) (w : W)
  (sm : StateManager) : (RangeError + unit) * (W * StateManager) :=
  match updateGlobalTemperatureRange minTemp maxTemp (state sm) with
  | (inl e, _) => (inl e, (w, sm))
  | (inr _, s1) =>
      let sm1 := with_state sm s1 in
      let acts := immediateActions minTemp maxTemp sm1 in
      if Nat.ltb 0 (length acts)
      then (inr tt, executeCoordinationActions dm now w sm1 acts)
      else (inr tt, (w, sm1))
  end.

End CoordinatorCommands.

Record DevicePriority := mkDevicePriority {
  dp_device : MiniSplitState;
  distanceFromRange : Q
}.

Definition devicePriority (minTemp maxTemp : Q) (device : MiniSplitState) : DevicePriority :=
  let distanceFromRange :=
    if Qltb (currentTemperature device) minTemp then minTemp - currentTemperature device
    else if Qltb maxTemp (currentTemperature device) then currentTemperature device - maxTemp
    else 0 in
  mkDevicePriority device distanceFromRange.

Fixpoint insertSorted {A} (compareFn : A -> A -> Q) (x : A) (l : list A) : list A :=
  match l with
  | [] => [x]
  | y :: r => if Qltb 0 (compareFn y x) then x :: y :: r else y :: insertSorted compareFn x r
  end.

Definition array_sort {A} (compareFn : A -> A -> Q) (l : list A) : list A :=
  fold_left (fun acc x => insertSorted compareFn x acc) l [].

Definition calculateDevicePriorities (onlineUnits : list MiniSplitState) (minTemp maxTemp : Q)
  : list DevicePriority :=
  array_sort (fun a b => distanceFromRange b - distanceFromRange a)
    (map (devicePriority minTemp maxTemp) onlineUnits).

Definition isTemperatureAction (a : CoordinationAction) : bool :=
  match act a with SetTemperatureAction _ => true | _ => false end.

(** The order [calculateDevicePriorities] sorts into. *)
Definition byDistanceDesc (a b : DevicePriority) : Prop :=
  distanceFromRange b <= distanceFromRange a.

(* ================================================================== *)
(** ** WeatherService: cache management and configuration
    (services/lighting-monitor.ts) *)

Definition clearCache (ws : WeatherService) : WeatherService :=
  mkWeatherService (cacheDurationMs ws) (ws_lat ws) (ws_lon ws) None 0.

Definition setMockWeather (t1 t2 : Z) (temperature : Q) (description : string)
  (ws : WeatherService) : WeatherService :=
  mkWeatherService (cacheDurationMs ws) (ws_lat ws) (ws_lon ws)
    (Some (mkWeatherData temperature 50 description t1
             (num_or (ws_lat ws) 0) (num_or (ws_lon ws) 0) "Mock Location"))
    t2.

Definition getCacheAge (now : Z) (ws : WeatherService) : Z :=
  match cachedData ws with
  | None => (-1)%Z
  | Some _ => (now - lastFetchTime ws)%Z
  end.

Definition getLastUpdateTime (ws : WeatherService) : option Z :=
  option_map wd_timestamp (cachedData ws).

Record WeatherOptions := mkWeatherOptions {
  wo_apiKey : string;
  wo_lat : option Q;
  wo_lon : option Q;
  wo_zipCode : option string;
  wo_countryCode : option string;
  wo_cacheDurationMs : option Z
}.

Inductive WeatherConfigError := ApiKeyRequired | LocationRequired.

Definition num_truthy (x : option Q) : bool :=
  match x with Some v => negb (Qeq_bool v 0) | None => false end.
Definition str_truthy (x : option string) : bool :=
  match x with Some v => negb (String.eqb v "") | None => false end.

Definition checkWeatherConfig (c : WeatherOptions) : option WeatherConfigError :=
  if String.eqb (wo_apiKey c) "" then Some ApiKeyRequired
  else if negb (num_truthy (wo_lat c)) && negb (num_truthy (wo_lon c))
          && negb (str_truthy (wo_zipCode c))
  then Some LocationRequired
  else None.

Inductive LocationParams :=
  | ByCoordinates (lat lon : Q)
  | ByZip (zip : string)
  | NoLocationParams.

Definition fetchLocationParams (c : WeatherOptions) : LocationParams :=
  if num_truthy (wo_lat c) && num_truthy (wo_lon c)
  then ByCoordinates (num_or (wo_lat c) 0) (num_or (wo_lon c) 0)
  else if str_truthy (wo_zipCode c)
  then ByZip (String.append (spread (wo_zipCode c) "")
                (String.append "," (spread (wo_countryCode c) "US")))
  else NoLocationParams.

Definition weatherFallback (now : Z) (ws : WeatherService) : WeatherData :=
  mkWeatherData 70 50 "Unknown (API Error)" now
    (num_or (ws_lat ws) 0) (num_or (ws_lon ws) 0) "Unknown Location".

(* ================================================================== *)
(** ** SmartThings lighting commands (smartthings/device-manager.ts) and
    LightingMonitor (services/lighting-monitor.ts) *)

(** [String.prototype.includes] *)
Fixpoint includes (pat s : string) : bool :=
  String.prefix pat s ||
  match s with EmptyString => false | String _ s' => includes pat s' end.

Module SmartThingsDeviceManager.

Record SmartThingsDevice := mkSmartThingsDevice {
  st_deviceId : string;
  st_capabilities : list string
}.

Record ApiError := mkApiError {
  ae_message : string;
  ae_status : option Z;
  ae_responseStatus : option Z
}.

Record DeviceCommand := mkDeviceCommand {
  dc_capability : string;
  dc_command : string;
  dc_args : string
}.

Definition commandsToTry : list DeviceCommand := [
  mkDeviceCommand "execute" "execute" "['mode/vs/0', {'x.com.samsung.da.options': ['Light_On']}]";
  mkDeviceCommand "samsungce.airConditionerLighting" "setLighting" "['off']";
  mkDeviceCommand "samsungce.airConditionerLighting" "setAirConditionerLighting" "['off']";
  mkDeviceCommand "samsungce.airConditionerLighting" "lightingOff" "[]";
  mkDeviceCommand "samsungce.airConditionerLighting" "setLightingState" "[false]";
  mkDeviceCommand "samsungce.airConditionerLighting" "setLighting" "[false]"
]%string.

Definition authRequired : ApiError :=
  mkApiError "SmartThings authentication required" None None.

Definition allLightingFailed (deviceId : string) : ApiError :=
  mkApiError (String.append "All lighting commands failed for device " deviceId) None None.

Section Lighting.
Context {W : Type}
  (oauthAuthenticated : W -> bool) (tokenAvailable : W -> bool)
  (listDevices : W -> option (list SmartThingsDevice))
  (lightingStateValue : W -> string -> option (option string))
  (sendCommand : W -> string -> DeviceCommand -> W * option ApiError).

Definition getClient (w : W) : bool := oauthAuthenticated w && tokenAvailable w.

Definition getDevices (w : W) : ApiError + list SmartThingsDevice :=
  if getClient w then
    match listDevices w with
    | Some ds => inr ds
    | None => inl (mkApiError "Failed to retrieve devices" None None)
    end
  else inl authRequired.

Definition getDeviceCapabilities (w : W) (deviceId : string) : ApiError + list string :=
  match getDevices w with
  | inl e => inl e
  | inr ds =>
      inr (match List.find (fun d => String.eqb (st_deviceId d) deviceId) ds with
           | Some d => st_capabilities d
           | None => []
           end)
  end.

Definition hasLightingCapability (w : W) (deviceId : string) : ApiError + bool :=
  match getDeviceCapabilities w deviceId with
  | inl e => inl e
  | inr caps => inr (existsb (String.eqb "samsungce.airConditionerLighting") caps)
  end.

Definition getDeviceStatus (w : W) (deviceId : string) : ApiError + option string :=
  if getClient w then
    match lightingStateValue w deviceId with
    | Some v => inr v
    | None => inl (mkApiError (String.append "Failed to get device status for " deviceId)
                    None None)
    end
  else inl authRequired.

Definition getLightingStatus (w : W) (deviceId : string) : ApiError + option string :=
  match getDeviceStatus w deviceId with
  | inl _ => inr None
  | inr v => inr (match v with
                  | Some s => if String.eqb s "" then None else Some s
                  | None => None
                  end)
  end.

Definition executeDeviceCommand (w : W) (deviceId : string) (c : DeviceCommand)
  : W * option ApiError :=
  if getClient w then
    let '(w', r) := sendCommand w deviceId c in
    (w', option_map (fun e =>
           mkApiError (String.append "Failed to execute command "
                         (String.append (dc_command c)
                            (String.append " on device " deviceId)))
             (ae_status e) (ae_responseStatus e)) r)
  else (w, Some authRequired).

Definition is422Error (e : ApiError) : bool :=
  bool_decide (ae_status e = Some 422%Z) ||
  bool_decide (ae_responseStatus e = Some 422%Z) ||
  includes "422" (ae_message e) ||
  includes "status code 422" (ae_message e).

Fixpoint tryCommands (w : W) (deviceId : string) (cmds : list DeviceCommand)
  : W * option ApiError :=
  match cmds with
  | [] => (w, Some (allLightingFailed deviceId))
  | c :: rest =>
      let '(w', r) := executeDeviceCommand w deviceId c in
      match r with
      | None => (w', None)
      | Some e => if is422Error e then tryCommands w' deviceId rest else (w', Some e)
      end
  end.

Definition turnOffLighting (w : W) (deviceId : string) : W * option ApiError :=
  match hasLightingCapability w deviceId with
  | inl e => (w, Some e)
  | inr false => (w, None)
  | inr true => tryCommands w deviceId commandsToTry
  end.

End Lighting.
End SmartThingsDeviceManager.

Module LightingMonitorModel.
Import SmartThingsDeviceManager.

Inductive LightingAction := TurnedOff | AlreadyOff | LightingError.

Record LightingEvent := mkLightingEvent {
  le_deviceId : string;
  le_deviceName : string;
  le_timestamp : Z;
  le_previousState : string;
  le_action : LightingAction;
  le_error : option string
}.

Record LightingMonitor := mkLightingMonitor {
  lm_isRunning : bool;
  lm_lastCheckTime : Z;
  lm_totalChecks : Z;
  lm_totalLightsOff : Z;
  recentEvents : list LightingEvent;
  devicesWithLighting : list string
}.

Definition set_recentEvents (lm : LightingMonitor) (ev : list LightingEvent) :=
  mkLightingMonitor (lm_isRunning lm) (lm_lastCheckTime lm) (lm_totalChecks lm)
    (lm_totalLightsOff lm) ev (devicesWithLighting lm).
Definition set_totalLightsOff (lm : LightingMonitor) (n : Z) :=
  mkLightingMonitor (lm_isRunning lm) (lm_lastCheckTime lm) (lm_totalChecks lm)
    n (recentEvents lm) (devicesWithLighting lm).
Definition set_devicesWithLighting (lm : LightingMonitor) (ids : list string) :=
  mkLightingMonitor (lm_isRunning lm) (lm_lastCheckTime lm) (lm_totalChecks lm)
    (lm_totalLightsOff lm) (recentEvents lm) ids.
Definition set_isRunning (lm : LightingMonitor) (b : bool) :=
  mkLightingMonitor b (lm_lastCheckTime lm) (lm_totalChecks lm)
    (lm_totalLightsOff lm) (recentEvents lm) (devicesWithLighting lm).

Definition newLightingMonitor : LightingMonitor := mkLightingMonitor false 0 0 0 [] [].

(** [addEvent] *)
Definition addEvent (event : LightingEvent) (lm : LightingMonitor) : LightingMonitor :=
  let ev := event :: recentEvents lm in
  set_recentEvents lm (if Nat.ltb 50 (length ev) then take 50 ev else ev).

Record TurnOffResults := mkTurnOffResults {
  success : Z; failed : Z; errors : list string
}.

(** [`${error}`] of an [Error] *)
Definition errorToString (e : ApiError) : string :=
  String.append "Error: " (ae_message e).

(** [config.coordinator.lightingMonitor]: its two keys. *)
Record LightingMonitorConfig := mkLightingMonitorConfig {
  lmc_enabled : bool;
  lmc_checkIntervalMs : Z
}.

(** [config.coordinator] in src/src/config.ts has no [lightingMonitor] key,
    so [config.coordinator.lightingMonitor] is [undefined]. *)
Definition configLightingMonitor : option LightingMonitorConfig := None.

(** The [TypeError] thrown when a property of [undefined] is read. *)
Inductive TypeError := CannotReadProperty (prop : string).

Record LightingMonitorStatus := mkLightingMonitorStatus {
  ls_isRunning : bool;
  ls_enabled : bool;
  ls_checkIntervalMs : Z;
  ls_lastCheckTime : Z;
  ls_devicesWithLighting : list string;
  ls_totalChecks : Z;
  ls_totalLightsOff : Z;
  ls_recentEvents : list LightingEvent
}.

(** [getStatus]: reading [enabled] of an undefined config throws. *)
Definition getStatus (lightingMonitorConfig : option LightingMonitorConfig)
  (lm : LightingMonitor) : TypeError + LightingMonitorStatus :=
  match lightingMonitorConfig with
  | None => inl (CannotReadProperty "enabled")
  | Some c =>
      inr (mkLightingMonitorStatus (lm_isRunning lm) (lmc_enabled c)
             (lmc_checkIntervalMs c) (lm_lastCheckTime lm) (devicesWithLighting lm)
             (lm_totalChecks lm) (lm_totalLightsOff lm) (take 10 (recentEvents lm)))
  end.

Section Monitor.
Context {W : Type}
  (oauthAuthenticated : W -> bool) (tokenAvailable : W -> bool)
  (listDevices : W -> option (list SmartThingsDevice))
  (lightingStateValue : W -> string -> option (option string))
  (sendCommand : W -> string -> DeviceCommand -> W * option ApiError)
  (clock : W -> Z)
  (lightingMonitorConfig : option LightingMonitorConfig)
  (miniSplitIds roomNames : list string).


Definition getDeviceName (deviceId : string) : string :=
  let fallback := String.append "Device "
                    (String.append (String.substring 0 8 deviceId) "...") in
  match list_find (fun x => x = deviceId) miniSplitIds with
  | Some (index, _) =>
      match roomNames !! index with
      | Some r => String.append r " Mini-Split"
      | None => fallback
      end
  | None => fallback
  end.

Definition initializeDevicesWithLighting (w : W) (lm : LightingMonitor) : LightingMonitor :=
  if oauthAuthenticated w then
    set_devicesWithLighting lm
      (List.filter (fun deviceId =>
         match hasLightingCapability oauthAuthenticated tokenAvailable listDevices w deviceId with
         | inr true => true
         | _ => false
         end) miniSplitIds)
  else lm.

(** The body of the [for] loop of [checkAndTurnOffLighting]. *)
Definition checkOne (p : W * LightingMonitor) (deviceId : string) : W * LightingMonitor :=
  let '(w, lm) := p in
  match getLightingStatus oauthAuthenticated tokenAvailable lightingStateValue w deviceId with
  | inl err =>
      (w, addEvent (mkLightingEvent deviceId (getDeviceName deviceId) (clock w) "unknown"
                     LightingError (Some (String.append "Check failed: " (errorToString err))))
            lm)
  | inr None => (w, lm)
  | inr (Some lightingState) =>
      if String.eqb lightingState "on" then
        let '(w', r) := turnOffLighting oauthAuthenticated tokenAvailable listDevices sendCommand w deviceId in
        match r with
        | None =>
            let lm' := set_totalLightsOff lm (lm_totalLightsOff lm + 1) in
            (w', addEvent (mkLightingEvent deviceId (getDeviceName deviceId) (clock w') "on"
                            TurnedOff None) lm')
        | Some e =>
            (w', addEvent (mkLightingEvent deviceId (getDeviceName deviceId) (clock w') "on"
                            LightingError
                            (Some (String.append "Failed to turn off: " (errorToString e)))) lm)
        end
      else
        (w, addEvent (mkLightingEvent deviceId (getDeviceName deviceId) (clock w) "off"
                       AlreadyOff None) lm)
  end.

Definition checkAndTurnOffLighting (w : W) (lm : LightingMonitor) : W * LightingMonitor :=
  if oauthAuthenticated w then
    let lm1 := mkLightingMonitor (lm_isRunning lm) (clock w) (lm_totalChecks lm + 1)
                 (lm_totalLightsOff lm) (recentEvents lm) (devicesWithLighting lm) in
    fold_left checkOne (devicesWithLighting lm1) (w, lm1)
  else (w, lm).

(** The body of the [for] loop of [manualTurnOffAllLighting]. *)
Definition manualOne (p : W * LightingMonitor * TurnOffResults) (deviceId : string)
  : W * LightingMonitor * TurnOffResults :=
  let '(w, lm, res) := p in
  let '(w', r) := turnOffLighting oauthAuthenticated tokenAvailable listDevices sendCommand w deviceId in
  match r with
  | None =>
      (w', addEvent (mkLightingEvent deviceId (getDeviceName deviceId) (clock w') "unknown"
                      TurnedOff None) lm,
       mkTurnOffResults (success res + 1) (failed res) (errors res))
  | Some e =>
      let errorMsg := String.append "Failed to turn off lighting for "
                        (String.append deviceId (String.append ": " (errorToString e))) in
      (w', addEvent (mkLightingEvent deviceId (getDeviceName deviceId) (clock w') "unknown"
                      LightingError (Some errorMsg)) lm,
       mkTurnOffResults (success res) (failed res + 1) (errors res ++ [errorMsg]))
  end.

Definition manualTurnOffAllLighting (w : W) (lm : LightingMonitor)
  : W * LightingMonitor * TurnOffResults :=
  if negb (oauthAuthenticated w) then
    (w, lm, mkTurnOffResults 0 0 ["SmartThings authentication not available"%string])
  else
    let '(w', lm', res) := fold_left manualOne (devicesWithLighting lm)
                             (w, lm, mkTurnOffResults 0 0 []) in
    (w', set_totalLightsOff lm' (lm_totalLightsOff lm' + success res), res).

(** [start] (the [setInterval] timer is not modelled): its first line reads
    [config.coordinator.lightingMonitor.enabled], which throws when the
    config has no [lightingMonitor]. *)
Definition start (w : W) (lm : LightingMonitor)
  : (TypeError + unit) * (W * LightingMonitor) :=
  match lightingMonitorConfig with
  | None => (inl (CannotReadProperty "enabled"), (w, lm))
  | Some cfg =>
      if negb (lmc_enabled cfg) then (inr tt, (w, lm))
      else if lm_isRunning lm then (inr tt, (w, lm))
      else
        let lm1 := initializeDevicesWithLighting w lm in
        if Nat.eqb (length (devicesWithLighting lm1)) 0 then (inr tt, (w, lm1))
        else (inr tt, checkAndTurnOffLighting w (set_isRunning lm1 true))
  end.

End Monitor.

(** An event already recorded in [old], or one whose previous state is
    ["on"] or ["off"]. *)
Definition eventFrom (old : list LightingEvent) (ev : LightingEvent) : Prop :=
  In ev old \/ le_previousState ev = "on"%string \/ le_previousState ev = "off"%string.

End LightingMonitorModel.

(** Matter bridge (server.ts) *)
Definition matterSystemMode (m : Mode) : Z :=
  let v := match m with Off => 0%Z | Cool => 3%Z | Heat => 4%Z end in
  if Z.eqb v 0 then 1%Z else v.

Definition modeFromMatter (value : Z) : Mode :=
  match value with 0%Z => Off | 3%Z => Cool | 4%Z => Heat | _ => Off end.

Definition setpointToRangeTemp (value : Q) : Q :=
  let t := Math_round (((value - 32) * 5 / 9) * 10) / 10 in
  Math_round (t * 9 / 5 + 32).

(** [coordinator.getCoordinatorStatus().globalRange]: the status object is
    built after [lightingMonitor.getStatus()], so an error there is thrown
    from the whole call. *)
Definition getCoordinatorStatusRange
  (lightingMonitorConfig : option LightingMonitorModel.LightingMonitorConfig)
  (lm : LightingMonitorModel.LightingMonitor) (s : SystemState)
  : LightingMonitorModel.TypeError + (Q * Q) :=
  match LightingMonitorModel.getStatus lightingMonitorConfig lm with
  | inl e => inl e
  | inr _ => inr (globalMinTemp s, globalMaxTemp s)
  end.

(** The [heatingSetpoint$Changed] handler: the arguments it passes to
    [setGlobalTemperatureRange], or the error that skips the call (the
    handler catches and logs it). *)
Definition heatingSetpointRange
  (lightingMonitorConfig : option LightingMonitorModel.LightingMonitorConfig)
  (lm : LightingMonitorModel.LightingMonitor) (value : Q) (s : SystemState)
  : LightingMonitorModel.TypeError + (Q * Q) :=
  match getCoordinatorStatusRange lightingMonitorConfig lm s with
  | inl e => inl e
  | inr (_, mx) => inr (setpointToRangeTemp value, mx)
  end.

(** The [coolingSetpoint$Changed] handler, likewise. *)
Definition coolingSetpointRange
  (lightingMonitorConfig : option LightingMonitorModel.LightingMonitorConfig)
  (lm : LightingMonitorModel.LightingMonitor) (value : Q) (s : SystemState)
  : LightingMonitorModel.TypeError + (Q * Q) :=
  match getCoordinatorStatusRange lightingMonitorConfig lm s with
  | inl e => inl e
  | inr (mn, _) => inr (mn, setpointToRangeTemp value)
  end.

(** A device session that answers every command with HTTP 500, and a
    device list with one lighting-capable unit whose id contains [422]. *)
Definition failingSend (w : nat) (deviceId : string) (c : SmartThingsDeviceManager.DeviceCommand)
  : nat * option SmartThingsDeviceManager.ApiError :=
  (S w, Some (SmartThingsDeviceManager.mkApiError "Request failed with status code 500" (Some 500%Z) None)).

Definition lightingDevices (w : nat) : option (list SmartThingsDeviceManager.SmartThingsDevice) :=
  Some [SmartThingsDeviceManager.mkSmartThingsDevice "dev-422" ["samsungce.airConditionerLighting"%string]].

(* ================================================================== *)
(** ** Properties *)

Example range_rejects_inverted :
  fst (updateGlobalTemperatureRange 72 68 state0) = inl MinNotBelowMax.
Proof. reflexivity. Qed.

Example range_accepts :
  fst (updateGlobalTemperatureRange 60 75 state0) = inr tt.
Proof. reflexivity. Qed.

Example mode_cold_is_heat :
  determineOptimalSystemMode None 60 (mkStateManager state0 ∅) = Heat.
Proof. vm_compute. reflexivity. Qed.

Example mode_between_keeps :
  determineOptimalSystemMode None 70 (mkStateManager state0 ∅) = Off.
Proof. vm_compute. reflexivity. Qed.

(** A target the coordinator did not write and in range is respected. *)
Example actions_heat_respected :
  generateCoordinationActions None Heat (mkStateManager state0 ∅)
  = [mkAction "dev-A" (SetModeAction Heat)].
Proof. vm_compute. reflexivity. Qed.

Example actions_heat :
  generateCoordinationActions None Heat
    (mkStateManager state0 (<["dev-A" := 70]> ∅))
  = [mkAction "dev-A" (SetModeAction Heat); mkAction "dev-A" (SetTemperatureAction 68)].
Proof. vm_compute. reflexivity. Qed.

Example round_half_up : Math_round (685 # 10) = 69.
Proof. reflexivity. Qed.

(* ================================================================== *)
(** ** Basic facts *)

Lemma Qltb_iff (x y : Q) : Qltb x y = true <-> x < y.
Proof.
  unfold Qltb. rewrite negb_true_iff. split.
  - intros H. apply Qnot_le_lt. intros H'. apply Qle_bool_iff in H'. congruence.
  - intros H. destruct (Qle_bool y x) eqn:E; [|reflexivity].
    apply Qle_bool_iff in E. exfalso. apply (Qlt_not_le x y); assumption.
Qed.

Lemma Qltb_false (x y : Q) : Qltb x y = false <-> ~ x < y.
Proof.
  rewrite <- Qltb_iff. destruct (Qltb x y); intuition congruence.
Qed.

Lemma Qle_bool_false (x y : Q) : Qle_bool x y = false <-> ~ x <= y.
Proof.
  rewrite <- Qle_bool_iff. destruct (Qle_bool x y); intuition congruence.
Qed.

Lemma slice_last_spec {A} (n : nat) (xs : list A) :
  length (slice_last n xs) = Nat.min (length xs) n /\
  exists old, xs = old ++ slice_last n xs.
Proof.
  unfold slice_last. split.
  - rewrite length_skipn. lia.
  - exists (firstn (length xs - n) xs). symmetry. apply firstn_skipn.
Qed.

(** The bounded append shared by both logs: push, then [slice(-limit)]
    when the log is over its limit. *)
Lemma bounded_append_spec {A} (limit : nat) (xs : list A) (x : A) :
  (1 <= limit)%nat ->
  let ys := if Nat.ltb limit (length (xs ++ [x]))
            then slice_last limit (xs ++ [x]) else xs ++ [x] in
  (length ys = Nat.min (length (xs ++ [x])) limit)%nat /\
  (exists old, xs ++ [x] = old ++ ys) /\
  (exists pre, ys = pre ++ [x]).
Proof.
  intros Hl ys.
  assert (Hsuf : (length ys = Nat.min (length (xs ++ [x])) limit)%nat /\
                 exists old, xs ++ [x] = old ++ ys).
  { subst ys. destruct (Nat.ltb_spec limit (length (xs ++ [x]))).
    - apply slice_last_spec.
    - split; [lia|]. exists []. reflexivity. }
  destruct Hsuf as [Hlen [old Hold]].
  split; [exact Hlen|]. split; [exists old; exact Hold|].
  assert (Hne : ys <> []).
  { intros E. rewrite E in Hlen. simpl in Hlen.
    rewrite length_app in Hlen. simpl in Hlen. lia. }
  destruct (exists_last Hne) as [pre [y Hy]].
  exists pre. rewrite Hy in Hold |- *. rewrite app_assoc in Hold.
  apply app_inj_tail in Hold. destruct Hold as [_ ->]. reflexivity.
Qed.

(* ================================================================== *)
(** ** Claims *)

(** C5: after [addModeChangeEvent] the history holds at most 1000 events
    and after [addConflictEvent] the conflict log at most 100; the kept
    entries are the most recent ones of the log with the new entry
    appended, in order, ending with the new entry. *)
Theorem bounded_logs_spec (now : Z) (dev : option string) (p n : Mode)
  (r : ModeChangeReason) (o : option Q) (ct : ConflictType) (d : string)
  (ids : list string) (s : SystemState) :
  let ev := mkModeChangeEvent now dev p n r o in
  let h := modeChangeHistory (addModeChangeEvent now dev p n r o s) in
  let cf := mkConflictEvent now ct d ids false None in
  let c := conflicts (addConflictEvent now ct d ids s) in
  ((length h <= historyLimit)%nat /\
   (length h = Nat.min (length (modeChangeHistory s ++ [ev])) historyLimit)%nat /\
   (exists old, modeChangeHistory s ++ [ev] = old ++ h) /\
   (exists pre, h = pre ++ [ev])) /\
  ((length c <= conflictLimit)%nat /\
   (length c = Nat.min (length (conflicts s ++ [cf])) conflictLimit)%nat /\
   (exists old, conflicts s ++ [cf] = old ++ c) /\
   (exists pre, c = pre ++ [cf])).
Proof.
  intros ev h cf c. split.
  - assert (Hb := bounded_append_spec historyLimit (modeChangeHistory s) ev).
    cbv zeta in Hb. destruct Hb as [Hlen [Hold Hpre]]; [unfold historyLimit; lia|].
    assert (Eh : h = if Nat.ltb historyLimit (length (modeChangeHistory s ++ [ev]))
                     then slice_last historyLimit (modeChangeHistory s ++ [ev])
                     else modeChangeHistory s ++ [ev]).
    { subst h. unfold addModeChangeEvent.
      destruct (Nat.ltb _ _); reflexivity. }
    rewrite Eh. repeat split; auto. rewrite Hlen. lia.
  - assert (Hb := bounded_append_spec conflictLimit (conflicts s) cf).
    cbv zeta in Hb. destruct Hb as [Hlen [Hold Hpre]]; [unfold conflictLimit; lia|].
    assert (Ec : c = if Nat.ltb conflictLimit (length (conflicts s ++ [cf]))
                     then slice_last conflictLimit (conflicts s ++ [cf])
                     else conflicts s ++ [cf]).
    { subst c. unfold addConflictEvent.
      destruct (Nat.ltb _ _); reflexivity. }
    rewrite Ec. repeat split; auto. rewrite Hlen. lia.
Qed.

(** C3: [updateGlobalTemperatureRange min max] rejects the call, leaving
    the whole state unchanged, iff [min >= max] or a bound lies outside
    [[50, 90]]; otherwise it sets exactly [globalMinTemp] and
    [globalMaxTemp].  Under [min < max] the code's guard
    [min < 50 || max > 90] is the same as "a bound outside [[50, 90]]". *)
Theorem updateGlobalTemperatureRange_spec (lo hi : Q) (s : SystemState) :
  let bad := hi <= lo \/ lo < 50 \/ 90 < lo \/ hi < 50 \/ 90 < hi in
  (bad -> exists e, updateGlobalTemperatureRange lo hi s = (inl e, s)) /\
  (~ bad -> updateGlobalTemperatureRange lo hi s =
            (inr tt, mkSystemState (globalMode s) lo hi (outsideTemperature s)
                       (lastOutsideWeatherUpdate s) (miniSplits s)
                       (modeChangeHistory s) (conflicts s))) /\
  (lo < hi -> (lo < 50 \/ 90 < hi <-> lo < 50 \/ 90 < lo \/ hi < 50 \/ 90 < hi)).
Proof.
  intros bad. unfold updateGlobalTemperatureRange.
  split; [|split].
  - intros Hbad.
    destruct (Qle_bool hi lo) eqn:E1; [eexists; reflexivity|].
    destruct (Qltb lo 50) eqn:E2; [eexists; reflexivity|].
    destruct (Qltb 90 hi) eqn:E3; [eexists; reflexivity|].
    exfalso. apply Qle_bool_false in E1. apply Qltb_false in E2.
    apply Qltb_false in E3.
    destruct Hbad as [H|[H|[H|[H|H]]]]; try contradiction;
      apply E1; lra.
  - intros Hok.
    destruct (Qle_bool hi lo) eqn:E1.
    { apply Qle_bool_iff in E1. exfalso. apply Hok. left. exact E1. }
    destruct (Qltb lo 50) eqn:E2.
    { apply Qltb_iff in E2. exfalso. apply Hok. right. left. exact E2. }
    destruct (Qltb 90 hi) eqn:E3.
    { apply Qltb_iff in E3. exfalso. apply Hok. right; right; right; right. exact E3. }
    reflexivity.
  - intros Hlt. split.
    + intros [H|H]; [left|right; right; right]; exact H.
    + intros [H|[H|[H|H]]]; [left; exact H|right; lra|left; lra|right; exact H].
Qed.

(** C8: the outdoor-temperature query always yields a value: a cached
    value younger than the TTL is returned without fetching; when the
    fetch fails the cached value (even stale) is returned, else the 70 F
    fallback; [isCacheValid] holds iff a cached value younger than the TTL
    exists; the TTL defaults to 15 minutes. *)
Theorem getWeatherData_spec (now : Z) (ws : WeatherService) (cfg : WeatherConfig) :
  (forall c, cachedData ws = Some c -> (now - lastFetchTime ws < cacheDurationMs ws)%Z ->
     forall fetch, getWeatherData now fetch ws = (c, ws)) /\
  (forall c, cachedData ws = Some c -> fst (getWeatherData now None ws) = c) /\
  (cachedData ws = None -> temperature (fst (getWeatherData now None ws)) = 70) /\
  (isCacheValid now ws = true <->
     exists c, cachedData ws = Some c /\ (now - lastFetchTime ws < cacheDurationMs ws)%Z) /\
  (cfg_cacheDurationMs cfg = None ->
     cacheDurationMs (newWeatherService cfg) = (15 * 60 * 1000)%Z).
Proof.
  unfold getWeatherData, isCacheValid.
  split; [|split; [|split; [|split]]].
  - intros c Hc Hlt fetch. rewrite Hc.
    apply Z.ltb_lt in Hlt. rewrite Hlt. reflexivity.
  - intros c Hc. rewrite Hc.
    destruct (Z.ltb _ _); reflexivity.
  - intros Hc. rewrite Hc. reflexivity.
  - destruct (cachedData ws) as [c|].
    + rewrite Z.ltb_lt. split.
      * intros H. exists c. auto.
      * intros [c' [_ H]]. exact H.
    + split; [discriminate|]. intros [c' [H _]]. discriminate.
  - intros H. unfold newWeatherService. simpl. rewrite H. reflexivity.
Qed.

(** C1: with at least one online unit the mode is [heat] when the outdoor
    temperature is below the heating setpoint, else [cool] when above the
    cooling setpoint, else the current global mode; with none it is [off].
    The setpoints are the active schedule's bounds, falling back (JS [||])
    to the global range. *)
Theorem determineOptimalSystemMode_spec (sched : option Schedule) (t : Q)
  (sm : StateManager) :
  let s := state sm in
  let heating := heatingSetpoint sched s in
  let cooling := coolingSetpoint sched s in
  heating = match sched with
            | Some sc => if Qeq_bool (targetMinTemp sc) 0 then globalMinTemp s
                         else targetMinTemp sc
            | None => globalMinTemp s
            end /\
  cooling = match sched with
            | Some sc => if Qeq_bool (targetMaxTemp sc) 0 then globalMaxTemp s
                         else targetMaxTemp sc
            | None => globalMaxTemp s
            end /\
  (getOnlineMiniSplits s = [] -> determineOptimalSystemMode sched t sm = Off) /\
  (getOnlineMiniSplits s <> [] ->
     (t < heating -> determineOptimalSystemMode sched t sm = Heat) /\
     (~ t < heating -> cooling < t -> determineOptimalSystemMode sched t sm = Cool) /\
     (~ t < heating -> ~ cooling < t ->
        determineOptimalSystemMode sched t sm = globalMode s)).
Proof.
  intros s heating cooling.
  split; [subst heating; unfold heatingSetpoint, num_or; destruct sched; reflexivity|].
  split; [subst cooling; unfold coolingSetpoint, num_or; destruct sched; reflexivity|].
  unfold determineOptimalSystemMode. fold s. fold heating. fold cooling.
  split.
  - intros H. rewrite H. reflexivity.
  - intros Hne. destruct (getOnlineMiniSplits s) as [|u us]; [congruence|].
    split; [|split].
    + intros H. apply Qltb_iff in H. rewrite H. reflexivity.
    + intros H1 H2. apply Qltb_false in H1. apply Qltb_iff in H2.
      rewrite H1, H2. reflexivity.
    + intros H1 H2. apply Qltb_false in H1. apply Qltb_false in H2.
      rewrite H1, H2. reflexivity.
Qed.

Lemma unitActions_temp (sched : option Schedule) (m : Mode) (sm : StateManager)
  (u : MiniSplitState) (t : Q) :
  In (mkAction (deviceId u) (SetTemperatureAction t)) (unitActions sched m sm u) <->
  shouldRespectManualOverride sm u = false /\
  t = desiredTemp sched m (state sm) u /\
  1 <= Qabs (desiredTemp sched m (state sm) u - targetTemperature u).
Proof.
  unfold unitActions.
  assert (Hm : ~ In (mkAction (deviceId u) (SetTemperatureAction t))
                 (if mode_eqb (mode u) m then []
                  else [mkAction (deviceId u) (SetModeAction m)])).
  { destruct (mode_eqb _ _); simpl; [tauto|]. intros [H|H]; [discriminate|exact H]. }
  destruct (shouldRespectManualOverride sm u).
  - split; [intros H; contradiction|intros [H _]; discriminate].
  - rewrite in_app_iff. unfold Math_abs.
    destruct (Qle_bool 1 _) eqn:E; simpl.
    + apply Qle_bool_iff in E. split.
      * intros [H|[H|H]]; [contradiction| |contradiction].
        inversion H. auto.
      * intros [_ [-> _]]. right. left. reflexivity.
    + apply Qle_bool_false in E. split.
      * intros [H|H]; contradiction.
      * intros [_ [_ H]]. contradiction.
Qed.

(** C4: for a unit not exempted by a respected override, the loop body of
    [generateCoordinationActions] emits [setTemperature] (to the desired
    temperature: heating setpoint in heat, cooling setpoint in cool, the
    unit's own target in off) iff the desired temperature differs from the
    target by at least 1 F; within 0.9 F it never does; the body's actions
    for an online unit are actions of the cycle. *)
Theorem generate_deadband (sched : option Schedule) (m : Mode)
  (sm : StateManager) (u : MiniSplitState) :
  shouldRespectManualOverride sm u = false ->
  let d := desiredTemp sched m (state sm) u in
  d = match m with
      | Heat => heatingSetpoint sched (state sm)
      | Cool => coolingSetpoint sched (state sm)
      | Off => targetTemperature u
      end /\
  ((exists t, In (mkAction (deviceId u) (SetTemperatureAction t))
                (unitActions sched m sm u)) <->
   1 <= Qabs (d - targetTemperature u)) /\
  (forall t, In (mkAction (deviceId u) (SetTemperatureAction t))
               (unitActions sched m sm u) -> t = d) /\
  (Qabs (d - targetTemperature u) <= 9 # 10 ->
   forall t, ~ In (mkAction (deviceId u) (SetTemperatureAction t))
                 (unitActions sched m sm u)) /\
  (In u (getOnlineMiniSplits (state sm)) ->
   forall a, In a (unitActions sched m sm u) ->
   In a (generateCoordinationActions sched m sm)).
Proof.
  intros Hr d. split; [destruct m; reflexivity|].
  split; [|split; [|split]].
  - split.
    + intros [t Ht]. apply unitActions_temp in Ht. tauto.
    + intros H. exists d. apply unitActions_temp. auto.
  - intros t Ht. apply unitActions_temp in Ht. tauto.
  - intros Hle t Ht. apply unitActions_temp in Ht.
    destruct Ht as [_ [_ H]]. fold d in H. lra.
  - intros Hin a Ha. unfold generateCoordinationActions.
    apply in_flat_map. exists u. auto.
Qed.

(** C2 (as amended): a respected override gets no [setTemperature]; a
    target outside the global range is never respected, and for it the
    loop body emits [setTemperature] exactly when the target mode is heat
    or cool and that mode's setpoint is at least 1 F away; in off mode no
    correcting action is emitted. *)
Theorem override_respect_spec (sched : option Schedule) (m : Mode)
  (sm : StateManager) (u : MiniSplitState) :
  (shouldRespectManualOverride sm u = true ->
   forall t, ~ In (mkAction (deviceId u) (SetTemperatureAction t))
                 (unitActions sched m sm u)) /\
  (targetTemperature u < globalMinTemp (state sm) \/
   globalMaxTemp (state sm) < targetTemperature u ->
   shouldRespectManualOverride sm u = false /\
   forall t, In (mkAction (deviceId u) (SetTemperatureAction t))
               (unitActions sched m sm u) <->
             m <> Off /\ t = desiredTemp sched m (state sm) u /\
             1 <= Qabs (desiredTemp sched m (state sm) u - targetTemperature u)).
Proof.
  split.
  - intros Hr t Ht. apply unitActions_temp in Ht. destruct Ht as [H _].
    congruence.
  - intros Hout.
    assert (Hr : shouldRespectManualOverride sm u = false).
    { unfold shouldRespectManualOverride.
      destruct Hout as [H|H].
      + destruct (Qle_bool (globalMinTemp (state sm)) (targetTemperature u)) eqn:E.
        * apply Qle_bool_iff in E. lra.
        * rewrite andb_false_r. reflexivity.
      + destruct (Qle_bool (targetTemperature u) (globalMaxTemp (state sm))) eqn:E.
        * apply Qle_bool_iff in E. lra.
        * rewrite andb_false_r. reflexivity. }
    split; [exact Hr|]. intros t. rewrite unitActions_temp. split.
    + intros [_ [Ht Hd]]. split; [|auto].
      intros ->. simpl in Hd.
      assert (E : Qabs (targetTemperature u - targetTemperature u) == 0)
        by (unfold Qminus; rewrite Qplus_opp_r; reflexivity).
      rewrite E in Hd. lra.
    + intros [_ [Ht Hd]]. auto.
Qed.

(** C2: a unit manually set to 95 F with the range 68..72 is not exempted,
    yet a cycle whose target mode is off emits no action at all. *)
Lemma override_out_of_range_uncorrected :
  let sm := mkStateManager stateHot ∅ in
  globalMaxTemp stateHot < targetTemperature unitHot /\
  In unitHot (getOnlineMiniSplits stateHot) /\
  shouldRespectManualOverride sm unitHot = false /\
  determineOptimalSystemMode None 70 sm = Off /\
  generateCoordinationActions None (determineOptimalSystemMode None 70 sm) sm = [].
Proof.
  intros sm. split; [reflexivity|]. split; [vm_compute; left; reflexivity|].
  split; [vm_compute; reflexivity|].
  split; vm_compute; reflexivity.
Qed.

Lemma addConflictEvent_frame (now : Z) (ct : ConflictType) (d : string)
  (ids : list string) (s : SystemState) :
  modeChangeHistory (addConflictEvent now ct d ids s) = modeChangeHistory s /\
  miniSplits (addConflictEvent now ct d ids s) = miniSplits s /\
  globalMode (addConflictEvent now ct d ids s) = globalMode s /\
  globalMinTemp (addConflictEvent now ct d ids s) = globalMinTemp s /\
  globalMaxTemp (addConflictEvent now ct d ids s) = globalMaxTemp s.
Proof. unfold addConflictEvent. destruct (Nat.ltb _ _); simpl; auto. Qed.

Lemma filter_active_units (M : list Mode) (l : list MiniSplitState) :
  (forall u, In u l -> mode u <> Off -> mode u ∈ M) ->
  filter (fun u => mode u <> Off /\ mode u ∈ M) l = filter (fun u => mode u <> Off) l.
Proof.
  induction l as [|u l IH]; intros H; [reflexivity|].
  rewrite !filter_cons.
  rewrite IH by (intros v Hv; apply H; right; exact Hv).
  destruct (decide (mode u <> Off)) as [Hm|Hm].
  - rewrite decide_True by (split; [exact Hm|apply H; [left; reflexivity|exact Hm]]).
    reflexivity.
  - rewrite decide_False by tauto. reflexivity.
Qed.

Lemma getRecentModeChanges_addConflictEvent (now : Z) (hours : Z)
  (now' : Z) (ct : ConflictType) (d : string) (ids : list string) (s : SystemState) :
  getRecentModeChanges now hours (addConflictEvent now' ct d ids s) =
  getRecentModeChanges now hours s.
Proof.
  unfold getRecentModeChanges.
  destruct (addConflictEvent_frame now' ct d ids s) as [-> _]. reflexivity.
Qed.

Lemma conflict_notes_shape (n1 : list ConflictNote) (b1 b2 : bool)
  (lo hi : Q) (k : nat) :
  (forall x, In x n1 -> exists names, x = ModeConflictNote names) ->
  let l := n1 ++ (if b1 then [TemperatureVariationNote lo hi] else [])
              ++ (if b2 then [RapidSwitchingNote k] else []) in
  ((exists lo' hi', In (TemperatureVariationNote lo' hi') l) <-> b1 = true) /\
  ((exists n, In (RapidSwitchingNote n) l) <-> b2 = true) /\
  (forall names, In (ModeConflictNote names) l <-> In (ModeConflictNote names) n1).
Proof.
  intros Hn1 l. subst l.
  assert (Hmc : forall x, In x n1 -> forall a b, x <> TemperatureVariationNote a b /\
                                            forall c, x <> RapidSwitchingNote c).
  { intros x Hx a b. destruct (Hn1 x Hx) as [names ->]. split; [|intros c]; discriminate. }
  split; [|split].
  - split.
    + intros [lo' [hi' Hin]]. rewrite !in_app_iff in Hin.
      destruct Hin as [Hin|[Hin|Hin]].
      * exfalso. exact (proj1 (Hmc _ Hin lo' hi') eq_refl).
      * destruct b1; [reflexivity|contradiction].
      * destruct b2; [destruct Hin as [Hin|[]]; discriminate|contradiction].
    + intros ->. exists lo, hi. rewrite !in_app_iff. right. left. left. reflexivity.
  - split.
    + intros [n Hin]. rewrite !in_app_iff in Hin.
      destruct Hin as [Hin|[Hin|Hin]].
      * exfalso. exact (proj2 (Hmc _ Hin lo lo) n eq_refl).
      * destruct b1; [destruct Hin as [Hin|[]]; discriminate|contradiction].
      * destruct b2; [reflexivity|contradiction].
    + intros ->. exists k. rewrite !in_app_iff. right. right. left. reflexivity.
  - intros names. rewrite !in_app_iff. split.
    + intros [Hin|[Hin|Hin]]; [exact Hin| |].
      * destruct b1; [destruct Hin as [Hin|[]]; discriminate|contradiction].
      * destruct b2; [destruct Hin as [Hin|[]]; discriminate|contradiction].
    + intros Hin. left. exact Hin.
Qed.

(** C6 (as amended): with fewer than two online units nothing is detected
    and the state is unchanged.  With two or more: more than one distinct
    non-off mode yields a mode-conflict message and [addConflictEvent]
    (mode_mismatch, over the units in a non-off mode); a spread of current
    temperatures above 10 F yields a variation message; more than 3
    mode changes after [now - 1h] yield a rapid-switching message. *)
Theorem detectConflicts_spec (now : Z) (sm : StateManager) :
  let online := getOnlineMiniSplits (state sm) in
  let activeModes := filter (fun m => m <> Off) (map mode online) in
  let temps := map currentTemperature online in
  let res := detectConflicts now sm in
  ((length online < 2)%nat -> res = ([], sm)) /\
  ((2 <= length online)%nat ->
   coordinatorSets (snd res) = coordinatorSets sm /\
   ((1 < length (uniqueModes activeModes))%nat ->
      (exists names, In (ModeConflictNote names) (fst res)) /\
      exists desc, state (snd res) =
        addConflictEvent now ModeMismatch desc
          (map deviceId (filter (fun u => mode u <> Off) online)) (state sm)) /\
   (~ (1 < length (uniqueModes activeModes))%nat ->
      forall names, ~ In (ModeConflictNote names) (fst res)) /\
   ((exists lo hi, In (TemperatureVariationNote lo hi) (fst res)) <->
      10 < list_max temps - list_min temps) /\
   ((exists n, In (RapidSwitchingNote n) (fst res)) <->
      (3 < length (getRecentModeChanges now 1 (state sm)))%nat)).
Proof.
  intros online activeModes temps res. subst res. unfold detectConflicts.
  fold online. fold activeModes.
  split.
  - intros H. apply Nat.ltb_lt in H. rewrite H. reflexivity.
  - intros H. assert (H' : Nat.ltb (length online) 2 = false)
      by (apply Nat.ltb_ge; exact H). rewrite H'.
    assert (Hf : filter (fun u => mode u <> Off /\ mode u ∈ activeModes) online
                 = filter (fun u => mode u <> Off) online).
    { apply filter_active_units. intros u Hu Hm. subst activeModes.
      apply list_elem_of_filter. split; [exact Hm|].
      apply list_elem_of_In. apply in_map. exact Hu. }
    rewrite Hf. fold temps.
    destruct (Nat.ltb 1 (length (uniqueModes activeModes))) eqn:Eu;
      cbn [fst snd with_state state coordinatorSets];
      rewrite ?getRecentModeChanges_addConflictEvent.
    + apply Nat.ltb_lt in Eu.
      match goal with
      | |- context [ ?n1 ++ (if Qltb ?x ?y then [TemperatureVariationNote ?a ?b] else [])
                         ++ (if Nat.ltb 3 ?z then [RapidSwitchingNote ?k] else []) ] =>
        destruct (conflict_notes_shape n1 (Qltb x y) (Nat.ltb 3 z) a b k) as [Ht [Hr Hm]];
          [intros x0 [<-|[]]; eexists; reflexivity|]
      end.
      rewrite Ht, Hr, Qltb_iff, Nat.ltb_lt.
      split; [reflexivity|]. split; [|split; [lia|tauto]].
      intros _. split; [eexists; rewrite Hm; left; reflexivity|].
      eexists. reflexivity.
    + apply Nat.ltb_ge in Eu.
      match goal with
      | |- context [ ?n1 ++ (if Qltb ?x ?y then [TemperatureVariationNote ?a ?b] else [])
                         ++ (if Nat.ltb 3 ?z then [RapidSwitchingNote ?k] else []) ] =>
        destruct (conflict_notes_shape n1 (Qltb x y) (Nat.ltb 3 z) a b k) as [Ht [Hr Hm]];
          [intros x0 []|]
      end.
      rewrite Ht, Hr, Qltb_iff, Nat.ltb_lt.
      split; [reflexivity|]. split; [lia|]. split; [|tauto].
      intros _ names Hin.
      apply Hm in Hin. exact Hin.
Qed.

(** C6: one online unit and four mode changes in the last hour: no
    rapid-switching conflict is detected and no conflict event is added. *)
Lemma rapid_switching_single_unit :
  let sm := mkStateManager stateSwitching ∅ in
  length (getOnlineMiniSplits stateSwitching) = 1%nat /\
  (3 < length (getRecentModeChanges 14 1 stateSwitching))%nat /\
  detectConflicts 14 sm = ([], sm).
Proof.
  intros sm. split; [vm_compute; reflexivity|].
  split; [vm_compute; lia|]. vm_compute. reflexivity.
Qed.

Lemma addModeChangeEvent_frame (now : Z) (dev : option string) (p n : Mode)
  (r : ModeChangeReason) (o : option Q) (s : SystemState) :
  miniSplits (addModeChangeEvent now dev p n r o s) = miniSplits s /\
  globalMode (addModeChangeEvent now dev p n r o s) = globalMode s /\
  globalMinTemp (addModeChangeEvent now dev p n r o s) = globalMinTemp s /\
  globalMaxTemp (addModeChangeEvent now dev p n r o s) = globalMaxTemp s /\
  conflicts (addModeChangeEvent now dev p n r o s) = conflicts s.
Proof. unfold addModeChangeEvent. destruct (Nat.ltb _ _); simpl; auto. Qed.

Lemma updateMiniSplitState_frame (now : Z) (id : string) (u : MiniSplitUpdate)
  (s : SystemState) :
  miniSplits (updateMiniSplitState now id u s) =
    <[id := mergeMiniSplit now id (miniSplits s !! id) u]> (miniSplits s) /\
  globalMode (updateMiniSplitState now id u s) = globalMode s /\
  globalMinTemp (updateMiniSplitState now id u s) = globalMinTemp s /\
  globalMaxTemp (updateMiniSplitState now id u s) = globalMaxTemp s.
Proof.
  unfold updateMiniSplitState.
  destruct (miniSplits s !! id) as [e|] eqn:E; [|simpl; rewrite ?E; auto].
  destruct (mode_eqb _ _); [simpl; rewrite ?E; auto|].
  unfold addModeChangeEvent. destruct (Nat.ltb _ _); simpl; rewrite ?E; auto.
Qed.

Lemma updateGlobalMode_globalMode (now : Z) (m : Mode) (r : ModeChangeReason)
  (o : option Q) (s : SystemState) :
  globalMode (updateGlobalMode now m r o s) = m /\
  miniSplits (updateGlobalMode now m r o s) = miniSplits s /\
  globalMinTemp (updateGlobalMode now m r o s) = globalMinTemp s /\
  globalMaxTemp (updateGlobalMode now m r o s) = globalMaxTemp s.
Proof.
  unfold updateGlobalMode, mode_eqb.
  destruct (bool_decide (globalMode s = m)) eqn:E.
  - apply bool_decide_eq_true in E. auto.
  - destruct (addModeChangeEvent_frame now None (globalMode s) m r o
                (set_globalMode s m)) as [H1 [H2 [H3 [H4 _]]]].
    rewrite H1, H2, H3, H4. simpl. auto.
Qed.

Lemma initializeDeviceStatesFrom_stores (now : Z) (roomNames : list string)
  (ids : list string) :
  forall (i : nat) (s : SystemState) (id : string),
  In id ids \/ is_Some (miniSplits s !! id) ->
  is_Some (miniSplits (initializeDeviceStatesFrom now i ids roomNames s) !! id).
Proof.
  induction ids as [|id0 ids IH]; intros i s id H; simpl.
  - destruct H as [[]|H]. exact H.
  - apply IH. destruct H as [[->|H]|H]; [right| left; exact H | right].
    + destruct (miniSplits s !! id) as [e|] eqn:E; [rewrite E; eexists; reflexivity|].
      rewrite (proj1 (updateMiniSplitState_frame _ _ _ _)).
      rewrite lookup_insert_eq. eexists; reflexivity.
    + destruct (miniSplits s !! id0) as [e|] eqn:E; [exact H|].
      rewrite (proj1 (updateMiniSplitState_frame _ _ _ _)).
      destruct (decide (id = id0)) as [->|Hne].
      * rewrite lookup_insert_eq. eexists; reflexivity.
      * rewrite lookup_insert_ne by congruence. exact H.
Qed.

(** C7: [emergencyOff] emits [setMode off] for every stored unit, online
    or not, and only such actions (no override or priority test is made);
    every configured id has a stored unit once [initializeDeviceStates] ran;
    the global mode is [off] afterwards, whatever the commands did. *)
Theorem emergencyOff_spec {W : Type} (dm : DeviceManager W) (now : Z)
  (reason : ModeChangeReason) (w : W) (sm : StateManager) :
  (forall id u, miniSplits (state sm) !! id = Some u ->
     In (mkAction (deviceId u) (SetModeAction Off)) (emergencyOffActions sm)) /\
  (forall a, In a (emergencyOffActions sm) -> act a = SetModeAction Off) /\
  (forall ids roomNames s id, In id ids ->
     is_Some (miniSplits (initializeDeviceStates now ids roomNames s) !! id)) /\
  globalMode (state (snd (emergencyOff dm now reason w sm))) = Off.
Proof.
  split; [|split; [|split]].
  - intros id u Hu. unfold emergencyOffActions, getAllMiniSplitStates.
    apply (in_map (fun u => mkAction (deviceId u) (SetModeAction Off))).
    apply list_elem_of_In. apply (list_elem_of_fmap_2' snd _ (id, u)); [|reflexivity].
    apply elem_of_map_to_list. exact Hu.
  - intros a Ha. unfold emergencyOffActions in Ha.
    apply in_map_iff in Ha. destruct Ha as [u [<- _]]. reflexivity.
  - intros ids roomNames s id Hin. apply initializeDeviceStatesFrom_stores.
    left. exact Hin.
  - unfold emergencyOff.
    destruct (executeCoordinationActions dm now w sm (emergencyOffActions sm)) as [w' sm'].
    simpl. apply updateGlobalMode_globalMode.
Qed.

(* ------------------------------------------------------------------ *)
(** Action execution *)

Lemma updateMiniSplitState_coordTemp (now : Z) (k : string) (t : Q)
  (s : SystemState) :
  updateMiniSplitState now k (coordinatorTempUpdate t) s =
  set_miniSplits s
    (<[k := mergeMiniSplit now k (miniSplits s !! k) (coordinatorTempUpdate t)]>
       (miniSplits s)).
Proof.
  unfold updateMiniSplitState.
  destruct (miniSplits s !! k) as [e|] eqn:E; [|reflexivity].
  unfold mode_eqb. rewrite bool_decide_eq_true_2; reflexivity.
Qed.

Lemma mergeMiniSplit_truthy (now : Z) (k : string) (u : MiniSplitState) (t : Q) :
  fields_truthy k u ->
  mergeMiniSplit now k (Some u) (coordinatorTempUpdate t) = setTargetOnly now u t.
Proof.
  intros [Hid [Hn [Hr [Hc Hp]]]]. destruct u as [d n c tg m o l r p mo].
  simpl in *. subst d. unfold mergeMiniSplit, setTargetOnly, str_or, num_or, bool_or.
  simpl.
  apply String.eqb_neq in Hn. apply String.eqb_neq in Hr.
  rewrite Hn, Hr.
  destruct (Qeq_bool c 0) eqn:Ec; [apply Qeq_bool_iff in Ec; contradiction|].
  destruct (Qeq_bool p 0) eqn:Ep; [apply Qeq_bool_iff in Ep; contradiction|].
  destruct o; reflexivity.
Qed.

Lemma setTargetOnly_truthy (now : Z) (k : string) (u : MiniSplitState) (t : Q) :
  fields_truthy k u -> fields_truthy k (setTargetOnly now u t).
Proof. destruct u; unfold fields_truthy; simpl; tauto. Qed.

Lemma setTargetOnly_twice (now : Z) (u : MiniSplitState) (t t' : Q) :
  setTargetOnly now (setTargetOnly now u t) t' = setTargetOnly now u t'.
Proof. destruct u; reflexivity. Qed.

(** The state part of one step of [executeCoordinationActions]. *)
Lemma executeOne_state {W : Type} (dm : DeviceManager W) (now : Z) (w : W)
  (sm : StateManager) (a : CoordinationAction) :
  snd (executeOne dm now (w, sm) a) =
  match act a with
  | SetTemperatureAction t =>
      if snd (setThermostatTemperature dm w (act_deviceId a) t)
      then mkStateManager
             (updateMiniSplitState now (act_deviceId a) (coordinatorTempUpdate t)
                (state sm))
             (<[act_deviceId a := t]> (coordinatorSets sm))
      else sm
  | _ => sm
  end.
Proof.
  destruct a as [k [m|t|]]; simpl; [| |reflexivity].
  - destruct (setThermostatMode dm w k m); reflexivity.
  - destruct (setThermostatTemperature dm w k t) as [w' [|]]; reflexivity.
Qed.

(** The invariant of [executeCoordinationActions] relating the manager
    [sm] reached after some actions to the initial one [sm0]. *)
Definition exec_inv (now : Z) (acts : list CoordinationAction)
  (sm0 sm : StateManager) : Prop :=
  globalMode (state sm) = globalMode (state sm0) /\
  globalMinTemp (state sm) = globalMinTemp (state sm0) /\
  globalMaxTemp (state sm) = globalMaxTemp (state sm0) /\
  modeChangeHistory (state sm) = modeChangeHistory (state sm0) /\
  conflicts (state sm) = conflicts (state sm0) /\
  (forall k, (forall t, ~ In (mkAction k (SetTemperatureAction t)) acts) ->
     miniSplits (state sm) !! k = miniSplits (state sm0) !! k /\
     coordinatorSets sm !! k = coordinatorSets sm0 !! k) /\
  (forall k u, miniSplits (state sm0) !! k = Some u -> fields_truthy k u ->
     (miniSplits (state sm) !! k = Some u /\
      coordinatorSets sm !! k = coordinatorSets sm0 !! k) \/
     (exists t, In (mkAction k (SetTemperatureAction t)) acts /\
        miniSplits (state sm) !! k = Some (setTargetOnly now u t) /\
        coordinatorSets sm !! k = Some t)).

Lemma exec_inv_fold {W : Type} (dm : DeviceManager W) (now : Z)
  (acts : list CoordinationAction) :
  forall (w : W) (sm : StateManager),
  exec_inv now acts sm (snd (fold_left (executeOne dm now) acts (w, sm))).
Proof.
  induction acts as [|a acts IH]; intros w sm; cbn [fold_left].
  - unfold exec_inv. repeat split; auto.
  - destruct (executeOne dm now (w, sm) a) as [w1 sm1] eqn:Estep.
    pose proof (executeOne_state dm now w sm a) as Hs. rewrite Estep in Hs.
    simpl in Hs.
    specialize (IH w1 sm1).
    destruct IH as [I1 [I2 [I3 [I4 [I5 [I6 I7]]]]]].
    (* the effect of the first step *)
    assert (Hstep : exec_inv now [a] sm sm1).
    { rewrite Hs. destruct a as [k [m|t|]]; simpl;
        try (unfold exec_inv; repeat split; auto; fail).
      destruct (snd (setThermostatTemperature dm w k t)) eqn:Eok;
        [|unfold exec_inv; repeat split; auto].
      rewrite updateMiniSplitState_coordTemp. unfold exec_inv; simpl.
      do 5 (split; [reflexivity|]). split.
      - intros k' Hk'. assert (k' <> k) as Hne.
        { intros ->. apply (Hk' t). left. reflexivity. }
        rewrite !lookup_insert_ne by congruence. split; reflexivity.
      - intros k' u Hu Ht. destruct (decide (k' = k)) as [->|Hne].
        + right. exists t. split; [left; reflexivity|].
          rewrite !lookup_insert_eq, Hu, mergeMiniSplit_truthy by exact Ht.
          split; reflexivity.
        + left. rewrite !lookup_insert_ne by congruence. split; [exact Hu|reflexivity]. }
    destruct Hstep as [S1 [S2 [S3 [S4 [S5 [S6 S7]]]]]].
    unfold exec_inv. rewrite I1, I2, I3, I4, I5.
    split; [exact S1|]. split; [exact S2|]. split; [exact S3|].
    split; [exact S4|]. split; [exact S5|]. split.
    + intros k Hk.
      destruct (S6 k) as [E1 E2]; [intros t Ht; apply (Hk t); left; destruct Ht as [Ht|[]]; exact Ht|].
      destruct (I6 k) as [E3 E4]; [intros t Ht; apply (Hk t); right; exact Ht|].
      rewrite E3, E4. split; assumption.
    + intros k u Hu Ht.
      destruct (S7 k u Hu Ht) as [[E1 E2]|[t [Hin [E1 E2]]]].
      * destruct (I7 k u E1 Ht) as [[E3 E4]|[t' [Hin' [E3 E4]]]].
        -- left. rewrite E3, E4. split; [reflexivity|exact E2].
        -- right. exists t'. split; [right; exact Hin'|]. split; assumption.
      * destruct (I7 k (setTargetOnly now u t) E1 (setTargetOnly_truthy now k u t Ht))
          as [[E3 E4]|[t' [Hin' [E3 E4]]]].
        -- right. exists t. split; [left; destruct Hin as [Hin|[]]; exact Hin|].
           rewrite E3, E4. split; [reflexivity|exact E2].
        -- right. exists t'. split; [right; exact Hin'|].
           rewrite E3, setTargetOnly_twice. split; [reflexivity|exact E4].
Qed.

(** Frame of [executeCoordinationActions]: executing an action list leaves the global mode,
    the global range, the mode-change history and the conflicts unchanged;
    a unit no [setTemperature] action names keeps its stored entry and its
    coordinator record; a stored unit whose entry holds its own id and a
    non-empty name and room and a nonzero current temperature and priority
    ends either unchanged or changed only in [targetTemperature],
    [manualTemperatureOverride] and [lastUpdated], to the value of a
    [setTemperature] action on it, recorded as the coordinator's; a
    [setMode] action leaves the state manager unchanged. *)
Theorem executeCoordinationActions_spec {W : Type} (dm : DeviceManager W)
  (now : Z) (w : W) (sm : StateManager) (acts : list CoordinationAction) :
  let sm' := snd (executeCoordinationActions dm now w sm acts) in
  globalMode (state sm') = globalMode (state sm) /\
  globalMinTemp (state sm') = globalMinTemp (state sm) /\
  globalMaxTemp (state sm') = globalMaxTemp (state sm) /\
  modeChangeHistory (state sm') = modeChangeHistory (state sm) /\
  conflicts (state sm') = conflicts (state sm) /\
  (forall k, (forall t, ~ In (mkAction k (SetTemperatureAction t)) acts) ->
     miniSplits (state sm') !! k = miniSplits (state sm) !! k /\
     coordinatorSets sm' !! k = coordinatorSets sm !! k) /\
  (forall k u, miniSplits (state sm) !! k = Some u -> fields_truthy k u ->
     miniSplits (state sm') !! k = Some u \/
     (exists t, In (mkAction k (SetTemperatureAction t)) acts /\
        miniSplits (state sm') !! k = Some (setTargetOnly now u t) /\
        coordinatorSets sm' !! k = Some t)) /\
  (forall w0 sm0 k m,
     snd (executeOne dm now (w0, sm0) (mkAction k (SetModeAction m))) = sm0).
Proof.
  intros sm'.
  assert (Hinv : exec_inv now acts sm sm').
  { subst sm'. unfold executeCoordinationActions.
    destruct (isAuthenticated dm w).
    - apply exec_inv_fold.
    - unfold exec_inv. repeat split; auto. }
  destruct Hinv as [H1 [H2 [H3 [H4 [H5 [H6 H7]]]]]].
  do 6 (split; [assumption|]). split.
  - intros k u Hu Ht. destruct (H7 k u Hu Ht) as [[E _]|E]; [left|right]; assumption.
  - intros w0 sm0 k m. rewrite executeOne_state. reflexivity.
Qed.

(** C10: a successful [setTemperature] on a unit whose stored current
    temperature is [0] also rewrites that temperature to [70]. *)
Lemma set_temperature_rewrites_zero_reading :
  miniSplits stateZero !! "dev-A"%string = Some unitZero /\
  currentTemperature unitZero = 0 /\
  option_map currentTemperature
    (miniSplits (state (snd (executeCoordinationActions simDeviceManager 5
       worldAuth (mkStateManager stateZero ∅)
       [mkAction "dev-A" (SetTemperatureAction 68)]))) !! "dev-A"%string)
  = Some 70.
Proof. split; [reflexivity|]. split; [reflexivity|]. vm_compute. reflexivity. Qed.

(* ------------------------------------------------------------------ *)
(** Two cycles in a row *)

Lemma syncOne_spec {W : Type} (dm : DeviceManager W) (now : Z) (w : W)
  (sm : StateManager) (id k : string) :
  miniSplits (state (syncOne dm now w sm id)) !! k =
    (if String.eqb k id
     then syncEntry now (getDeviceStatus dm w id) id (miniSplits (state sm) !! id)
     else miniSplits (state sm) !! k) /\
  globalMode (state (syncOne dm now w sm id)) = globalMode (state sm) /\
  globalMinTemp (state (syncOne dm now w sm id)) = globalMinTemp (state sm) /\
  globalMaxTemp (state (syncOne dm now w sm id)) = globalMaxTemp (state sm) /\
  coordinatorSets (syncOne dm now w sm id) = coordinatorSets sm.
Proof.
  unfold syncOne, syncEntry, with_state.
  destruct (getDeviceStatus dm w id) as [| |c]; cbn [state coordinatorSets].
  - destruct (updateMiniSplitState_frame now id (offlineUpdate now) (state sm))
      as [E1 [E2 [E3 E4]]].
    rewrite E1, E2, E3, E4.
    destruct (String.eqb_spec k id) as [->|Hne].
    + rewrite lookup_insert_eq. auto.
    + rewrite lookup_insert_ne by congruence. auto.
  - destruct (String.eqb_spec k id) as [->|Hne]; auto.
  - destruct (updateMiniSplitState_frame now id (syncUpdate now c) (state sm))
      as [E1 [E2 [E3 E4]]].
    rewrite E1, E2, E3, E4.
    destruct (String.eqb_spec k id) as [->|Hne].
    + rewrite lookup_insert_eq. auto.
    + rewrite lookup_insert_ne by congruence. auto.
Qed.

Lemma sync_fold_frame {W : Type} (dm : DeviceManager W) (now : Z) (w : W)
  (ids : list string) : forall sm,
  globalMode (state (fold_left (syncOne dm now w) ids sm)) = globalMode (state sm) /\
  globalMinTemp (state (fold_left (syncOne dm now w) ids sm)) = globalMinTemp (state sm) /\
  globalMaxTemp (state (fold_left (syncOne dm now w) ids sm)) = globalMaxTemp (state sm) /\
  coordinatorSets (fold_left (syncOne dm now w) ids sm) = coordinatorSets sm.
Proof.
  induction ids as [|id ids IH]; intros sm; cbn [fold_left]; [auto|].
  destruct (IH (syncOne dm now w sm id)) as [E1 [E2 [E3 E4]]].
  destruct (syncOne_spec dm now w sm id id) as [_ [F1 [F2 [F3 F4]]]].
  rewrite E1, E2, E3, E4, F1, F2, F3, F4. auto.
Qed.

Lemma sync_fold_out {W : Type} (dm : DeviceManager W) (now : Z) (w : W)
  (ids : list string) : forall sm k, ~ In k ids ->
  miniSplits (state (fold_left (syncOne dm now w) ids sm)) !! k =
  miniSplits (state sm) !! k.
Proof.
  induction ids as [|id ids IH]; intros sm k Hk; cbn [fold_left]; [reflexivity|].
  rewrite IH by (intros H; apply Hk; right; exact H).
  destruct (syncOne_spec dm now w sm id k) as [E _]. rewrite E.
  destruct (String.eqb_spec k id) as [->|_]; [exfalso; apply Hk; left; reflexivity|].
  reflexivity.
Qed.

Lemma str_or_nonempty (x : option string) (d : string) :
  d <> ""%string -> str_or (Some (str_or x d)) d = str_or x d.
Proof.
  intros Hd. cbn [str_or].
  destruct (String.eqb_spec (str_or x d) "") as [E|E]; [|reflexivity].
  exfalso. destruct x as [v|]; cbn [str_or] in *; [|contradiction].
  destruct (String.eqb_spec v ""); [contradiction|congruence].
Qed.

Lemma num_or_nonzero (x : option Q) (d : Q) :
  Qeq_bool d 0 = false -> num_or (Some (num_or x d)) d = num_or x d.
Proof.
  intros Hd. destruct x as [v|]; cbn [num_or]; [|rewrite Hd; reflexivity].
  destruct (Qeq_bool v 0) eqn:E; [rewrite Hd; reflexivity|rewrite E; reflexivity].
Qed.

Lemma mergeMiniSplit_idem (now : Z) (k : string) (e : option MiniSplitState)
  (u : MiniSplitUpdate) :
  mergeMiniSplit now k (Some (mergeMiniSplit now k e u)) u = mergeMiniSplit now k e u.
Proof.
  unfold mergeMiniSplit. cbn [option_map name currentTemperature targetTemperature
    mode isOnline room priority].
  destruct u as [ud un uc ut um ui ul ur up uo]; cbn [u_deviceId u_name
    u_currentTemperature u_targetTemperature u_mode u_isOnline u_lastUpdated
    u_room u_priority u_manualTemperatureOverride spread].
  f_equal.
  - destruct un; [reflexivity|]. apply str_or_nonempty.
    unfold slice_last4. discriminate.
  - destruct uc; [reflexivity|]. apply num_or_nonzero. reflexivity.
  - destruct ut; [reflexivity|]. apply num_or_nonzero. reflexivity.
  - destruct um; reflexivity.
  - destruct ui as [b|]; [reflexivity|].
    cbn [spread]. destruct (option_map isOnline e) as [[]|]; reflexivity.
  - destruct ur; [reflexivity|]. apply str_or_nonempty. discriminate.
  - destruct up; [reflexivity|]. apply num_or_nonzero. reflexivity.
Qed.

Lemma syncEntry_idem (now : Z) (st : DeviceStatus) (k : string)
  (e : option MiniSplitState) :
  syncEntry now st k (syncEntry now st k e) = syncEntry now st k e.
Proof. destruct st; cbn [syncEntry]; rewrite ?mergeMiniSplit_idem; reflexivity. Qed.

Lemma sync_fold_in {W : Type} (dm : DeviceManager W) (now : Z) (w : W)
  (ids : list string) : forall sm k, In k ids ->
  miniSplits (state (fold_left (syncOne dm now w) ids sm)) !! k =
  syncEntry now (getDeviceStatus dm w k) k (miniSplits (state sm) !! k).
Proof.
  induction ids as [|id ids IH]; intros sm k Hk; [destruct Hk|].
  cbn [fold_left].
  destruct (syncOne_spec dm now w sm id k) as [E _].
  destruct (String.eqb_spec k id) as [->|Hne].
  - destruct (in_dec string_dec id ids) as [Hin|Hnin].
    + rewrite IH by exact Hin. rewrite E. apply syncEntry_idem.
    + rewrite sync_fold_out by exact Hnin. exact E.
  - destruct Hk as [Hk|Hk]; [congruence|].
    rewrite IH by exact Hk. rewrite E. reflexivity.
Qed.

Lemma executeOne_keyView (now : Z) (ws : SimWorld * StateManager)
  (a : CoordinationAction) (k : string) :
  keyView k (executeOne simDeviceManager now ws a) =
  (if String.eqb (act_deviceId a) k then keyStep now k (keyView k ws) (act a)
   else keyView k ws) /\
  sw_auth (fst (executeOne simDeviceManager now ws a)) = sw_auth (fst ws).
Proof.
  destruct ws as [w sm]. destruct a as [id [m|t|]]; unfold keyView;
    cbn [executeOne act act_deviceId fst snd setThermostatMode
         setThermostatTemperature simDeviceManager].
  - unfold simSetMode.
    destruct (String.eqb_spec id k) as [<-|Hne];
      destruct (sw_devices w id) as [| |c] eqn:D; cbn; rewrite ?D, ?String.eqb_refl; auto.
    + assert (E : String.eqb k id = false) by (apply String.eqb_neq; congruence).
      rewrite E. auto.
  - unfold simSetTemperature.
    destruct (sw_devices w id) as [| |c] eqn:D; cbn [fst snd].
    + destruct (String.eqb_spec id k) as [<-|Hne]; cbn; rewrite ?D; auto.
    + destruct (String.eqb_spec id k) as [<-|Hne]; cbn; rewrite ?D; auto.
    + unfold with_state, recordCoordinatorTemperatureSet. cbn [state coordinatorSets].
      rewrite updateMiniSplitState_coordTemp. cbn [miniSplits set_miniSplits].
      destruct (String.eqb_spec id k) as [<-|Hne].
      * cbn. rewrite D, String.eqb_refl, !lookup_insert_eq. auto.
      * assert (E : String.eqb k id = false) by (apply String.eqb_neq; congruence).
        cbn. rewrite E, !lookup_insert_ne by congruence. auto.
  - destruct (String.eqb (id) k); auto.
Qed.

Lemma execute_fold_keyView (now : Z) (k : string)
  (acts : list CoordinationAction) : forall ws,
  keyView k (fold_left (executeOne simDeviceManager now) acts ws) =
  fold_left (keyStep now k)
    (map act (List.filter (fun a => String.eqb (act_deviceId a) k) acts))
    (keyView k ws) /\
  sw_auth (fst (fold_left (executeOne simDeviceManager now) acts ws)) =
  sw_auth (fst ws).
Proof.
  induction acts as [|a acts IH]; intros ws; cbn [fold_left List.filter map];
    [auto|].
  destruct (executeOne_keyView now ws a k) as [E1 E2].
  destruct (IH (executeOne simDeviceManager now ws a)) as [I1 I2].
  rewrite I1, I2, E1, E2.
  destruct (String.eqb (act_deviceId a) k); cbn [map fold_left]; auto.
Qed.

Lemma keyStep_error_fold (now : Z) (k : string) (l : list ActionKind) :
  forall e c, fold_left (keyStep now k) l (StatusError, e, c) = (StatusError, e, c).
Proof.
  induction l as [|a l IH]; intros e c; cbn [fold_left]; [reflexivity|].
  destruct a; cbn [keyStep]; apply IH.
Qed.

Lemma List_filter_all {A} (f : A -> bool) (l : list A) :
  (forall x, In x l -> f x = true) -> List.filter f l = l.
Proof.
  induction l as [|x l IH]; intros H; cbn; [reflexivity|].
  rewrite (H x (or_introl eq_refl)), IH; [reflexivity|].
  intros y Hy. apply H. right. exact Hy.
Qed.

Lemma List_filter_none {A} (f : A -> bool) (l : list A) :
  (forall x, In x l -> f x = false) -> List.filter f l = [].
Proof.
  induction l as [|x l IH]; intros H; cbn; [reflexivity|].
  rewrite (H x (or_introl eq_refl)). apply IH.
  intros y Hy. apply H. right. exact Hy.
Qed.

Lemma List_filter_app {A} (f : A -> bool) (l1 l2 : list A) :
  List.filter f (l1 ++ l2) = List.filter f l1 ++ List.filter f l2.
Proof.
  induction l1 as [|x l1 IH]; cbn; [reflexivity|].
  rewrite IH. destruct (f x); reflexivity.
Qed.

Lemma flat_map_nil {A B} (g : A -> list B) (l : list A) :
  (forall x, In x l -> g x = []) -> flat_map g l = [].
Proof.
  induction l as [|x l IH]; intros H; cbn; [reflexivity|].
  rewrite (H x (or_introl eq_refl)), IH; [reflexivity|].
  intros y Hy. apply H. right. exact Hy.
Qed.

Lemma unitActions_deviceId (sched : option Schedule) (m : Mode)
  (sm : StateManager) (u : MiniSplitState) (a : CoordinationAction) :
  In a (unitActions sched m sm u) -> act_deviceId a = deviceId u.
Proof.
  unfold unitActions.
  repeat match goal with |- context [if ?b then _ else _] => destruct b end;
    cbn; intuition (subst; reflexivity).
Qed.

Lemma filter_generate (sched : option Schedule) (m : Mode) (sm : StateManager)
  (k : string) (L : list MiniSplitState) :
  List.filter (fun a => String.eqb (act_deviceId a) k)
    (flat_map (unitActions sched m sm) L) =
  flat_map (fun u => if String.eqb (deviceId u) k
                     then unitActions sched m sm u else []) L.
Proof.
  induction L as [|u L IH]; cbn [flat_map]; [reflexivity|].
  rewrite List_filter_app, IH. f_equal.
  destruct (String.eqb (deviceId u) k) eqn:E.
  - apply List_filter_all. intros a Ha.
    rewrite (unitActions_deviceId _ _ _ _ _ Ha). exact E.
  - apply List_filter_none. intros a Ha.
    rewrite (unitActions_deviceId _ _ _ _ _ Ha). exact E.
Qed.

Lemma flat_map_select {B} (f : MiniSplitState -> list B) (k : string)
  (L : list MiniSplitState) (u : MiniSplitState) :
  NoDup (map deviceId L) -> In u L -> deviceId u = k ->
  flat_map (fun v => if String.eqb (deviceId v) k then f v else []) L = f u.
Proof.
  induction L as [|v L IH]; intros Hnd Hu Hk; [destruct Hu|].
  cbn [map] in Hnd. apply NoDup_cons in Hnd. destruct Hnd as [Hnin Hnd].
  rewrite list_elem_of_In in Hnin. cbn [flat_map].
  destruct Hu as [->|Hu].
  - rewrite Hk, String.eqb_refl, flat_map_nil; [apply app_nil_r|].
    intros x Hx. destruct (String.eqb_spec (deviceId x) k) as [Ex|_]; [|reflexivity].
    exfalso. apply Hnin. rewrite Hk, <- Ex. apply in_map. exact Hx.
  - destruct (String.eqb_spec (deviceId v) k) as [Ev|_].
    + exfalso. apply Hnin. rewrite Ev, <- Hk. apply in_map. exact Hu.
    + cbn [app]. apply IH; assumption.
Qed.

Lemma online_In (s : SystemState) (u : MiniSplitState) :
  In u (getOnlineMiniSplits s) <->
  (exists k, miniSplits s !! k = Some u) /\ isOnline u = true.
Proof.
  unfold getOnlineMiniSplits, getAllMiniSplitStates.
  rewrite <- list_elem_of_In, list_elem_of_filter, list_elem_of_fmap.
  split.
  - intros [Ho [[k v] [-> Hkv]]]. apply elem_of_map_to_list in Hkv.
    split; [exists k; exact Hkv|exact Ho].
  - intros [[k Hk] Ho]. split; [exact Ho|]. exists (k, u). split; [reflexivity|].
    apply elem_of_map_to_list. exact Hk.
Qed.

Lemma online_NoDup_aux (P : MiniSplitState -> Prop) `{!forall u, Decision (P u)}
  (l : list (string * MiniSplitState)) :
  NoDup l.*1 -> (forall k u, (k, u) ∈ l -> deviceId u = k) ->
  NoDup (map deviceId (filter P l.*2)).
Proof.
  induction l as [|[k u] l IH]; intros Hnd Hk; [constructor|].
  cbn [fmap list_fmap fst snd] in *. apply NoDup_cons in Hnd.
  destruct Hnd as [Hnin Hnd].
  assert (Hk' : forall k' u', (k', u') ∈ l -> deviceId u' = k')
    by (intros k' u' Hm; apply Hk; right; exact Hm).
  rewrite filter_cons. destruct (decide (P u)); [|apply IH; assumption].
  cbn [map]. apply NoDup_cons. split; [|apply IH; assumption].
  rewrite list_elem_of_In. intros Hin. apply in_map_iff in Hin.
  destruct Hin as [v [Ev Hv]]. apply list_elem_of_In in Hv.
  apply list_elem_of_filter in Hv. destruct Hv as [_ Hv].
  apply list_elem_of_fmap in Hv. destruct Hv as [[k' v'] [-> Hkv]].
  cbn [snd] in Ev. rewrite (Hk' k' v' Hkv) in Ev.
  rewrite (Hk k u (list_elem_of_here _ _)) in Ev. subst k'.
  apply Hnin. apply list_elem_of_fmap. exists (k, v'). split; [reflexivity|exact Hkv].
Qed.

Lemma online_NoDup (s : SystemState) :
  well_keyed (miniSplits s) -> NoDup (map deviceId (getOnlineMiniSplits s)).
Proof.
  intros Hw. unfold getOnlineMiniSplits, getAllMiniSplitStates.
  apply online_NoDup_aux; [apply NoDup_fst_map_to_list|].
  intros k u H. apply elem_of_map_to_list in H. apply Hw. exact H.
Qed.

Lemma toFahrenheit_F (x : Q) :
  toFahrenheit (mkReading x (Some "F"%string)) = Math_round x.
Proof. unfold toFahrenheit. rewrite bool_decide_eq_true_2; reflexivity. Qed.

Lemma thermostatMode_reflectSetpoint (c : MainComponent) (t : Q) :
  thermostatMode (reflectSetpoint c t) = thermostatMode c.
Proof.
  destruct c as [tm [h|] [cl|] md]; reflexivity.
Qed.

Lemma syncTarget_reflectMode (n n' : Z) (c : MainComponent) (m : Mode) :
  u_targetTemperature (syncUpdate n (reflectMode c m)) =
  u_targetTemperature (syncUpdate n' c).
Proof. destruct c; reflexivity. Qed.

Lemma target_resync_set (now : Z) (k : string) (e : option MiniSplitState)
  (c : MainComponent) (t : Q) :
  targetTemperature (mergeMiniSplit now k e (syncUpdate now (reflectSetpoint c t)))
  = Math_round t.
Proof.
  destruct c as [tm [h|] [cl|] md]; cbn; apply toFahrenheit_F.
Qed.

Lemma num_or_idem (x : option Q) :
  num_or (Some (num_or x 70)) 70 = num_or x 70.
Proof.
  destruct x as [q|]; [|reflexivity]. unfold num_or.
  destruct (Qeq_bool q 0) eqn:E; [reflexivity|]. rewrite E. reflexivity.
Qed.

Lemma target_resync_keep (now1 now2 : Z) (k : string)
  (e0 : option MiniSplitState) (c c4 : MainComponent) :
  u_targetTemperature (syncUpdate now2 c4) = u_targetTemperature (syncUpdate now1 c) ->
  targetTemperature (mergeMiniSplit now2 k
     (Some (mergeMiniSplit now1 k e0 (syncUpdate now1 c))) (syncUpdate now2 c4)) =
  targetTemperature (mergeMiniSplit now1 k e0 (syncUpdate now1 c)).
Proof.
  intros H. unfold mergeMiniSplit at 1. cbn [targetTemperature option_map].
  rewrite H. unfold mergeMiniSplit. cbn [targetTemperature].
  destruct (u_targetTemperature (syncUpdate now1 c)); [reflexivity|].
  cbn [spread]. apply num_or_idem.
Qed.

Lemma mode_resync (now1 now2 : Z) (k : string) (e0 e4 : option MiniSplitState)
  (c c4 : MainComponent) :
  thermostatMode c4 = thermostatMode c ->
  option_map mode e4 = Some (mode (mergeMiniSplit now1 k e0 (syncUpdate now1 c))) ->
  mode (mergeMiniSplit now2 k e4 (syncUpdate now2 c4)) =
  mode (mergeMiniSplit now1 k e0 (syncUpdate now1 c)).
Proof.
  intros H1 H2. unfold mergeMiniSplit at 1. cbn [mode u_mode syncUpdate].
  rewrite H2, H1. unfold mergeMiniSplit. cbn [mode u_mode syncUpdate].
  destruct (thermostatMode c); reflexivity.
Qed.

Lemma round_close (d : Q) : Qle_bool 1 (Math_abs (d - Math_round d)) = false.
Proof.
  apply Qle_bool_false. unfold Math_abs, Math_round.
  pose proof (Qfloor_le (d + (1 # 2))) as H1.
  pose proof (Qlt_floor (d + (1 # 2))) as H2.
  rewrite inject_Z_plus in H2. change (inject_Z 1) with 1 in H2.
  intros H.
  assert (Hb : Qabs (d - inject_Z (Qfloor (d + (1 # 2)))) <= 1 # 2)
    by (apply Qabs_Qle_condition; split; lra).
  lra.
Qed.

Lemma abs_self (x : Q) : Qle_bool 1 (Math_abs (x - x)) = false.
Proof.
  apply Qle_bool_false. unfold Math_abs.
  assert (E : Qabs (x - x) == 0) by (unfold Qminus; rewrite Qplus_opp_r; reflexivity).
  rewrite E. lra.
Qed.

Lemma desiredTemp_congr (sched : option Schedule) (m : Mode)
  (s s' : SystemState) (u u' : MiniSplitState) :
  m <> Off -> globalMinTemp s = globalMinTemp s' ->
  globalMaxTemp s = globalMaxTemp s' ->
  desiredTemp sched m s u = desiredTemp sched m s' u'.
Proof.
  intros Hm Hmin Hmax. unfold desiredTemp, heatingSetpoint, coolingSetpoint.
  destruct m; [rewrite Hmin|rewrite Hmax|contradiction]; reflexivity.
Qed.

Lemma shouldRespect_congr (sm sm' : StateManager) (u u' : MiniSplitState) :
  coordinatorSets sm !! deviceId u = coordinatorSets sm' !! deviceId u' ->
  targetTemperature u = targetTemperature u' ->
  globalMinTemp (state sm) = globalMinTemp (state sm') ->
  globalMaxTemp (state sm) = globalMaxTemp (state sm') ->
  shouldRespectManualOverride sm u = shouldRespectManualOverride sm' u'.
Proof.
  intros H1 H2 H3 H4. unfold shouldRespectManualOverride.
  rewrite H1, H2, H3, H4. reflexivity.
Qed.

(** One online device with a [main] component: whatever its actions in the
    first cycle, the entry the next sync reads back for it needs no action
    in a cycle with the same target mode and range. *)
Lemma unit_settles (now1 now2 : Z) (sched : option Schedule) (m : Mode)
  (k : string) (c : MainComponent) (e0 : option MiniSplitState)
  (sm3 sm3' : StateManager) (dev4 : DeviceStatus)
  (e4 : option MiniSplitState) (cs4 : option Q) :
  let u1 := mergeMiniSplit now1 k e0 (syncUpdate now1 c) in
  fold_left (keyStep now1 k) (map act (unitActions sched m sm3 u1))
    (StatusMain c, Some u1, coordinatorSets sm3 !! k) = (dev4, e4, cs4) ->
  exists c4, dev4 = StatusMain c4 /\
  (coordinatorSets sm3' !! k = cs4 ->
   globalMinTemp (state sm3') = globalMinTemp (state sm3) ->
   globalMaxTemp (state sm3') = globalMaxTemp (state sm3) ->
   unitActions sched m sm3' (mergeMiniSplit now2 k e4 (syncUpdate now2 c4)) = []).
Proof.
  intros u1 H.
  assert (Hid1 : deviceId u1 = k) by reflexivity.
  assert (Close : forall c4 e4,
     mode (mergeMiniSplit now2 k e4 (syncUpdate now2 c4)) = m ->
     (shouldRespectManualOverride sm3'
        (mergeMiniSplit now2 k e4 (syncUpdate now2 c4)) = false ->
      m <> Off ->
      Qle_bool 1 (Math_abs (desiredTemp sched m (state sm3) u1 -
        targetTemperature (mergeMiniSplit now2 k e4 (syncUpdate now2 c4)))) = false) ->
     globalMinTemp (state sm3') = globalMinTemp (state sm3) ->
     globalMaxTemp (state sm3') = globalMaxTemp (state sm3) ->
     unitActions sched m sm3' (mergeMiniSplit now2 k e4 (syncUpdate now2 c4)) = []).
  { intros c4 e4' Hm Ht Hmin Hmax.
    set (u' := mergeMiniSplit now2 k e4' (syncUpdate now2 c4)) in *.
    unfold unitActions.
    assert (Hme : mode_eqb (mode u') m = true)
      by (unfold mode_eqb; apply bool_decide_eq_true_2; exact Hm).
    rewrite Hme.
    destruct (shouldRespectManualOverride sm3' u') eqn:R2; [reflexivity|].
    cbn [app].
    destruct (decide (m = Off)) as [->|Hoff].
    - cbn [desiredTemp]. rewrite abs_self. reflexivity.
    - rewrite (desiredTemp_congr sched m (state sm3') (state sm3) u' u1 Hoff Hmin Hmax).
      rewrite Ht by auto. reflexivity. }
  unfold unitActions in H.
  destruct (mode_eqb (mode u1) m) eqn:ME;
    destruct (shouldRespectManualOverride sm3 u1) eqn:R1;
    [| destruct (Qle_bool 1 (Math_abs (desiredTemp sched m (state sm3) u1
                                       - targetTemperature u1))) eqn:T1
     | | destruct (Qle_bool 1 (Math_abs (desiredTemp sched m (state sm3) u1
                                       - targetTemperature u1))) eqn:T1];
    cbn [map app act fold_left keyStep] in H; injection H as <- <- <-;
    eexists; (split; [reflexivity|]); intros Hcs Hmin Hmax;
    (apply Close; [| |exact Hmin|exact Hmax]).
  (* mode kept, override respected: nothing sent *)
  - unfold mode_eqb in ME. apply bool_decide_eq_true_1 in ME. rewrite <- ME.
    apply mode_resync; reflexivity.
  - intros R2 _. exfalso.
    rewrite (shouldRespect_congr sm3' sm3 _ u1) in R2; [congruence| |
      |exact Hmin|exact Hmax].
    + exact Hcs.
    + apply target_resync_keep. reflexivity.
  (* mode kept, temperature sent *)
  - unfold mode_eqb in ME. apply bool_decide_eq_true_1 in ME. rewrite <- ME.
    apply mode_resync; [apply thermostatMode_reflectSetpoint|reflexivity].
  - intros _ _. rewrite target_resync_set. apply round_close.
  (* mode kept, nothing sent *)
  - unfold mode_eqb in ME. apply bool_decide_eq_true_1 in ME. rewrite <- ME.
    apply mode_resync; reflexivity.
  - intros _ _. unfold u1. rewrite target_resync_keep by reflexivity. exact T1.
  (* mode sent, override respected *)
  - reflexivity.
  - intros R2 _. exfalso.
    rewrite (shouldRespect_congr sm3' sm3 _ u1) in R2; [congruence| |
      |exact Hmin|exact Hmax].
    + exact Hcs.
    + apply target_resync_keep. apply syncTarget_reflectMode.
  (* mode and temperature sent *)
  - cbn. rewrite thermostatMode_reflectSetpoint. reflexivity.
  - intros _ _. rewrite target_resync_set. apply round_close.
  (* mode sent, no temperature *)
  - reflexivity.
  - intros _ _. unfold u1.
    rewrite target_resync_keep by apply syncTarget_reflectMode. exact T1.
Qed.

Lemma detectConflicts_frame (now : Z) (sm : StateManager) :
  miniSplits (state (snd (detectConflicts now sm))) = miniSplits (state sm) /\
  globalMode (state (snd (detectConflicts now sm))) = globalMode (state sm) /\
  globalMinTemp (state (snd (detectConflicts now sm))) = globalMinTemp (state sm) /\
  globalMaxTemp (state (snd (detectConflicts now sm))) = globalMaxTemp (state sm) /\
  coordinatorSets (snd (detectConflicts now sm)) = coordinatorSets sm.
Proof.
  unfold detectConflicts.
  match goal with |- context [if Nat.ltb ?n 2 then _ else _] => destruct (Nat.ltb n 2) end;
    [cbn; auto|].
  match goal with |- context [if Nat.ltb 1 ?n then _ else _] => destruct (Nat.ltb 1 n) end;
    cbn [snd with_state state coordinatorSets]; [|auto].
  match goal with |- context [addConflictEvent ?n ?ct ?d ?i ?s] =>
    destruct (addConflictEvent_frame n ct d i s) as [_ [E1 [E2 [E3 E4]]]] end.
  rewrite E1, E2, E3, E4. auto.
Qed.

Lemma runCoordinationCycle_eq {W : Type} (dm : DeviceManager W)
  (ids : list string) (now : Z) (sched : option Schedule) (t : Q) (w : W)
  (sm : StateManager) :
  let sm1 := syncDeviceStates dm ids now w sm in
  let sm2 := with_state sm1 (updateOutsideTemperature now t (state sm1)) in
  let m := determineOptimalSystemMode sched t sm2 in
  let sm3 := snd (detectConflicts now sm2) in
  let acts := generateCoordinationActions sched m sm3 in
  let ws4 := executeCoordinationActions dm now w sm3 acts in
  actions (fst (fst (runCoordinationCycle dm ids now sched t w sm))) = acts /\
  snd (fst (runCoordinationCycle dm ids now sched t w sm)) = fst ws4 /\
  snd (runCoordinationCycle dm ids now sched t w sm) =
    with_state (snd ws4)
      (updateGlobalMode now m CoordinatorLogic (Some t) (state (snd ws4))).
Proof.
  intros sm1 sm2 m sm3 acts ws4. unfold runCoordinationCycle. cbv zeta.
  fold sm1. fold sm2. fold m.
  destruct (detectConflicts now sm2) as [notes sm3'] eqn:D.
  assert (E3 : sm3 = sm3') by (unfold sm3; rewrite ?D; reflexivity).
  rewrite <- E3. fold acts ws4.
  destruct ws4 as [w4 sm4]. cbn. auto.
Qed.

Lemma getOnline_congr (s s' : SystemState) :
  miniSplits s = miniSplits s' -> getOnlineMiniSplits s = getOnlineMiniSplits s'.
Proof. intros H. unfold getOnlineMiniSplits, getAllMiniSplitStates. rewrite H. reflexivity. Qed.

Lemma determine_nonempty (sched : option Schedule) (t : Q) (sm : StateManager) :
  getOnlineMiniSplits (state sm) <> [] ->
  determineOptimalSystemMode sched t sm =
  if Qltb t (heatingSetpoint sched (state sm)) then Heat
  else if Qltb (coolingSetpoint sched (state sm)) t then Cool
  else globalMode (state sm).
Proof.
  intros H. unfold determineOptimalSystemMode.
  destruct (getOnlineMiniSplits (state sm)); [contradiction|reflexivity].
Qed.

(** With the same schedule, range and outside temperature, a cycle that
    starts from the mode the previous one chose chooses it again. *)
Lemma determine_stable (sched : option Schedule) (t : Q) (smA smB : StateManager) :
  getOnlineMiniSplits (state smA) <> [] ->
  getOnlineMiniSplits (state smB) <> [] ->
  globalMinTemp (state smB) = globalMinTemp (state smA) ->
  globalMaxTemp (state smB) = globalMaxTemp (state smA) ->
  globalMode (state smB) = determineOptimalSystemMode sched t smA ->
  determineOptimalSystemMode sched t smB = determineOptimalSystemMode sched t smA.
Proof.
  intros HA HB Hmin Hmax Hg.
  rewrite (determine_nonempty _ _ smB HB), Hg, (determine_nonempty _ _ smA HA).
  unfold heatingSetpoint, coolingSetpoint. rewrite Hmin, Hmax.
  destruct (Qltb t _); [reflexivity|]. destruct (Qltb _ t); reflexivity.
Qed.

(** C9 (as it holds): with [simDeviceManager], an authenticated world,
    every stored unit configured and every
    configured device reporting a [main] component or failing, the cycle
    run right after a cycle, on the world and state it left and with the
    same schedule and outside temperature, emits no action. *)
Theorem runCoordinationCycle_settles (ids : list string) (now1 now2 : Z)
  (sched : option Schedule) (t : Q) (w : SimWorld) (sm : StateManager) :
  sw_auth w = true ->
  (forall k, is_Some (miniSplits (state sm) !! k) -> In k ids) ->
  (forall k, In k ids -> sw_devices w k <> StatusNoMain) ->
  actions (fst (fst (runCoordinationCycle simDeviceManager ids now2 sched t
     (snd (fst (runCoordinationCycle simDeviceManager ids now1 sched t w sm)))
     (snd (runCoordinationCycle simDeviceManager ids now1 sched t w sm))))) = [].
Proof.
  intros Hauth Hkeys Hmain.
  destruct (runCoordinationCycle_eq simDeviceManager ids now1 sched t w sm)
    as [_ [Ew Es]].
  rewrite Ew, Es. clear Ew Es.
  set (sm1 := syncDeviceStates simDeviceManager ids now1 w sm).
  set (sm2 := with_state sm1 (updateOutsideTemperature now1 t (state sm1))).
  set (m1 := determineOptimalSystemMode sched t sm2).
  set (sm3 := snd (detectConflicts now1 sm2)).
  set (acts1 := generateCoordinationActions sched m1 sm3).
  assert (HX : executeCoordinationActions simDeviceManager now1 w sm3 acts1 =
               fold_left (executeOne simDeviceManager now1) acts1 (w, sm3))
    by (unfold executeCoordinationActions; cbn [isAuthenticated simDeviceManager];
        rewrite Hauth; reflexivity).
  rewrite HX.
  set (ws4 := fold_left (executeOne simDeviceManager now1) acts1 (w, sm3)).
  set (w4 := fst ws4). set (sm4 := snd ws4).
  set (sm5 := with_state sm4
                (updateGlobalMode now1 m1 CoordinatorLogic (Some t) (state sm4))).
  destruct (runCoordinationCycle_eq simDeviceManager ids now2 sched t w4 sm5)
    as [Ea _]. rewrite Ea. clear Ea.
  set (sm1' := syncDeviceStates simDeviceManager ids now2 w4 sm5).
  set (sm2' := with_state sm1' (updateOutsideTemperature now2 t (state sm1'))).
  set (m2 := determineOptimalSystemMode sched t sm2').
  set (sm3' := snd (detectConflicts now2 sm2')).
  (* the first cycle *)
  assert (HS1 : sm1 = fold_left (syncOne simDeviceManager now1 w) ids sm)
    by (unfold sm1, syncDeviceStates; cbn [isAuthenticated simDeviceManager];
        rewrite Hauth; reflexivity).
  destruct (detectConflicts_frame now1 sm2) as [D1 [_ [D3 [D4 D5]]]].
  fold sm3 in D1, D3, D4, D5.
  assert (L3 : forall k, miniSplits (state sm3) !! k = miniSplits (state sm1) !! k)
    by (intros k; rewrite D1; reflexivity).
  destruct (execute_fold_keyView now1 "" acts1 (w, sm3)) as [_ Hauth4].
  fold ws4 in Hauth4. fold w4 in Hauth4. cbn [fst] in Hauth4. rewrite Hauth in Hauth4.
  assert (KV : forall k, keyView k (w4, sm4) =
     fold_left (keyStep now1 k)
       (map act (List.filter (fun a => String.eqb (act_deviceId a) k) acts1))
       (sw_devices w k, miniSplits (state sm3) !! k, coordinatorSets sm3 !! k)).
  { intros k. destruct (execute_fold_keyView now1 k acts1 (w, sm3)) as [E _].
    exact E. }
  destruct (exec_inv_fold simDeviceManager now1 acts1 w sm3)
    as [_ [X2 [X3 _]]].
  fold ws4 sm4 in X2, X3.
  destruct (updateGlobalMode_globalMode now1 m1 CoordinatorLogic (Some t) (state sm4))
    as [G1 [G2 [G3 G4]]].
  assert (Hwk : well_keyed (miniSplits (state sm3))).
  { intros k v Hv. rewrite L3, HS1 in Hv.
    destruct (in_dec string_dec k ids) as [Hin|Hnin].
    - rewrite (sync_fold_in _ _ _ _ sm k Hin) in Hv.
      cbn [getDeviceStatus simDeviceManager] in Hv.
      pose proof (Hmain k Hin) as Hm.
      destruct (sw_devices w k); cbn in Hv;
        [injection Hv as <-; reflexivity|contradiction|injection Hv as <-; reflexivity].
    - rewrite (sync_fold_out _ _ _ _ sm k Hnin) in Hv.
      exfalso. apply Hnin, Hkeys. exists v. exact Hv. }
  (* the second cycle *)
  assert (HS1' : sm1' = fold_left (syncOne simDeviceManager now2 w4) ids sm5)
    by (unfold sm1', syncDeviceStates; cbn [isAuthenticated simDeviceManager];
        rewrite Hauth4; reflexivity).
  destruct (detectConflicts_frame now2 sm2') as [D1' [D2' [D3' [D4' D5']]]].
  fold sm3' in D1', D2', D3', D4', D5'.
  destruct (sync_fold_frame simDeviceManager now2 w4 ids sm5) as [S1 [S2 [S3 S4]]].
  rewrite <- HS1' in S1, S2, S3, S4.
  destruct (sync_fold_frame simDeviceManager now1 w ids sm) as [_ [T2 [T3 T4]]].
  rewrite <- HS1 in T2, T3, T4.
  assert (Hmin : globalMinTemp (state sm3') = globalMinTemp (state sm3)).
  { rewrite D3', D3. cbn [sm2' sm2 with_state state updateOutsideTemperature].
    unfold sm2', sm2, with_state, updateOutsideTemperature. cbn [state].
    unfold set_outside. cbn [globalMinTemp].
    rewrite S2. unfold sm5, with_state. cbn [state]. rewrite G3, X2, D3. reflexivity. }
  assert (Hmax : globalMaxTemp (state sm3') = globalMaxTemp (state sm3)).
  { rewrite D4', D4.
    unfold sm2', sm2, with_state, updateOutsideTemperature. cbn [state].
    unfold set_outside. cbn [globalMaxTemp].
    rewrite S3. unfold sm5, with_state. cbn [state]. rewrite G4, X3, D4. reflexivity. }
  assert (Hcs : coordinatorSets sm3' = coordinatorSets sm4).
  { rewrite D5'. unfold sm2', with_state. cbn [coordinatorSets].
    rewrite S4. reflexivity. }
  assert (L3' : forall k, miniSplits (state sm3') !! k = miniSplits (state sm1') !! k)
    by (intros k; rewrite D1'; reflexivity).
  (* every unit online in the second cycle needs no action *)
  unfold generateCoordinationActions. apply flat_map_nil.
  intros u' Hu'. pose proof Hu' as Hu'0. apply online_In in Hu'.
  destruct Hu' as [[k Hk] Hon].
  rewrite L3', HS1' in Hk.
  pose proof (KV k) as KVk. unfold keyView in KVk. cbn [fst snd] in KVk.
  destruct (in_dec string_dec k ids) as [Hin|Hnin].
  - rewrite (sync_fold_in _ _ _ _ sm5 k Hin) in Hk.
    cbn [getDeviceStatus simDeviceManager] in Hk.
    assert (E3 : miniSplits (state sm3) !! k =
                 syncEntry now1 (sw_devices w k) k (miniSplits (state sm) !! k)).
    { rewrite L3, HS1, (sync_fold_in _ _ _ _ sm k Hin). reflexivity. }
    pose proof (Hmain k Hin) as Hm.
    destruct (sw_devices w k) as [| |c] eqn:Dk.
    + (* a failing device stays failing and offline *)
      rewrite E3 in KVk. cbn [syncEntry] in KVk.
      rewrite keyStep_error_fold in KVk. injection KVk as Hd _ _.
      rewrite Hd in Hk. cbn [syncEntry] in Hk. injection Hk as <-.
      discriminate Hon.
    + contradiction.
    + set (u1 := mergeMiniSplit now1 k (miniSplits (state sm) !! k) (syncUpdate now1 c)).
      assert (Hu1 : In u1 (getOnlineMiniSplits (state sm3))).
      { apply online_In. split; [exists k; rewrite E3; reflexivity|reflexivity]. }
      assert (Hsel : List.filter (fun a => String.eqb (act_deviceId a) k) acts1 =
                     unitActions sched m1 sm3 u1).
      { unfold acts1, generateCoordinationActions. rewrite filter_generate.
        apply (flat_map_select (unitActions sched m1 sm3) k _ u1);
          [apply online_NoDup; exact Hwk|exact Hu1|reflexivity]. }
      rewrite Hsel, E3 in KVk. cbn [syncEntry] in KVk. fold u1 in KVk.
      destruct (fold_left (keyStep now1 k) (map act (unitActions sched m1 sm3 u1))
                  (StatusMain c, Some u1, coordinatorSets sm3 !! k))
        as [[dev4 e4] cs4] eqn:F.
      destruct (unit_settles now1 now2 sched m1 k c (miniSplits (state sm) !! k)
                  sm3 sm3' dev4 e4 cs4 F) as [c4 [Hdev Hset]].
      injection KVk as Ed Ee Ec. rewrite Ed, Hdev in Hk. cbn [syncEntry] in Hk.
      unfold sm5, with_state in Hk. cbn [state] in Hk. rewrite G2, Ee in Hk.
      injection Hk as <-.
      assert (Hm2 : m2 = m1).
      { apply determine_stable.
        - intros Hn. rewrite (getOnline_congr _ (state sm3)) in Hn;
            [rewrite Hn in Hu1; destruct Hu1|].
          rewrite D1. reflexivity.
        - intros Hn. rewrite (getOnline_congr _ (state sm3')) in Hn;
            [rewrite Hn in Hu'0; destruct Hu'0|].
          rewrite D1'. reflexivity.
        - rewrite <- D3', <- D3. exact Hmin.
        - rewrite <- D4', <- D4. exact Hmax.
        - unfold sm2', with_state, updateOutsideTemperature, set_outside.
          cbn [state globalMode]. rewrite S1. unfold sm5, with_state. cbn [state].
          rewrite G1. reflexivity. }
      rewrite Hm2. apply Hset; [rewrite Hcs; exact Ec|exact Hmin|exact Hmax].
  - (* an id that is not configured has no entry *)
    rewrite (sync_fold_out _ _ _ _ sm5 k Hnin) in Hk.
    unfold sm5, with_state in Hk. cbn [state] in Hk. rewrite G2 in Hk.
    assert (E3 : miniSplits (state sm3) !! k = None).
    { rewrite L3, HS1, (sync_fold_out _ _ _ _ sm k Hnin).
      destruct (miniSplits (state sm) !! k) eqn:E; [|reflexivity].
      exfalso. apply Hnin, Hkeys. rewrite E. eexists; reflexivity. }
    assert (Hsel : List.filter (fun a => String.eqb (act_deviceId a) k) acts1 = []).
    { unfold acts1, generateCoordinationActions. rewrite filter_generate.
      apply flat_map_nil. intros v Hv.
      destruct (String.eqb_spec (deviceId v) k) as [Ev|_]; [|reflexivity].
      exfalso. apply online_In in Hv. destruct Hv as [[k' Hk'] _].
      rewrite (Hwk k' v Hk') in Ev. subst k'. congruence. }
    rewrite Hsel, E3 in KVk. cbn [map fold_left] in KVk.
    injection KVk as _ Ee _. rewrite Ee in Hk. discriminate Hk.
Qed.

(** Witness for C9: one configured unit on an authenticated world, 60 F
    outside; the first cycle turns it to heat, the second does nothing. *)
Lemma runCoordinationCycle_settles_witness :
  actions (fst (fst (runCoordinationCycle simDeviceManager ["dev-A"%string] 2 None 60
     (snd (fst (runCoordinationCycle simDeviceManager ["dev-A"%string] 1 None 60
                  worldAuth (mkStateManager state0 ∅))))
     (snd (runCoordinationCycle simDeviceManager ["dev-A"%string] 1 None 60
             worldAuth (mkStateManager state0 ∅)))))) = [].
Proof.
  apply runCoordinationCycle_settles.
  - reflexivity.
  - intros k [v Hv].
    change (miniSplits (state (mkStateManager state0 ∅)))
      with (<["dev-A"%string := unitA]> (∅ : gmap string MiniSplitState)) in Hv.
    apply lookup_insert_Some in Hv.
    destruct Hv as [[<- _]|[_ Hv]]; [left; reflexivity|].
    rewrite lookup_empty in Hv. discriminate Hv.
  - intros k _. cbn. discriminate.
Defined.

(** C9: without an authenticated device session the commands are skipped,
    so the second cycle emits the same [setMode heat] again. *)
Lemma unauthenticated_cycle_repeats :
  let sm0 := mkStateManager state0 ∅ in
  let r1 := runCoordinationCycle simDeviceManager ["dev-A"%string] 1 None 60
              worldUnauth sm0 in
  actions (fst (fst r1)) = [mkAction "dev-A" (SetModeAction Heat)] /\
  actions (fst (fst (runCoordinationCycle simDeviceManager ["dev-A"%string] 2 None 60
                       (snd (fst r1)) (snd r1)))) =
    [mkAction "dev-A" (SetModeAction Heat)].
Proof. split; vm_compute; reflexivity. Qed.

(** Witness for C4: a unit manually set to 95 F, outside 68..72, in heat. *)
Lemma generate_deadband_witness :
  shouldRespectManualOverride (mkStateManager stateHot ∅) unitHot = false /\
  exists t, In (mkAction (deviceId unitHot) (SetTemperatureAction t))
              (unitActions None Heat (mkStateManager stateHot ∅) unitHot).
Proof.
  assert (Hr : shouldRespectManualOverride (mkStateManager stateHot ∅) unitHot = false)
    by reflexivity.
  split; [exact Hr|].
  destruct (generate_deadband None Heat (mkStateManager stateHot ∅) unitHot Hr)
    as [_ [Hiff _]].
  apply Hiff. apply Qle_bool_iff. reflexivity.
Defined.

(* ================================================================== *)
(** ** Further properties of the StateManager, the coordinator commands,
    the weather cache, the lighting monitor and the Matter bridge *)

Lemma sumBy_acc {A} (f : A -> Q) (xs : list A) (acc : Q) :
  fold_left (fun sum x => sum + f x) xs acc == acc + sumBy f xs.
Proof.
  unfold sumBy. revert acc. induction xs as [|x xs IH]; intros acc; simpl.
  - ring.
  - pose proof (IH (acc + f x)); pose proof (IH (0 + f x)); lra.
Qed.

Lemma sumBy_bounds {A} (f : A -> Q) (a b : Q) (xs : list A) :
  (forall x, In x xs -> a <= f x <= b) ->
  a * inject_Z (Z.of_nat (length xs)) <= sumBy f xs <= b * inject_Z (Z.of_nat (length xs)).
Proof.
  induction xs as [|x xs IH]; intros H.
  - unfold sumBy; cbn [length fold_left]. change (inject_Z (Z.of_nat 0)) with 0. split; lra.
  - unfold sumBy. simpl fold_left. rewrite sumBy_acc.
    assert (Hx : a <= f x <= b) by (apply H; left; reflexivity).
    assert (Hr : forall y, In y xs -> a <= f y <= b) by (intros; apply H; right; assumption).
    specialize (IH Hr). cbn [length].
    rewrite Nat2Z.inj_succ. unfold Z.succ. rewrite inject_Z_plus.
    change (inject_Z 1) with 1.
    rewrite !Qmult_plus_distr_r, !Qmult_1_r. split; lra.
Qed.

Lemma average_bounds {A} (f : A -> Q) (a b : Q) (xs : list A) :
  length xs <> 0%nat ->
  (forall x, In x xs -> a <= f x <= b) ->
  a <= sumBy f xs / inject_Z (Z.of_nat (length xs)) <= b.
Proof.
  intros Hn H. pose proof (sumBy_bounds f a b xs H) as [Hlo Hhi].
  assert (Hpos : 0 < inject_Z (Z.of_nat (length xs))).
  { change 0 with (inject_Z 0). rewrite <- Zlt_Qlt. lia. }
  split.
  - apply Qle_shift_div_l; [exact Hpos|]. lra.
  - apply Qle_shift_div_r; [exact Hpos|]. lra.
Qed.

(** X1: With no online unit [getAverageDesiredTemperature] is the midpoint of
    the global range. It stays inside a well-ordered global range when every
    online unit's target does. *)
Theorem getAverageDesiredTemperature_in_range (s : SystemState) :
  (getOnlineMiniSplits s = [] ->
     getAverageDesiredTemperature s = (globalMinTemp s + globalMaxTemp s) / 2) /\
  (globalMinTemp s <= globalMaxTemp s ->
   (forall u, In u (getOnlineMiniSplits s) ->
      globalMinTemp s <= targetTemperature u <= globalMaxTemp s) ->
   globalMinTemp s <= getAverageDesiredTemperature s <= globalMaxTemp s).
Proof.
  split.
  - intros E. unfold getAverageDesiredTemperature. rewrite E. reflexivity.
  - intros Hle H. unfold getAverageDesiredTemperature.
    destruct (Nat.eqb _ 0) eqn:E.
    + assert (H2 : 0 < 2) by lra. split.
      * apply Qle_shift_div_l; [exact H2|]. lra.
      * apply Qle_shift_div_r; [exact H2|]. lra.
    + apply average_bounds; [apply Nat.eqb_neq; exact E|exact H].
Qed.

(** Witness for X1: [state0], range 68..72, one online unit at 70. *)
Lemma getAverageDesiredTemperature_in_range_witness :
  globalMinTemp state0 <= globalMaxTemp state0 /\
  globalMinTemp state0 <= getAverageDesiredTemperature state0 <= globalMaxTemp state0.
Proof.
  assert (H1 : globalMinTemp state0 <= globalMaxTemp state0)
    by (apply Qle_bool_iff; reflexivity).
  split; [exact H1|].
  apply (proj2 (getAverageDesiredTemperature_in_range state0)); [exact H1|].
  intros u Hu.
  assert (E : getOnlineMiniSplits state0 = [unitA]) by (vm_compute; reflexivity).
  rewrite E in Hu. destruct Hu as [<-|[]].
  split; apply Qle_bool_iff; reflexivity.
Defined.

(** X2: [getAverageCurrentTemperature] is 70 with no online unit, and otherwise
    lies between any bounds of the online units' current temperatures. *)
Theorem getAverageCurrentTemperature_spec (s : SystemState) :
  (getOnlineMiniSplits s = [] -> getAverageCurrentTemperature s = 70) /\
  (forall a b, getOnlineMiniSplits s <> [] ->
     (forall u, In u (getOnlineMiniSplits s) -> a <= currentTemperature u <= b) ->
     a <= getAverageCurrentTemperature s <= b).
Proof.
  unfold getAverageCurrentTemperature. split.
  - intros E. rewrite E. reflexivity.
  - intros a b Hne H. destruct (getOnlineMiniSplits s) as [|u l] eqn:E;
      [congruence|].
    cbn [Nat.eqb length]. apply (average_bounds _ _ _ (u :: l)); [simpl; lia|exact H].
Qed.

(** X3: [resolveConflict]: an index past the end changes nothing, a negative
    index throws, and an index inside the log marks exactly that entry
    resolved with the given resolution. *)
Theorem resolveConflict_spec (i : Z) (r : string) (s : SystemState) :
  ((Z.of_nat (length (conflicts s)) <= i)%Z -> resolveConflict i r s = Some s) /\
  ((i < 0)%Z -> resolveConflict i r s = None) /\
  ((0 <= i < Z.of_nat (length (conflicts s)))%Z ->
     exists s', resolveConflict i r s = Some s' /\
       s' = set_conflicts s (conflicts s') /\
       length (conflicts s') = length (conflicts s) /\
       conflicts s' !! Z.to_nat i = markResolved r <$> conflicts s !! Z.to_nat i /\
       (forall j, j <> Z.to_nat i -> conflicts s' !! j = conflicts s !! j)).
Proof.
  unfold resolveConflict. split; [|split].
  - intros H. destruct (Z.ltb_spec i (Z.of_nat (length (conflicts s)))); [lia|reflexivity].
  - intros H. destruct (Z.ltb_spec i (Z.of_nat (length (conflicts s)))); [|lia].
    destruct i; [lia|lia|reflexivity].
  - intros H. destruct (Z.ltb_spec i (Z.of_nat (length (conflicts s)))); [|lia].
    assert (Hs : exists s', (match i with
                  | Zneg _ => None
                  | _ => Some (set_conflicts s (alter (markResolved r) (Z.to_nat i) (conflicts s)))
                  end) = Some s' /\
                  s' = set_conflicts s (alter (markResolved r) (Z.to_nat i) (conflicts s)))
      by (destruct i; [eexists; split; reflexivity|eexists; split; reflexivity|lia]).
    destruct Hs as [s' [-> ->]]. eexists. split; [reflexivity|]. simpl.
    split; [reflexivity|]. split; [apply length_alter|]. split.
    + rewrite list_lookup_alter, decide_True by reflexivity. reflexivity.
    + intros j Hj. apply list_lookup_alter_ne. congruence.
Qed.

Lemma filter_alter_resolved (r : string) (l : list ConflictEvent) :
  forall (i : nat) (c : ConflictEvent), l !! i = Some c ->
  (length (filter (fun c => cf_resolved c = false) (alter (markResolved r) i l))
   + (if cf_resolved c then 0 else 1)
   = length (filter (fun c => cf_resolved c = false) l))%nat.
Proof.
  induction l as [|x l IH]; intros i c H; [discriminate|].
  destruct i as [|i].
  - simpl in H. injection H as <-. cbn [alter list_alter].
    rewrite !filter_cons. rewrite decide_False by (simpl; discriminate).
    destruct (cf_resolved x) eqn:E.
    + rewrite decide_False by congruence. lia.
    + rewrite decide_True by reflexivity. simpl. lia.
  - simpl in H. cbn [alter list_alter]. rewrite !filter_cons.
    specialize (IH i c H).
    destruct (decide (cf_resolved x = false)); simpl; lia.
Qed.

(** X4: Resolving an existing conflict lowers the number of unresolved
    conflicts by one if it was unresolved, and by zero otherwise. *)
Theorem resolveConflict_unresolved (i : nat) (r : string) (s : SystemState)
  (c : ConflictEvent) :
  conflicts s !! i = Some c ->
  exists s', resolveConflict (Z.of_nat i) r s = Some s' /\
    (length (getUnresolvedConflicts s') + (if cf_resolved c then 0 else 1)
     = length (getUnresolvedConflicts s))%nat.
Proof.
  intros H. assert (Hi : (i < length (conflicts s))%nat)
    by (apply lookup_lt_is_Some_1; rewrite H; eexists; reflexivity).
  unfold resolveConflict.
  destruct (Z.ltb_spec (Z.of_nat i) (Z.of_nat (length (conflicts s)))); [|lia].
  assert (Hs : exists s', (match Z.of_nat i with
                  | Zneg _ => None
                  | _ => Some (set_conflicts s (alter (markResolved r) (Z.to_nat (Z.of_nat i)) (conflicts s)))
                  end) = Some s' /\
                  s' = set_conflicts s (alter (markResolved r) i (conflicts s))).
  { rewrite Nat2Z.id. destruct i; eexists; split; reflexivity. }
  destruct Hs as [s' [-> ->]]. eexists. split; [reflexivity|].
  unfold getUnresolvedConflicts. simpl. apply filter_alter_resolved. exact H.
Qed.

(** Witness for X4: resolving the one open conflict of a fresh log. *)
Lemma resolveConflict_unresolved_witness :
  let s := addConflictEvent 5 ModeMismatch "x" [] state0 in
  let c := mkConflictEvent 5 ModeMismatch "x" [] false None in
  conflicts s !! 0%nat = Some c /\
  exists s', resolveConflict (Z.of_nat 0) "done" s = Some s' /\
    (length (getUnresolvedConflicts s') + (if cf_resolved c then 0 else 1)
     = length (getUnresolvedConflicts s))%nat.
Proof.
  intros s c.
  assert (H : conflicts s !! 0%nat = Some c) by (vm_compute; reflexivity).
  split; [exact H|]. exact (resolveConflict_unresolved 0 "done" s c H).
Defined.

(** X5: [updateMiniSplitState] records no mode change event for a device with no
    stored entry or an update without a mode. *)
Theorem updateMiniSplitState_no_mode_event (now : Z) (id : string)
  (u : MiniSplitUpdate) (s : SystemState) :
  miniSplits s !! id = None \/ u_mode u = None ->
  modeChangeHistory (updateMiniSplitState now id u s) = modeChangeHistory s.
Proof.
  intros H. unfold updateMiniSplitState.
  destruct (miniSplits s !! id) as [e|] eqn:E; [|reflexivity].
  destruct H as [H|H]; [discriminate|].
  unfold mode_eqb. rewrite bool_decide_true; [reflexivity|].
  unfold mergeMiniSplit. rewrite H. reflexivity.
Qed.

(** Witness for X5: marking [dev-A] offline. *)
Lemma updateMiniSplitState_no_mode_event_witness :
  (miniSplits state0 !! "dev-A" = None \/ u_mode (offlineUpdate 3) = None) /\
  modeChangeHistory (updateMiniSplitState 3 "dev-A" (offlineUpdate 3) state0)
  = modeChangeHistory state0.
Proof.
  assert (H : miniSplits state0 !! "dev-A" = None \/ u_mode (offlineUpdate 3) = None)
    by (right; reflexivity).
  split; [exact H|].
  exact (updateMiniSplitState_no_mode_event 3 "dev-A" (offlineUpdate 3) state0 H).
Defined.

(** X6: After [updateMiniSplitState], [getMiniSplitState] returns the merged
    entry for the updated id and the previous entry for every other id. *)
Theorem updateMiniSplitState_lookup (now : Z) (id : string) (u : MiniSplitUpdate)
  (s : SystemState) (k : string) :
  getMiniSplitState k (updateMiniSplitState now id u s) =
  if String.eqb k id then Some (mergeMiniSplit now id (getMiniSplitState id s) u)
  else getMiniSplitState k s.
Proof.
  unfold getMiniSplitState. rewrite (proj1 (updateMiniSplitState_frame now id u s)).
  destruct (String.eqb_spec k id) as [->|Hne].
  - apply lookup_insert_eq.
  - apply lookup_insert_ne. congruence.
Qed.

(** X7: [getRecentModeChanges] over a shorter window is a sublist of the result
    over a longer one. *)
Theorem getRecentModeChanges_mono (now h1 h2 : Z) (s : SystemState) :
  (h1 <= h2)%Z ->
  getRecentModeChanges now h1 s `sublist_of` getRecentModeChanges now h2 s.
Proof.
  intros H. unfold getRecentModeChanges.
  induction (modeChangeHistory s) as [|e l IH]; [reflexivity|].
  rewrite !filter_cons.
  destruct (decide (now - h1 * 60 * 60 * 1000 < ev_timestamp e)%Z) as [H1|H1].
  - rewrite decide_True by lia. apply sublist_skip. exact IH.
  - destruct (decide (now - h2 * 60 * 60 * 1000 < ev_timestamp e)%Z).
    + apply sublist_cons. exact IH.
    + exact IH.
Qed.

(** Witness for X7: the last hour against the last day. *)
Lemma getRecentModeChanges_mono_witness :
  (1 <= 24)%Z /\
  getRecentModeChanges 0 1 state0 `sublist_of` getRecentModeChanges 0 24 state0.
Proof.
  assert (H : (1 <= 24)%Z) by lia.
  split; [exact H|]. exact (getRecentModeChanges_mono 0 1 24 state0 H).
Defined.

Lemma initializeDeviceStatesFrom_frame (now : Z) (roomNames : list string)
  (ids : list string) :
  forall (i : nat) (s : SystemState) (id : string),
  (forall e, miniSplits s !! id = Some e ->
     miniSplits (initializeDeviceStatesFrom now i ids roomNames s) !! id = Some e) /\
  (~ In id ids ->
     miniSplits (initializeDeviceStatesFrom now i ids roomNames s) !! id = miniSplits s !! id) /\
  modeChangeHistory (initializeDeviceStatesFrom now i ids roomNames s) = modeChangeHistory s.
Proof.
  induction ids as [|id0 ids IH]; intros i s id; simpl; [auto|].
  set (s' := match miniSplits s !! id0 with
             | Some _ => s
             | None => updateMiniSplitState now id0 _ s
             end).
  assert (Hs' : (forall k, k <> id0 -> miniSplits s' !! k = miniSplits s !! k) /\
                (forall e, miniSplits s !! id0 = Some e -> miniSplits s' !! id0 = Some e) /\
                modeChangeHistory s' = modeChangeHistory s).
  { unfold s'. destruct (miniSplits s !! id0) as [e0|] eqn:E;
      [split; [|split]; intros; congruence|].
    split; [|split].
    - intros k Hk. rewrite (proj1 (updateMiniSplitState_frame _ _ _ _)).
      apply lookup_insert_ne. congruence.
    - intros e He. congruence.
    - unfold updateMiniSplitState. rewrite E. reflexivity. }
  destruct Hs' as [Hne [Hkeep Hh]].
  destruct (IH (S i) s' id) as [IH1 [IH2 IH3]]. split; [|split].
  - intros e He. apply IH1.
    destruct (decide (id = id0)) as [->|Hd]; [apply Hkeep; exact He|].
    rewrite Hne by exact Hd. exact He.
  - intros Hn. rewrite IH2 by tauto. apply Hne. intros ->. apply Hn. left. reflexivity.
  - rewrite IH3. exact Hh.
Qed.

(** X8: [initializeDeviceStates] gives every configured id an entry, keeps
    existing entries, leaves other ids alone and records no mode change. *)
Theorem initializeDeviceStates_spec (now : Z) (ids roomNames : list string)
  (s : SystemState) (id : string) :
  (In id ids -> is_Some (miniSplits (initializeDeviceStates now ids roomNames s) !! id)) /\
  (forall e, miniSplits s !! id = Some e ->
     miniSplits (initializeDeviceStates now ids roomNames s) !! id = Some e) /\
  (~ In id ids ->
     miniSplits (initializeDeviceStates now ids roomNames s) !! id = miniSplits s !! id) /\
  modeChangeHistory (initializeDeviceStates now ids roomNames s) = modeChangeHistory s.
Proof.
  unfold initializeDeviceStates.
  destruct (initializeDeviceStatesFrom_frame now roomNames ids 0 s id) as [H1 [H2 H3]].
  split; [|split; [exact H1|split; [exact H2|exact H3]]].
  intros Hin. apply initializeDeviceStatesFrom_stores. left. exact Hin.
Qed.

Lemma set_schedules_eta (p : UserPreferences) : set_schedules p (schedules p) = p.
Proof. destruct p; reflexivity. Qed.

Lemma filter_length_lt {A} (P : A -> Prop) `{!forall x, Decision (P x)} (l : list A) :
  (length (filter P l) < length l)%nat <-> exists x, In x l /\ ~ P x.
Proof.
  induction l as [|x l IH]; simpl.
  - split; [lia|intros [? [[] _]]].
  - rewrite filter_cons. pose proof (length_filter P l) as Hle.
    destruct (decide (P x)) as [Hx|Hx]; simpl.
    + rewrite <- Nat.succ_lt_mono, IH. split.
      * intros [y [Hy Hny]]. exists y. auto.
      * intros [y [[<-|Hy] Hny]]; [contradiction|]. exists y. auto.
    + split; [intros _; exists x; auto|lia].
Qed.

(** X9: [deleteSchedule] returns true iff a schedule had the id, and removes
    every schedule with that id, keeping the order of the others. *)
Theorem deleteSchedule_spec (scheduleId : string) (p : UserPreferences) :
  (fst (deleteSchedule scheduleId p) = true <->
     exists sc, In sc (schedules p) /\ sc_id sc = scheduleId) /\
  (forall sc, In sc (schedules (snd (deleteSchedule scheduleId p))) <->
     In sc (schedules p) /\ sc_id sc <> scheduleId) /\
  snd (deleteSchedule scheduleId p)
  = set_schedules p (filter (fun s => sc_id s <> scheduleId) (schedules p)).
Proof.
  unfold deleteSchedule. simpl. split; [|split; [|reflexivity]].
  - rewrite Nat.ltb_lt, filter_length_lt. split.
    + intros [x [Hx Hn]]. exists x. split; [exact Hx|]. destruct (decide (sc_id x = scheduleId)); tauto.
    + intros [x [Hx He]]. exists x. tauto.
  - intros sc. rewrite <- !list_elem_of_In, list_elem_of_filter. tauto.
Qed.

(** X10: [updateSchedule] returns false and changes nothing for an unknown id;
    otherwise it returns true and merges the update into the first schedule
    with that id only. *)
Theorem updateSchedule_spec (scheduleId : string) (u : ScheduleUpdate)
  (p : UserPreferences) :
  (Forall (fun s => sc_id s <> scheduleId) (schedules p) ->
     updateSchedule scheduleId u p = (false, p)) /\
  (forall i sc, schedules p !! i = Some sc -> sc_id sc = scheduleId ->
     (forall j y, (j < i)%nat -> schedules p !! j = Some y -> sc_id y <> scheduleId) ->
     fst (updateSchedule scheduleId u p) = true /\
     schedules (snd (updateSchedule scheduleId u p)) !! i = Some (applyScheduleUpdate sc u) /\
     (forall j, j <> i -> schedules (snd (updateSchedule scheduleId u p)) !! j = schedules p !! j) /\
     length (schedules (snd (updateSchedule scheduleId u p))) = length (schedules p)).
Proof.
  unfold updateSchedule. split.
  - intros H. apply (proj2 (list_find_None (fun s => sc_id s = scheduleId) _)) in H.
    rewrite H. reflexivity.
  - intros i sc Hi Hid Hfirst.
    assert (Hf : list_find (fun s => sc_id s = scheduleId) (schedules p) = Some (i, sc)).
    { apply list_find_Some. split; [exact Hi|split; [exact Hid|]].
      intros j y Hj Hlt. exact (Hfirst j y Hlt Hj). }
    rewrite Hf. simpl. split; [reflexivity|]. split; [|split].
    + apply list_lookup_insert_eq. apply lookup_lt_is_Some_1. rewrite Hi. eexists; reflexivity.
    + intros j Hj. apply list_lookup_insert_ne. congruence.
    + apply length_insert.
Qed.

(** X11: Deleting a schedule just added under a fresh id returns true and gives
    back the previous preferences. *)
Theorem addSchedule_deleteSchedule (id : string) (sc : Schedule) (p : UserPreferences) :
  Forall (fun s => sc_id s <> id) (schedules p) ->
  fst (addSchedule id sc p) = id /\
  deleteSchedule id (snd (addSchedule id sc p)) = (true, p).
Proof.
  intros H. split; [reflexivity|]. unfold deleteSchedule, addSchedule. simpl.
  rewrite filter_app, filter_cons, decide_False by (simpl; tauto). simpl.
  rewrite app_nil_r.
  assert (Hf : filter (fun s => sc_id s <> id) (schedules p) = schedules p).
  { induction (schedules p) as [|x l IH]; [reflexivity|].
    inversion H as [|? ? Hx Hl]; subst. rewrite filter_cons, decide_True by exact Hx.
    rewrite IH by exact Hl. reflexivity. }
  rewrite Hf, length_app. simpl.
  replace (Nat.ltb (length (schedules p)) (length (schedules p) + 1)) with true
    by (symmetry; apply Nat.ltb_lt; lia).
  f_equal. destruct p; reflexivity.
Qed.

(** Witness for X11: adding and deleting the overnight schedule. *)
Lemma addSchedule_deleteSchedule_witness :
  Forall (fun s => sc_id s <> "night"%string) (schedules prefs0) /\
  fst (addSchedule "night" nightSchedule prefs0) = "night"%string /\
  deleteSchedule "night" (snd (addSchedule "night" nightSchedule prefs0)) = (true, prefs0).
Proof.
  assert (H : Forall (fun s => sc_id s <> "night"%string) (schedules prefs0))
    by (constructor; [vm_compute; discriminate|constructor]).
  split; [exact H|]. exact (addSchedule_deleteSchedule "night" nightSchedule prefs0 H).
Defined.

Lemma findActiveSchedule_cons (d : nat) (t : string) (sc : Schedule) (l : list Schedule) :
  findActiveSchedule d t (sc :: l)
  = if scheduleActive d t sc then Some sc else findActiveSchedule d t l.
Proof.
  unfold scheduleActive. simpl.
  destruct (sc_enabled sc); simpl; [|reflexivity].
  destruct (bool_decide (d ∈ sc_daysOfWeek sc)); simpl; [|reflexivity].
  destruct (String.leb (sc_timeStart sc) t); simpl; [|reflexivity].
  destruct (String.leb t (sc_timeEnd sc)); reflexivity.
Qed.

Lemma findActiveSchedule_active (d : nat) (t : string) (l : list Schedule) (sc : Schedule) :
  findActiveSchedule d t l = Some sc -> scheduleActive d t sc = true /\ In sc l.
Proof.
  induction l as [|x l IH]; [discriminate|].
  rewrite findActiveSchedule_cons. destruct (scheduleActive d t x) eqn:E.
  - intros [= <-]. split; [exact E|left; reflexivity].
  - intros H. destruct (IH H) as [H1 H2]. split; [exact H1|right; exact H2].
Qed.

(** X12: [getActiveSchedule] returns the first enabled schedule of the current
    weekday whose start and end strings bracket the [HH:MM] time. *)
Theorem getActiveSchedule_spec (currentDay hours minutes : nat) (p : UserPreferences)
  (sc : Schedule) :
  getActiveSchedule currentDay hours minutes p = Some sc <->
  exists l1 l2, schedules p = l1 ++ sc :: l2 /\
    scheduleActive currentDay (currentTimeString hours minutes) sc = true /\
    Forall (fun s => scheduleActive currentDay (currentTimeString hours minutes) s = false) l1.
Proof.
  unfold getActiveSchedule. set (t := currentTimeString hours minutes).
  induction (schedules p) as [|x l IH].
  - split; [discriminate|]. intros [l1 [l2 [H _]]]. destruct l1; discriminate.
  - rewrite findActiveSchedule_cons. destruct (scheduleActive currentDay t x) eqn:E.
    + split.
      * intros [= <-]. exists [], l. split; [reflexivity|]. split; [exact E|constructor].
      * intros [l1 [l2 [Hl [Ha Hf]]]]. destruct l1 as [|y l1].
        -- simpl in Hl. injection Hl as -> _. reflexivity.
        -- simpl in Hl. injection Hl as <- _. inversion Hf; congruence.
    + rewrite IH. split.
      * intros [l1 [l2 [Hl [Ha Hf]]]]. exists (x :: l1), l2.
        split; [simpl; congruence|]. split; [exact Ha|constructor; assumption].
      * intros [l1 [l2 [Hl [Ha Hf]]]]. destruct l1 as [|y l1].
        -- simpl in Hl. injection Hl as -> _. congruence.
        -- simpl in Hl. injection Hl as <- Hl. inversion Hf; subst.
           exists l1, l2. auto.
Qed.

Lemma string_leb_trans (a b c : string) :
  String.leb a b = true -> String.leb b c = true -> String.leb a c = true.
Proof.
  intros H1 H2. apply Is_true_true. change (String.le a c).
  apply (transitivity (R := String.le) (y := b)); apply Is_true_true; assumption.
Qed.

(** X13: A schedule whose end time sorts before its start time (an overnight
    window) is never returned by [getActiveSchedule]. *)
Theorem getActiveSchedule_overnight (currentDay hours minutes : nat)
  (p : UserPreferences) (sc : Schedule) :
  String.ltb (sc_timeEnd sc) (sc_timeStart sc) = true ->
  getActiveSchedule currentDay hours minutes p <> Some sc.
Proof.
  intros Hlt H. unfold getActiveSchedule in H.
  apply findActiveSchedule_active in H as [Ha _].
  unfold scheduleActive in Ha. apply andb_prop in Ha as [Ha H2].
  apply andb_prop in Ha as [_ H1].
  pose proof (string_leb_trans _ _ _ H1 H2) as H3.
  unfold String.ltb in Hlt. unfold String.leb in H3.
  rewrite String.compare_antisym in H3.
  destruct (String.compare (sc_timeEnd sc) (sc_timeStart sc)); simpl in *; congruence.
Qed.

(** Witness for X13: the 22:00-06:00 schedule at 23:30 on a Monday. *)
Lemma getActiveSchedule_overnight_witness :
  String.ltb (sc_timeEnd nightSchedule) (sc_timeStart nightSchedule) = true /\
  getActiveSchedule 1 23 30 (snd (addSchedule "night" nightSchedule prefs0))
  <> Some nightSchedule.
Proof.
  assert (H : String.ltb (sc_timeEnd nightSchedule) (sc_timeStart nightSchedule) = true)
    by reflexivity.
  split; [exact H|].
  exact (getActiveSchedule_overnight 1 23 30 (snd (addSchedule "night" nightSchedule prefs0))
           nightSchedule H).
Defined.

Lemma execute_setMode_fold {W : Type} (dm : DeviceManager W) (now : Z)
  (acts : list CoordinationAction) :
  (forall a, In a acts -> exists m, act a = SetModeAction m) ->
  forall w sm, snd (fold_left (executeOne dm now) acts (w, sm)) = sm.
Proof.
  induction acts as [|a acts IH]; intros Hm w sm; [reflexivity|].
  cbn [fold_left].
  destruct (executeOne dm now (w, sm) a) as [w' sm'] eqn:E.
  assert (Hsm : sm' = sm).
  { pose proof (executeOne_state dm now w sm a) as Hs. rewrite E in Hs. simpl in Hs.
    destruct (Hm a (or_introl eq_refl)) as [m Ha]. rewrite Ha in Hs. exact Hs. }
  subst sm'. apply IH. intros b Hb. apply Hm. right. exact Hb.
Qed.

(** X14: [setGlobalMode] leaves the store as [updateGlobalMode] leaves it, with
    the requested global mode; the setMode commands change no stored state. *)
Theorem setGlobalMode_store {W : Type} (dm : DeviceManager W) (now : Z) (m : Mode)
  (reason : ModeChangeReason) (w : W) (sm : StateManager) :
  snd (setGlobalMode dm now m reason w sm)
  = with_state sm (updateGlobalMode now m reason None (state sm)) /\
  globalMode (state (snd (setGlobalMode dm now m reason w sm))) = m.
Proof.
  assert (H : snd (setGlobalMode dm now m reason w sm)
              = with_state sm (updateGlobalMode now m reason None (state sm))).
  { unfold setGlobalMode, executeCoordinationActions.
    destruct (isAuthenticated dm w); [|reflexivity].
    apply execute_setMode_fold. intros a Ha. unfold setGlobalModeActions in Ha.
    apply in_flat_map in Ha as [u [_ Ha]].
    destruct (mode_eqb (mode u) m); [destruct Ha|].
    destruct Ha as [<-|[]]. exists m. reflexivity. }
  split; [exact H|]. rewrite H. apply updateGlobalMode_globalMode.
Qed.

(** X15: [setGlobalTemperatureRangeImmediate] with a rejected range throws the
    range error and changes neither the devices nor the store. *)
Theorem setGlobalTemperatureRangeImmediate_rejected {W : Type} (dm : DeviceManager W)
  (now : Z) (lo hi : Q) (w : W) (sm : StateManager) (e : RangeError) :
  fst (updateGlobalTemperatureRange lo hi (state sm)) = inl e ->
  setGlobalTemperatureRangeImmediate dm now lo hi w sm = (inl e, (w, sm)).
Proof.
  intros H. unfold setGlobalTemperatureRangeImmediate.
  destruct (updateGlobalTemperatureRange lo hi (state sm)) as [[e'|[]] s1].
  - simpl in H. congruence.
  - discriminate.
Qed.

(** Witness for X15: the inverted range 72..68. *)
Lemma setGlobalTemperatureRangeImmediate_rejected_witness :
  fst (updateGlobalTemperatureRange 72 68 (state (mkStateManager state0 ∅)))
    = inl MinNotBelowMax /\
  setGlobalTemperatureRangeImmediate simDeviceManager 1 72 68 worldAuth
    (mkStateManager state0 ∅)
  = (inl MinNotBelowMax, (worldAuth, mkStateManager state0 ∅)).
Proof.
  assert (H : fst (updateGlobalTemperatureRange 72 68 (state (mkStateManager state0 ∅)))
                = inl MinNotBelowMax) by reflexivity.
  split; [exact H|].
  exact (setGlobalTemperatureRangeImmediate_rejected simDeviceManager 1 72 68 worldAuth
           (mkStateManager state0 ∅) MinNotBelowMax H).
Defined.

(** X16: With the system off, an accepted [setGlobalTemperatureRangeImmediate]
    only stores the range and sends no command. *)
Theorem setGlobalTemperatureRangeImmediate_off {W : Type} (dm : DeviceManager W)
  (now : Z) (lo hi : Q) (w : W) (sm : StateManager) :
  globalMode (state sm) = Off ->
  fst (updateGlobalTemperatureRange lo hi (state sm)) = inr tt ->
  setGlobalTemperatureRangeImmediate dm now lo hi w sm
  = (inr tt, (w, with_state sm (set_range (state sm) lo hi))).
Proof.
  intros Hoff H. unfold setGlobalTemperatureRangeImmediate.
  unfold updateGlobalTemperatureRange in *.
  destruct (Qle_bool hi lo); [discriminate|].
  destruct (Qltb lo 50 || Qltb 90 hi); [discriminate|].
  unfold immediateActions. rewrite flat_map_nil; [reflexivity|].
  intros u _. unfold immediateUnitActions. cbn [state with_state set_range globalMode].
  rewrite Hoff.
  destruct (shouldRespectManualOverride _ u); [reflexivity|].
  replace (Qle_bool 1 (Math_abs (targetTemperature u - targetTemperature u))) with false
    by (symmetry; apply Qle_bool_false; unfold Math_abs;
        rewrite Qabs_pos by lra; lra).
  reflexivity.
Qed.

(** Witness for X16: widening the range to 66..74 while off. *)
Lemma setGlobalTemperatureRangeImmediate_off_witness :
  globalMode (state (mkStateManager state0 ∅)) = Off /\
  fst (updateGlobalTemperatureRange 66 74 (state (mkStateManager state0 ∅))) = inr tt /\
  setGlobalTemperatureRangeImmediate simDeviceManager 1 66 74 worldAuth
    (mkStateManager state0 ∅)
  = (inr tt, (worldAuth, with_state (mkStateManager state0 ∅)
                           (set_range (state (mkStateManager state0 ∅)) 66 74))).
Proof.
  assert (H1 : globalMode (state (mkStateManager state0 ∅)) = Off) by reflexivity.
  assert (H2 : fst (updateGlobalTemperatureRange 66 74 (state (mkStateManager state0 ∅)))
                 = inr tt) by reflexivity.
  split; [exact H1|split; [exact H2|]].
  exact (setGlobalTemperatureRangeImmediate_off simDeviceManager 1 66 74 worldAuth
           (mkStateManager state0 ∅) H1 H2).
Defined.

Lemma immediate_unit_eq (sm : StateManager) (u : MiniSplitState) :
  List.filter isTemperatureAction
    (unitActions None (globalMode (state sm)) sm u)
  = immediateUnitActions (globalMinTemp (state sm)) (globalMaxTemp (state sm)) sm u.
Proof.
  unfold unitActions, immediateUnitActions.
  assert (Hm : forall l : list CoordinationAction,
            List.filter isTemperatureAction
              ((if mode_eqb (mode u) (globalMode (state sm)) then []
                else [mkAction (deviceId u) (SetModeAction (globalMode (state sm)))]) ++ l)
            = List.filter isTemperatureAction l)
    by (intros l; destruct (mode_eqb _ _); reflexivity).
  destruct (shouldRespectManualOverride sm u).
  - rewrite <- (app_nil_r (if mode_eqb _ _ then _ else _)), Hm. reflexivity.
  - rewrite Hm. unfold desiredTemp, heatingSetpoint, coolingSetpoint. simpl.
    destruct (globalMode (state sm));
      destruct (Qle_bool 1 _); reflexivity.
Qed.

(** X17: The commands [setGlobalTemperatureRangeImmediate] computes for the
    stored range are the setTemperature actions of
    [generateCoordinationActions] for the global mode, in order. *)
Theorem immediateActions_generate (sm : StateManager) :
  immediateActions (globalMinTemp (state sm)) (globalMaxTemp (state sm)) sm
  = List.filter isTemperatureAction
      (generateCoordinationActions None (globalMode (state sm)) sm).
Proof.
  unfold immediateActions, generateCoordinationActions.
  induction (getOnlineMiniSplits (state sm)) as [|u l IH]; [reflexivity|].
  cbn [flat_map]. rewrite List_filter_app, IH, immediate_unit_eq. reflexivity.
Qed.


Lemma insertSorted_perm {A} (cmp : A -> A -> Q) (x : A) (l : list A) :
  Permutation (insertSorted cmp x l) (x :: l).
Proof.
  induction l as [|y l IH]; simpl; [reflexivity|].
  destruct (Qltb 0 (cmp y x)); [reflexivity|].
  rewrite IH. apply perm_swap.
Qed.

Lemma array_sort_perm_acc {A} (cmp : A -> A -> Q) (l acc : list A) :
  Permutation (fold_left (fun acc x => insertSorted cmp x acc) l acc) (l ++ acc).
Proof.
  revert acc. induction l as [|x l IH]; intros acc; simpl; [reflexivity|].
  rewrite IH, insertSorted_perm. symmetry. apply Permutation_middle.
Qed.

Lemma insertSorted_sorted (x : DevicePriority) (l : list DevicePriority) :
  Sorted byDistanceDesc l ->
  Sorted byDistanceDesc
    (insertSorted (fun a b => distanceFromRange b - distanceFromRange a) x l).
Proof.
  induction l as [|y l IH]; intros H; simpl.
  - repeat constructor.
  - destruct (Qltb 0 (distanceFromRange x - distanceFromRange y)) eqn:E.
    + apply Qltb_iff in E. constructor; [exact H|]. constructor.
      unfold byDistanceDesc. lra.
    + apply Qltb_false in E. apply Sorted_inv in H as [Hl Hh].
      constructor; [apply IH; exact Hl|].
      destruct l as [|z l]; simpl.
      * constructor. unfold byDistanceDesc. lra.
      * destruct (Qltb 0 (distanceFromRange x - distanceFromRange z));
          constructor; [unfold byDistanceDesc; lra|].
        inversion Hh. assumption.
Qed.

Lemma array_sort_sorted_acc (l acc : list DevicePriority) :
  Sorted byDistanceDesc acc ->
  Sorted byDistanceDesc
    (fold_left (fun acc x => insertSorted
                  (fun a b => distanceFromRange b - distanceFromRange a) x acc) l acc).
Proof.
  revert acc. induction l as [|x l IH]; intros acc H; simpl; [exact H|].
  apply IH. apply insertSorted_sorted. exact H.
Qed.

(** X18: [calculateDevicePriorities] returns each unit once, sorted by distance
    from the range in descending order; a distance is non-negative and zero
    iff the unit is inside the range. *)
Theorem calculateDevicePriorities_spec (onlineUnits : list MiniSplitState)
  (minTemp maxTemp : Q) :
  Permutation (map dp_device (calculateDevicePriorities onlineUnits minTemp maxTemp))
    onlineUnits /\
  Sorted byDistanceDesc (calculateDevicePriorities onlineUnits minTemp maxTemp) /\
  (forall p, In p (calculateDevicePriorities onlineUnits minTemp maxTemp) ->
     0 <= distanceFromRange p /\
     (distanceFromRange p == 0 <->
        minTemp <= currentTemperature (dp_device p) <= maxTemp)).
Proof.
  unfold calculateDevicePriorities, array_sort.
  pose proof (array_sort_perm_acc (fun a b => distanceFromRange b - distanceFromRange a)
                (map (devicePriority minTemp maxTemp) onlineUnits) []) as Hp.
  rewrite app_nil_r in Hp. split; [|split].
  - rewrite Hp, map_map. simpl. rewrite map_id. reflexivity.
  - apply array_sort_sorted_acc. constructor.
  - intros p Hin. rewrite Hp in Hin. apply in_map_iff in Hin as [u [<- _]].
    unfold devicePriority. simpl.
    destruct (Qltb (currentTemperature u) minTemp) eqn:E1.
    + apply Qltb_iff in E1. split; [lra|]. split; [lra|]. lra.
    + apply Qltb_false in E1.
      destruct (Qltb maxTemp (currentTemperature u)) eqn:E2.
      * apply Qltb_iff in E2. split; [lra|]. split; [lra|]. lra.
      * apply Qltb_false in E2. split; [lra|]. split; [lra|]. lra.
Qed.

Lemma getWeatherData_cases (now : Z) (fetch : option ApiResponse) (ws : WeatherService) :
  getWeatherData now fetch ws =
  match cachedData ws with
  | Some d => if isCacheValid now ws then (d, ws) else
      match fetch with
      | Some r =>
          let d' := mkWeatherData (api_temp r) (api_humidity r) (api_description r)
                      now (api_lat r) (api_lon r) (api_name r) in
          (d', mkWeatherService (cacheDurationMs ws) (ws_lat ws) (ws_lon ws) (Some d') now)
      | None => (d, ws)
      end
  | None =>
      match fetch with
      | Some r =>
          let d' := mkWeatherData (api_temp r) (api_humidity r) (api_description r)
                      now (api_lat r) (api_lon r) (api_name r) in
          (d', mkWeatherService (cacheDurationMs ws) (ws_lat ws) (ws_lon ws) (Some d') now)
      | None => (weatherFallback now ws, ws)
      end
  end.
Proof.
  unfold getWeatherData, isCacheValid.
  destruct (cachedData ws) as [d|]; [|reflexivity].
  destruct (Z.ltb _ _); reflexivity.
Qed.

(** X19: With no cached data and a failing API, [getWeatherData] returns the
    70 F fallback without caching it. *)
Theorem getWeatherData_fallback_not_cached (now : Z) (ws : WeatherService) :
  cachedData ws = None ->
  getWeatherData now None ws = (weatherFallback now ws, ws) /\
  temperature (weatherFallback now ws) = 70 /\
  forall t, isCacheValid t (snd (getWeatherData now None ws)) = false.
Proof.
  intros H. rewrite getWeatherData_cases, H. split; [reflexivity|].
  split; [reflexivity|]. intros t. unfold isCacheValid. simpl. rewrite H. reflexivity.
Qed.

(** Witness for X19: a fresh service for 40, -74 whose fetch fails. *)
Lemma getWeatherData_fallback_not_cached_witness :
  let ws := newWeatherService (mkWeatherConfig (Some 40) (Some (-74)) None) in
  cachedData ws = None /\
  getWeatherData 1000 None ws = (weatherFallback 1000 ws, ws) /\
  temperature (weatherFallback 1000 ws) = 70 /\
  forall t, isCacheValid t (snd (getWeatherData 1000 None ws)) = false.
Proof.
  intros ws.
  assert (H : cachedData ws = None) by reflexivity.
  split; [exact H|]. exact (getWeatherData_fallback_not_cached 1000 ws H).
Defined.

(** X20: A fetch after the cache expired caches the response stamped [now]: age
    0, last update [now], valid for [cacheDurationMs] milliseconds. *)
Theorem getWeatherData_fetch_caches (now : Z) (r : ApiResponse) (ws : WeatherService) :
  isCacheValid now ws = false ->
  let '(d, ws') := getWeatherData now (Some r) ws in
  temperature d = api_temp r /\ wd_timestamp d = now /\
  cachedData ws' = Some d /\ cacheDurationMs ws' = cacheDurationMs ws /\
  getCacheAge now ws' = 0%Z /\ getLastUpdateTime ws' = Some now /\
  (forall t, isCacheValid t ws' = Z.ltb (t - now) (cacheDurationMs ws)).
Proof.
  intros H. rewrite getWeatherData_cases.
  destruct (cachedData ws) as [d|]; [rewrite H|]; simpl;
    (split; [reflexivity|]); (split; [reflexivity|]); (split; [reflexivity|]);
    (split; [reflexivity|]); (split; [unfold getCacheAge; simpl; lia|]);
    (split; [reflexivity|]); intros t; reflexivity.
Qed.

(** Witness for X20: a fresh service that fetches 55 F. *)
Lemma getWeatherData_fetch_caches_witness :
  let ws := newWeatherService (mkWeatherConfig (Some 40) (Some (-74)) None) in
  let r := mkApiResponse 55 40 "clear sky" 40 (-74) "New York" in
  isCacheValid 1000 ws = false /\
  let '(d, ws') := getWeatherData 1000 (Some r) ws in
  temperature d = api_temp r /\ wd_timestamp d = 1000%Z /\
  cachedData ws' = Some d /\ cacheDurationMs ws' = cacheDurationMs ws /\
  getCacheAge 1000 ws' = 0%Z /\ getLastUpdateTime ws' = Some 1000%Z /\
  (forall t, isCacheValid t ws' = Z.ltb (t - 1000) (cacheDurationMs ws)).
Proof.
  intros ws r.
  assert (H : isCacheValid 1000 ws = false) by reflexivity.
  split; [exact H|]. exact (getWeatherData_fetch_caches 1000 r ws H).
Defined.

(** X21: After [setMockWeather], [getWeatherData] returns the mock data without
    fetching until the cache duration has passed. *)
Theorem setMockWeather_served (t1 t2 t : Z) (temp : Q) (desc : string)
  (fetch : option ApiResponse) (ws : WeatherService) :
  (t - t2 < cacheDurationMs ws)%Z ->
  getWeatherData t fetch (setMockWeather t1 t2 temp desc ws)
  = (mkWeatherData temp 50 desc t1 (num_or (ws_lat ws) 0) (num_or (ws_lon ws) 0)
       "Mock Location", setMockWeather t1 t2 temp desc ws).
Proof.
  intros H. unfold getWeatherData. simpl.
  replace (Z.ltb (t - t2) (cacheDurationMs ws)) with true
    by (symmetry; apply Z.ltb_lt; exact H).
  reflexivity.
Qed.

(** Witness for X21: mock weather read back one minute later. *)
Lemma setMockWeather_served_witness :
  let ws := newWeatherService (mkWeatherConfig (Some 40) (Some (-74)) None) in
  (60000 - 0 < cacheDurationMs ws)%Z /\
  getWeatherData 60000 None (setMockWeather 0 0 55 "Mock Weather" ws)
  = (mkWeatherData 55 50 "Mock Weather" 0 (num_or (ws_lat ws) 0) (num_or (ws_lon ws) 0)
       "Mock Location", setMockWeather 0 0 55 "Mock Weather" ws).
Proof.
  intros ws.
  assert (H : (60000 - 0 < cacheDurationMs ws)%Z) by (vm_compute; reflexivity).
  split; [exact H|]. exact (setMockWeather_served 0 0 60000 55 "Mock Weather" None ws H).
Defined.

(** X22: After [clearCache] the cache is invalid, its age is -1, there is no last
    update time, and a failed fetch returns the fallback. *)
Theorem clearCache_spec (t : Z) (ws : WeatherService) :
  isCacheValid t (clearCache ws) = false /\
  getCacheAge t (clearCache ws) = (-1)%Z /\
  getLastUpdateTime (clearCache ws) = None /\
  getWeatherData t None (clearCache ws) = (weatherFallback t ws, clearCache ws).
Proof. repeat split. Qed.

(** X23: The constructor accepts a configuration whose request carries no
    location iff the API key is set, no zip code is given and exactly one of
    [lat] and [lon] is set and non-zero. *)
Theorem weather_location_gap (c : WeatherOptions) :
  (checkWeatherConfig c = None /\ fetchLocationParams c = NoLocationParams) <->
  (wo_apiKey c <> ""%string /\ str_truthy (wo_zipCode c) = false /\
   xorb (num_truthy (wo_lat c)) (num_truthy (wo_lon c)) = true).
Proof.
  unfold checkWeatherConfig, fetchLocationParams.
  destruct (String.eqb_spec (wo_apiKey c) "") as [Ek|Ek].
  - split; [intros [H _]; discriminate|intros [H _]; contradiction].
  - destruct (num_truthy (wo_lat c)), (num_truthy (wo_lon c)),
      (str_truthy (wo_zipCode c)); simpl;
      (split; [intros [H1 H2]; try discriminate; auto
              |intros [_ [H1 H2]]; try discriminate; auto]).
Qed.

Lemma Qfloor_eq (z : Z) (y : Q) : inject_Z z <= y -> y < inject_Z z + 1 -> Qfloor y = z.
Proof.
  intros H1 H2.
  pose proof (Qfloor_le y) as F1. pose proof (Qlt_floor y) as F2.
  rewrite inject_Z_plus in F2. change (inject_Z 1) with 1 in F2.
  assert (A : (Qfloor y < z + 1)%Z).
  { rewrite Zlt_Qlt, inject_Z_plus. change (inject_Z 1) with 1. lra. }
  assert (B : (z < Qfloor y + 1)%Z).
  { rewrite Zlt_Qlt, inject_Z_plus. change (inject_Z 1) with 1. lra. }
  lia.
Qed.

Lemma Math_round_bounds (x : Q) : x - (1 # 2) < Math_round x <= x + (1 # 2).
Proof.
  unfold Math_round.
  pose proof (Qfloor_le (x + (1 # 2))). pose proof (Qlt_floor (x + (1 # 2))).
  rewrite inject_Z_plus in H0. change (inject_Z 1) with 1 in H0. lra.
Qed.

Lemma Math_round_eq (x : Q) (z : Z) :
  inject_Z z - (1 # 2) <= x -> x < inject_Z z + (1 # 2) -> Math_round x = inject_Z z.
Proof.
  intros H1 H2. unfold Math_round. f_equal. apply Qfloor_eq; lra.
Qed.

Theorem setpointToRangeTemp_integer (z : Z) :
  setpointToRangeTemp (inject_Z z) = inject_Z z.
Proof.
  unfold setpointToRangeTemp.
  pose proof (Math_round_bounds ((inject_Z z - 32) * 5 / 9 * 10)) as [B1 B2].
  set (r := Math_round _) in *.
  unfold Qdiv in *.
  change (/ 10) with (1 # 10) in *. change (/ 9) with (1 # 9) in *.
  change (/ 5) with (1 # 5) in *.
  apply Math_round_eq; lra.
Qed.

(** X24: The Matter system mode published for a coordinator mode maps back to
    that mode; off is published as 1. *)
Theorem matterSystemMode_roundtrip :
  (forall m, modeFromMatter (matterSystemMode m) = m) /\
  matterSystemMode Off = 1%Z /\ modeFromMatter 1 = Off.
Proof. split; [intros []; reflexivity|split; reflexivity]. Qed.

(** X25: With the repository's configuration, which has no
    [coordinator.lightingMonitor], both Matter setpoint handlers throw in
    [getCoordinatorStatus] and never call [setGlobalTemperatureRange]. With
    that section present, an integer setpoint is requested unchanged as the
    new minimum (heating) or maximum (cooling), and the range update is
    accepted only within 50..max (min..90). *)
Theorem matter_setpoint_range (lm : LightingMonitorModel.LightingMonitor)
  (cfg : LightingMonitorModel.LightingMonitorConfig) (v : Q) (z : Z) (s : SystemState) :
  heatingSetpointRange LightingMonitorModel.configLightingMonitor lm v s
    = inl (LightingMonitorModel.CannotReadProperty "enabled") /\
  coolingSetpointRange LightingMonitorModel.configLightingMonitor lm v s
    = inl (LightingMonitorModel.CannotReadProperty "enabled") /\
  heatingSetpointRange (Some cfg) lm (inject_Z z) s = inr (inject_Z z, globalMaxTemp s) /\
  coolingSetpointRange (Some cfg) lm (inject_Z z) s = inr (globalMinTemp s, inject_Z z) /\
  (fst (updateGlobalTemperatureRange (inject_Z z) (globalMaxTemp s) s) = inr tt <->
   (50 <= z)%Z /\ inject_Z z < globalMaxTemp s /\ globalMaxTemp s <= 90) /\
  (fst (updateGlobalTemperatureRange (globalMinTemp s) (inject_Z z) s) = inr tt <->
   50 <= globalMinTemp s /\ globalMinTemp s < inject_Z z /\ (z <= 90)%Z).
Proof.
  unfold heatingSetpointRange, coolingSetpointRange, getCoordinatorStatusRange.
  cbn [LightingMonitorModel.configLightingMonitor LightingMonitorModel.getStatus].
  rewrite setpointToRangeTemp_integer.
  do 4 (split; [reflexivity|]).
  unfold updateGlobalTemperatureRange, Qltb.
  assert (Hz50 : (50 <= z)%Z <-> 50 <= inject_Z z)
    by (change 50 with (inject_Z 50); rewrite <- Zle_Qle; reflexivity).
  assert (Hz90 : (z <= 90)%Z <-> inject_Z z <= 90)
    by (change 90 with (inject_Z 90); rewrite <- Zle_Qle; reflexivity).
  split.
  - destruct (Qle_bool (globalMaxTemp s) (inject_Z z)) eqn:E1.
    + apply Qle_bool_iff in E1. split; [discriminate|intros [_ [H _]]; lra].
    + apply Qle_bool_false in E1.
      destruct (Qle_bool 50 (inject_Z z)) eqn:E2;
        [apply Qle_bool_iff in E2|apply Qle_bool_false in E2];
      destruct (Qle_bool (globalMaxTemp s) 90) eqn:E3;
        [apply Qle_bool_iff in E3|apply Qle_bool_false in E3|
         apply Qle_bool_iff in E3|apply Qle_bool_false in E3]; cbn.
      * split; [intros _; split; [apply Hz50; exact E2|split; lra]|reflexivity].
      * split; [discriminate|intros [_ [_ H]]; lra].
      * split; [discriminate|intros [H _]; apply Hz50 in H; lra].
      * split; [discriminate|intros [H _]; apply Hz50 in H; lra].
  - destruct (Qle_bool (inject_Z z) (globalMinTemp s)) eqn:E1.
    + apply Qle_bool_iff in E1. split; [discriminate|intros [_ [H _]]; lra].
    + apply Qle_bool_false in E1.
      destruct (Qle_bool 50 (globalMinTemp s)) eqn:E2;
        [apply Qle_bool_iff in E2|apply Qle_bool_false in E2];
      destruct (Qle_bool (inject_Z z) 90) eqn:E3;
        [apply Qle_bool_iff in E3|apply Qle_bool_false in E3|
         apply Qle_bool_iff in E3|apply Qle_bool_false in E3]; cbn.
      * split; [intros _; split; [exact E2|split; [lra|apply Hz90; exact E3]]|reflexivity].
      * split; [discriminate|intros [_ [_ H]]; apply Hz90 in H; lra].
      * split; [discriminate|intros [H _]; lra].
      * split; [discriminate|intros [H _]; lra].
Qed.

Lemma includes_app_r (p s t : string) :
  includes p t = true -> includes p (String.append s t) = true.
Proof.
  induction s as [|a s IH]; intros H; [exact H|].
  cbn [String.append includes]. apply orb_true_iff. right. apply IH, H.
Qed.

Module LightingMonitorProofs.
Import SmartThingsDeviceManager LightingMonitorModel.

Section Oracles.
Context {W : Type}
  (oauthAuthenticated : W -> bool) (tokenAvailable : W -> bool)
  (listDevices : W -> option (list SmartThingsDevice))
  (lightingStateValue : W -> string -> option (option string))
  (sendCommand : W -> string -> DeviceCommand -> W * option ApiError)
  (clock : W -> Z)
  (miniSplitIds roomNames : list string).

Lemma tryCommands_error (w w' : W) (deviceId : string) (cmds : list DeviceCommand) (e : ApiError) :
  tryCommands oauthAuthenticated tokenAvailable sendCommand w deviceId cmds = (w', Some e) ->
  e = allLightingFailed deviceId \/ is422Error e = false.
Proof.
  revert w. induction cmds as [|c cmds IH]; intros w H; cbn in H.
  - left. congruence.
  - destruct (executeDeviceCommand _ _ _ w deviceId c) as [w1 [e1|]].
    + destruct (is422Error e1) eqn:E; [exact (IH _ H)|right; congruence].
    + discriminate.
Qed.

Lemma executeDeviceCommand_422 (w w' : W) (deviceId : string) (c : DeviceCommand) (e : ApiError) :
  includes "422" deviceId = true ->
  executeDeviceCommand oauthAuthenticated tokenAvailable sendCommand w deviceId c = (w', Some e) ->
  e = authRequired \/ is422Error e = true.
Proof.
  intros Hid H. unfold executeDeviceCommand in H.
  destruct (getClient _ _ w); [|left; congruence].
  destruct (sendCommand w deviceId c) as [w1 [e1|]]; cbn in H; [|discriminate].
  right. injection H as _ <-. unfold is422Error. cbn [ae_message].
  rewrite (includes_app_r "422" _ _ (includes_app_r "422" _ _ (includes_app_r "422" _ _ Hid))).
  rewrite orb_true_r. reflexivity.
Qed.

Lemma tryCommands_422 (w w' : W) (deviceId : string) (cmds : list DeviceCommand) (e : ApiError) :
  includes "422" deviceId = true ->
  tryCommands oauthAuthenticated tokenAvailable sendCommand w deviceId cmds = (w', Some e) ->
  e = allLightingFailed deviceId \/ e = authRequired.
Proof.
  intros Hid. revert w. induction cmds as [|c cmds IH]; intros w H; cbn [tryCommands] in H.
  - left. congruence.
  - destruct (executeDeviceCommand _ _ _ w deviceId c) as [w1 [e1|]] eqn:Ex.
    + destruct (executeDeviceCommand_422 _ _ _ _ _ Hid Ex) as [->|E].
      * change (is422Error authRequired) with false in H. right. congruence.
      * rewrite E in H. exact (IH _ H).
    + discriminate.
Qed.

(** X26: [turnOffLighting] succeeds with no command for a device without the
    lighting capability; its errors are the capability lookup's, the
    all-commands-failed error, or a non-422 command error. *)
Theorem turnOffLighting_spec (w : W) (deviceId : string) :
  (hasLightingCapability oauthAuthenticated tokenAvailable listDevices w deviceId = inr false ->
   turnOffLighting oauthAuthenticated tokenAvailable listDevices sendCommand w deviceId = (w, None)) /\
  (forall w' e,
   turnOffLighting oauthAuthenticated tokenAvailable listDevices sendCommand w deviceId = (w', Some e) ->
   hasLightingCapability oauthAuthenticated tokenAvailable listDevices w deviceId = inl e \/
   e = allLightingFailed deviceId \/ is422Error e = false).
Proof.
  unfold turnOffLighting. split.
  - intros ->. reflexivity.
  - intros w' e H.
    destruct (hasLightingCapability _ _ _ w deviceId) as [e1|[|]].
    + left. congruence.
    + right. exact (tryCommands_error _ _ _ _ _ H).
    + discriminate.
Qed.

(** X27: For a device id containing 422 every command error counts as a 422, so
    [turnOffLighting] fails only with the capability lookup's error, the
    all-commands-failed error or the authentication error. *)
Theorem turnOffLighting_422_device (w w' : W) (deviceId : string) (e : ApiError) :
  includes "422" deviceId = true ->
  turnOffLighting oauthAuthenticated tokenAvailable listDevices sendCommand w deviceId = (w', Some e) ->
  hasLightingCapability oauthAuthenticated tokenAvailable listDevices w deviceId = inl e \/
  e = allLightingFailed deviceId \/ e = authRequired.
Proof.
  intros Hid H. unfold turnOffLighting in H.
  destruct (hasLightingCapability _ _ _ w deviceId) as [e1|[|]].
  - left. congruence.
  - right. exact (tryCommands_422 _ _ _ _ _ Hid H).
  - discriminate.
Qed.

Lemma in_take {A} (n : nat) (l : list A) (x : A) : In x (take n l) -> In x l.
Proof.
  revert n. induction l as [|a l IH]; intros [|n]; cbn; try tauto.
  intros [H|H]; [left; exact H|right; exact (IH n H)].
Qed.

Lemma addEvent_in (e ev : LightingEvent) (lm : LightingMonitor) :
  In ev (recentEvents (addEvent e lm)) -> ev = e \/ In ev (recentEvents lm).
Proof.
  unfold addEvent. cbn [recentEvents set_recentEvents].
  destruct (Nat.ltb _ _); intros H; [apply in_take in H|]; destruct H as [H|H]; auto.
Qed.

Lemma getLightingStatus_inr (w : W) (deviceId : string) :
  exists v, getLightingStatus oauthAuthenticated tokenAvailable lightingStateValue w deviceId = inr v.
Proof.
  unfold getLightingStatus.
  destruct (getDeviceStatus _ _ _ w deviceId); eexists; reflexivity.
Qed.


Lemma checkOne_fold (ids : list string) (w : W) (lm : LightingMonitor) :
  let lm' := snd (fold_left (checkOne oauthAuthenticated tokenAvailable listDevices
                              lightingStateValue sendCommand clock miniSplitIds roomNames)
                    ids (w, lm)) in
  lm_totalChecks lm' = lm_totalChecks lm /\ lm_lastCheckTime lm' = lm_lastCheckTime lm /\
  devicesWithLighting lm' = devicesWithLighting lm /\ lm_isRunning lm' = lm_isRunning lm /\
  (lm_totalLightsOff lm <= lm_totalLightsOff lm' <=
     lm_totalLightsOff lm + Z.of_nat (length ids))%Z /\
  (forall ev, In ev (recentEvents lm') -> eventFrom (recentEvents lm) ev).
Proof.
  revert w lm. induction ids as [|id ids IH]; intros w lm; cbn zeta.
  - cbn [fold_left snd length Z.of_nat]. split; [|split; [|split; [|split; [|split; [lia|]]]]]; try reflexivity.
    intros ev H. left. exact H.
  - cbn [fold_left].
    assert (Step : forall p, p = checkOne oauthAuthenticated tokenAvailable listDevices
                                 lightingStateValue sendCommand clock miniSplitIds roomNames (w, lm) id ->
      lm_totalChecks (snd p) = lm_totalChecks lm /\ lm_lastCheckTime (snd p) = lm_lastCheckTime lm /\
      devicesWithLighting (snd p) = devicesWithLighting lm /\ lm_isRunning (snd p) = lm_isRunning lm /\
      (lm_totalLightsOff lm <= lm_totalLightsOff (snd p) <= lm_totalLightsOff lm + 1)%Z /\
      (forall ev, In ev (recentEvents (snd p)) -> eventFrom (recentEvents lm) ev)).
    { intros p ->. unfold checkOne.
      destruct (getLightingStatus_inr w id) as [v Hv]. rewrite Hv.
      destruct v as [st|].
      - destruct (String.eqb st "on").
        + destruct (turnOffLighting _ _ _ _ w id) as [w1 [e|]].
          * cbn. split; [|split; [|split; [|split; [|split; [lia|]]]]]; try reflexivity.
            intros ev H. apply addEvent_in in H as [->|H]; [right; left; reflexivity|left; exact H].
          * cbn. split; [|split; [|split; [|split; [|split; [lia|]]]]]; try reflexivity.
            intros ev H. apply addEvent_in in H as [->|H]; [right; left; reflexivity|left; exact H].
        + cbn. split; [|split; [|split; [|split; [|split; [lia|]]]]]; try reflexivity.
          intros ev H. apply addEvent_in in H as [->|H]; [right; right; reflexivity|left; exact H].
      - cbn. split; [|split; [|split; [|split; [|split; [lia|]]]]]; try reflexivity.
        intros ev H. left. exact H. }
    destruct (checkOne _ _ _ _ _ _ _ _ (w, lm) id) as [w1 lm1] eqn:E.
    destruct (Step (w1, lm1) eq_refl) as (S1 & S2 & S3 & S4 & S5 & S6). cbn [snd] in *.
    destruct (IH w1 lm1) as (I1 & I2 & I3 & I4 & I5 & I6).
    split; [congruence|split; [congruence|split; [congruence|split; [congruence|split]]]].
    + rewrite length_cons, Nat2Z.inj_succ. lia.
    + intros ev H. destruct (I6 ev H) as [H1|H1]; [exact (S6 ev H1)|right; exact H1].
Qed.

(** X28: [checkAndTurnOffLighting] does nothing without authentication; otherwise
    it counts the check, raises [totalLightsOff] by at most the number of
    lighting devices and never records a Check failed event. *)
Theorem checkAndTurnOffLighting_spec (w : W) (lm : LightingMonitor) :
  (oauthAuthenticated w = false ->
   checkAndTurnOffLighting oauthAuthenticated tokenAvailable listDevices lightingStateValue
     sendCommand clock miniSplitIds roomNames w lm = (w, lm)) /\
  (oauthAuthenticated w = true ->
   let lm' := snd (checkAndTurnOffLighting oauthAuthenticated tokenAvailable listDevices
                     lightingStateValue sendCommand clock miniSplitIds roomNames w lm) in
   lm_totalChecks lm' = (lm_totalChecks lm + 1)%Z /\ lm_lastCheckTime lm' = clock w /\
   devicesWithLighting lm' = devicesWithLighting lm /\ lm_isRunning lm' = lm_isRunning lm /\
   (lm_totalLightsOff lm <= lm_totalLightsOff lm' <=
      lm_totalLightsOff lm + Z.of_nat (length (devicesWithLighting lm)))%Z /\
   (forall ev, In ev (recentEvents lm') ->
      In ev (recentEvents lm) \/ le_previousState ev = "on"%string \/
      le_previousState ev = "off"%string)).
Proof.
  unfold checkAndTurnOffLighting. split.
  - intros ->. reflexivity.
  - intros ->. cbn zeta.
    exact (checkOne_fold _ w (mkLightingMonitor (lm_isRunning lm) (clock w) (lm_totalChecks lm + 1)
             (lm_totalLightsOff lm) (recentEvents lm) (devicesWithLighting lm))).
Qed.

Lemma manualOne_fold (ids : list string) (w w' : W) (lm lm' : LightingMonitor)
  (res res' : TurnOffResults) :
  fold_left (manualOne oauthAuthenticated tokenAvailable listDevices sendCommand clock
               miniSplitIds roomNames) ids (w, lm, res) = (w', lm', res') ->
  (success res' + failed res' = success res + failed res + Z.of_nat (length ids))%Z /\
  (Z.of_nat (length (errors res')) - failed res' =
     Z.of_nat (length (errors res)) - failed res)%Z /\
  (success res <= success res')%Z /\ (failed res <= failed res')%Z /\
  lm_totalLightsOff lm' = lm_totalLightsOff lm /\
  devicesWithLighting lm' = devicesWithLighting lm /\
  lm_totalChecks lm' = lm_totalChecks lm.
Proof.
  revert w lm res. induction ids as [|id ids IH]; intros w lm res H.
  - cbn [fold_left] in H. injection H as <- <- <-. cbn [length Z.of_nat].
    repeat split; lia.
  - cbn [fold_left] in H. unfold manualOne at 2 in H.
    destruct (turnOffLighting _ _ _ _ w id) as [w1 [e|]].
    + destruct (IH _ _ _ H) as (I1 & I2 & I3 & I4 & I5 & I6 & I7).
      cbn [success failed errors lm_totalLightsOff devicesWithLighting lm_totalChecks
           addEvent set_recentEvents] in *.
      rewrite length_app in I2. cbn [length] in I2. rewrite length_cons.
      repeat split; (lia || congruence).
    + destruct (IH _ _ _ H) as (I1 & I2 & I3 & I4 & I5 & I6 & I7).
      cbn [success failed errors lm_totalLightsOff devicesWithLighting lm_totalChecks
           addEvent set_recentEvents] in *.
      rewrite length_cons. repeat split; (lia || congruence).
Qed.

(** X29: [manualTurnOffAllLighting] returns one error without authentication;
    otherwise success plus failed is the number of lighting devices, one
    message per failure, and [totalLightsOff] grows by the successes. *)
Theorem manualTurnOffAllLighting_spec (w : W) (lm : LightingMonitor) :
  (oauthAuthenticated w = false ->
   manualTurnOffAllLighting oauthAuthenticated tokenAvailable listDevices sendCommand clock
     miniSplitIds roomNames w lm
   = (w, lm, mkTurnOffResults 0 0 ["SmartThings authentication not available"%string])) /\
  (forall w' lm' res, oauthAuthenticated w = true ->
   manualTurnOffAllLighting oauthAuthenticated tokenAvailable listDevices sendCommand clock
     miniSplitIds roomNames w lm = (w', lm', res) ->
   (success res + failed res = Z.of_nat (length (devicesWithLighting lm)))%Z /\
   Z.of_nat (length (errors res)) = failed res /\
   (0 <= success res)%Z /\ (0 <= failed res)%Z /\
   lm_totalLightsOff lm' = (lm_totalLightsOff lm + success res)%Z /\
   devicesWithLighting lm' = devicesWithLighting lm /\
   lm_totalChecks lm' = lm_totalChecks lm).
Proof.
  unfold manualTurnOffAllLighting. split.
  - intros ->. reflexivity.
  - intros w' lm' res Ha H. rewrite Ha in H. cbn [negb] in H.
    destruct (fold_left _ _ _) as [[w1 lm1] res1] eqn:F.
    injection H as <- <- <-.
    destruct (manualOne_fold _ _ _ _ _ _ _ F) as (I1 & I2 & I3 & I4 & I5 & I6 & I7).
    cbn [success failed errors length Z.of_nat] in *.
    cbn [lm_totalLightsOff devicesWithLighting lm_totalChecks set_totalLightsOff].
    repeat split; (lia || congruence).
Qed.

(** X30: With the repository's configuration, which has no
    [coordinator.lightingMonitor], [start] throws a [TypeError] and changes
    nothing. With that section present, [start] returns normally and the
    monitor then runs iff it already ran, or it is enabled and discovery
    found a device with lighting. *)
Theorem start_spec (w : W) (lm : LightingMonitor) (cfg : LightingMonitorConfig) :
  start oauthAuthenticated tokenAvailable listDevices lightingStateValue sendCommand clock
    configLightingMonitor miniSplitIds roomNames w lm
  = (inl (CannotReadProperty "enabled"), (w, lm)) /\
  fst (start oauthAuthenticated tokenAvailable listDevices lightingStateValue sendCommand
         clock (Some cfg) miniSplitIds roomNames w lm) = inr tt /\
  lm_isRunning (snd (snd (start oauthAuthenticated tokenAvailable listDevices
                            lightingStateValue sendCommand clock (Some cfg)
                            miniSplitIds roomNames w lm)))
  = lm_isRunning lm ||
    (lmc_enabled cfg && negb (Nat.eqb (length (devicesWithLighting
        (initializeDevicesWithLighting oauthAuthenticated tokenAvailable listDevices
           miniSplitIds w lm))) 0)).
Proof.
  split; [reflexivity|].
  unfold start.
  destruct (lmc_enabled cfg); cbn [negb andb];
    [|split; [reflexivity|cbn [snd]; rewrite orb_false_r; reflexivity]].
  destruct (lm_isRunning lm) eqn:R;
    [split; [reflexivity|cbn [snd]; rewrite R; reflexivity]|cbn [orb]].
  set (lm1 := initializeDevicesWithLighting _ _ _ _ w lm).
  assert (R1 : lm_isRunning lm1 = false).
  { unfold lm1, initializeDevicesWithLighting. destruct (oauthAuthenticated w); exact R. }
  destruct (Nat.eqb (length (devicesWithLighting lm1)) 0);
    [split; [reflexivity|cbn [snd negb]; exact R1]|].
  split; [reflexivity|]. cbn [snd negb].
  unfold checkAndTurnOffLighting.
  destruct (oauthAuthenticated w); [|reflexivity].
  cbn zeta.
  destruct (checkOne_fold (devicesWithLighting (set_isRunning lm1 true)) w
    (mkLightingMonitor (lm_isRunning (set_isRunning lm1 true)) (clock w)
       (lm_totalChecks (set_isRunning lm1 true) + 1)
       (lm_totalLightsOff (set_isRunning lm1 true)) (recentEvents (set_isRunning lm1 true))
       (devicesWithLighting (set_isRunning lm1 true)))) as (_ & _ & _ & H & _).
  refine (eq_trans H _). reflexivity.
Qed.

End Oracles.

(** Witness for X27: device [dev-422], every command answered with HTTP 500;
    all six commands are tried. *)
Lemma turnOffLighting_422_device_witness :
  includes "422" "dev-422" = true /\
  turnOffLighting (fun _ : nat => true) (fun _ => true) lightingDevices failingSend
    0%nat "dev-422" = (6%nat, Some (allLightingFailed "dev-422")) /\
  (hasLightingCapability (fun _ : nat => true) (fun _ => true) lightingDevices 0%nat "dev-422"
     = inl (allLightingFailed "dev-422") \/
   allLightingFailed "dev-422" = allLightingFailed "dev-422" \/
   allLightingFailed "dev-422" = authRequired).
Proof.
  assert (H1 : includes "422" "dev-422" = true) by reflexivity.
  assert (H2 : turnOffLighting (fun _ : nat => true) (fun _ => true) lightingDevices failingSend
                 0%nat "dev-422" = (6%nat, Some (allLightingFailed "dev-422")))
    by (vm_compute; reflexivity).
  split; [exact H1|split; [exact H2|]].
  exact (turnOffLighting_422_device (fun _ : nat => true) (fun _ => true) lightingDevices
           failingSend 0%nat 6%nat "dev-422" _ H1 H2).
Defined.

End LightingMonitorProofs.
